(** * A shallow embedding of the USB device driver of [base]

    The development follows the C sources:
    - [src/utils/cqeue.c]      the interrupt-safe circular byte queue,
    - [src/driver/usb.c]       endpoint registers, packet memory, the
                               interrupt handlers [ctr0] and [data_ctr],
    - [src/driver/usb_enum.c]  SETUP dispatch, descriptors, CP2102 requests.

    C [int] and [uintN_t] values are integers of [Z] with the wrap-around
    written out; arrays are lists read and written by index; the globals of
    the driver and the memory-mapped registers form one record that every
    function takes and returns.  Functions that may halt ([panic]), wait on
    a flag that only an interrupt clears, or run past an array return a
    [result].

    [dbg_print] and [dbg_printi] write to the debug port when [DEBUG] is
    defined and touch no state of the driver; they are left out, and
    [panic] keeps the message it is called with. *)

From Stdlib Require Import ZArith List String Ascii Lia Bool.
From stdpp Require Import base list.

Local Open Scope Z_scope.

(** ** Machine integers *)

(** [int] on the Cortex-M3: 32 bits, two's complement. *)
Definition int32 (z : Z) : Z := (z + 2 ^ 31) mod 2 ^ 32 - 2 ^ 31.
Definition uint16 (z : Z) : Z := z mod 2 ^ 16.
(** [char] is unsigned under the ARM EABI; [uint8_t] is the same type. *)
Definition uint8 (z : Z) : Z := z mod 2 ^ 8.

Definition INT_MAX : Z := 2 ^ 31 - 1.

(** ** Arrays

    An array is a list indexed by a [Z] offset.  Reading outside the list
    yields 0 and writing outside it changes nothing; the functions below say
    where the C code would leave its array. *)

Definition rd (l : list Z) (i : Z) : Z :=
  if i <? 0 then 0 else default 0 (l !! Z.to_nat i).

Definition wr (l : list Z) (i : Z) (v : Z) : list Z :=
  if i <? 0 then l else <[Z.to_nat i := v]> l.

(** ** The circular queue ([src/utils/cqeue.c], [src/include/cqeue.h])

    The pointers [bp], [ip], [op] and [limit] are offsets into the backing
    storage [buf]; [cq_init] sets [bp] to offset 0. *)

Record cqueue : Type := mk_cqueue {
  q_buf : list Z;
  q_bp : Z;
  q_ip : Z;
  q_op : Z;
  q_limit : Z;
  q_size : Z;
  q_count : Z;
  q_toss : Z
}.

Definition cq_init (buf : list Z) (size : Z) : cqueue :=
  {| q_buf := buf; q_size := size; q_count := 0;
     q_ip := 0; q_op := 0; q_bp := 0;
     q_limit := 0 + size;
     q_toss := 0 |}.

Definition cq_count (qp : cqueue) : Z := q_count qp.

Definition cq_space (qp : cqueue) : Z := int32 (q_size qp - q_count qp).

Definition cq_toss (qp : cqueue) : Z := q_toss qp.

Definition cq_add (qp : cqueue) (ch : Z) : cqueue :=
  if q_count qp <? q_size qp then
    let count' := int32 (q_count qp + 1) in
    let buf' := wr (q_buf qp) (q_ip qp) (uint8 ch) in
    let ip' := q_ip qp + 1 in
    let ip'' := if ip' >=? q_limit qp then q_bp qp else ip' in
    {| q_buf := buf'; q_bp := q_bp qp; q_ip := ip''; q_op := q_op qp;
       q_limit := q_limit qp; q_size := q_size qp; q_count := count';
       q_toss := q_toss qp |}
  else
    {| q_buf := q_buf qp; q_bp := q_bp qp; q_ip := q_ip qp; q_op := q_op qp;
       q_limit := q_limit qp; q_size := q_size qp; q_count := q_count qp;
       q_toss := int32 (q_toss qp + 1) |}.

(** [cq_remove] returns the queue after the call and the [int] result:
    [-1] when the queue is empty, else the byte read. *)
Definition cq_remove (qp : cqueue) : cqueue * Z :=
  if q_count qp <? 1 then (qp, -1)
  else
    let ch := rd (q_buf qp) (q_op qp) in
    let op' := q_op qp + 1 in
    let op'' := if op' >=? q_limit qp then q_bp qp else op' in
    ({| q_buf := q_buf qp; q_bp := q_bp qp; q_ip := q_ip qp; q_op := op'';
        q_limit := q_limit qp; q_size := q_size qp;
        q_count := int32 (q_count qp - 1); q_toss := q_toss qp |}, ch).

(** A trace of calls made on one queue. *)
Inductive cq_call : Type :=
| Add (ch : Z)
| Remove.

Definition cq_step (qp : cqueue) (c : cq_call) : cqueue :=
  match c with
  | Add ch => cq_add qp ch
  | Remove => fst (cq_remove qp)
  end.

Definition cq_run (qp : cqueue) (cs : list cq_call) : cqueue :=
  fold_left cq_step cs qp.

(** Counters kept beside the queue while a trace runs: calls of [cq_add],
    calls of [cq_remove] that returned a byte. *)
Record cq_tally : Type := mk_tally { pushes : Z; pops : Z }.

Definition cq_tally_step (st : cqueue * cq_tally) (c : cq_call)
  : cqueue * cq_tally :=
  let (qp, t) := st in
  match c with
  | Add ch => (cq_add qp ch, {| pushes := pushes t + 1; pops := pops t |})
  | Remove =>
      (fst (cq_remove qp),
       {| pushes := pushes t;
          pops := if q_count qp <? 1 then pops t else pops t + 1 |})
  end.

Definition cq_run_tally (qp : cqueue) (cs : list cq_call) : cqueue * cq_tally :=
  fold_left cq_tally_step cs (qp, {| pushes := 0; pops := 0 |}).

(** Push a list of bytes, first byte first. *)
Definition cq_add_all (qp : cqueue) (bs : list Z) : cqueue :=
  fold_left cq_add bs qp.

(** Call [cq_remove] [n] times and collect the results in call order. *)
Fixpoint cq_remove_n (n : nat) (qp : cqueue) : cqueue * list Z :=
  match n with
  | O => (qp, [])
  | S n' =>
      let (qp', ch) := cq_remove qp in
      let (qp'', rest) := cq_remove_n n' qp' in
      (qp'', ch :: rest)
  end.

(** The unread bytes of a queue, oldest first: [count] bytes starting at
    [op], wrapping at [limit]. *)
Definition cq_wrap (qp : cqueue) (i : Z) : Z :=
  if i >=? q_limit qp then i - q_size qp else i.

Definition cq_contents (qp : cqueue) : list Z :=
  map (fun k : nat => rd (q_buf qp) (cq_wrap qp (q_op qp + Z.of_nat k)))
      (seq 0 (Z.to_nat (q_count qp))).

(** ** Endpoint registers ([src/driver/usb.c])

    Bit masks of the [USB_EPnR] registers, of [USB_ISTR] and of
    [USB_DADDR].  The CMSIS header [stm32f10x.h] that declares them is not
    part of the sources; the values are those of the STM32F10x device
    header. *)

Definition USB_EP0R_CTR_RX : Z := 0x8000.
Definition USB_EP0R_DTOG_RX : Z := 0x4000.
Definition USB_EP0R_STAT_RX : Z := 0x3000.
Definition USB_EP0R_SETUP : Z := 0x0800.
Definition USB_EP0R_EP_TYPE : Z := 0x0600.
Definition USB_EP0R_EP_TYPE_0 : Z := 0x0200.
Definition USB_EP0R_EP_KIND : Z := 0x0100.
Definition USB_EP0R_CTR_TX : Z := 0x0080.
Definition USB_EP0R_DTOG_TX : Z := 0x0040.
Definition USB_EP0R_STAT_TX : Z := 0x0030.
Definition USB_EP0R_STAT_TX_0 : Z := 0x0010.
Definition USB_EP0R_STAT_TX_1 : Z := 0x0020.
Definition USB_EP0R_EA : Z := 0x000F.

Definition USB_ISTR_CTR : Z := 0x8000.
Definition USB_ISTR_RESET : Z := 0x0400.
Definition USB_DADDR_EF : Z := 0x80.

Definition EP_COUNT : Z := 8.
Definition EP0R : Z := 0.
Definition EP1R : Z := 1.

Definition F_RX_BUSY : Z := 0x01.
Definition F_TX_BUSY : Z := 0x02.
Definition F_TX_REM : Z := 0x80.

Definition IN_BUF_SIZE : Z := 256.
Definition EP0R_TX_BUF_INDEX : Z := 1.
Definition EP0R_RX_BUF_INDEX : Z := 2.
Definition EP1R_TX_BUF_INDEX : Z := 3.
Definition EP1R_RX_BUF_INDEX : Z := 4.
Definition COUNT_RX_VALUE : Z := Z.lor 0x8000 (Z.shiftl 1 10).
Definition ENDPOINT_LIMIT : Z := 64.
Definition SETUP_BUF : Z := 10.

Definition EP_TOGGLE_TX : Z :=
  Z.lor (Z.lor USB_EP0R_DTOG_RX USB_EP0R_DTOG_TX) USB_EP0R_STAT_RX.
Definition EP_TOGGLE_RX : Z :=
  Z.lor (Z.lor USB_EP0R_DTOG_RX USB_EP0R_DTOG_TX) USB_EP0R_STAT_TX.
Definition EP_TOGGLE_ALL : Z :=
  Z.lor (Z.lor (Z.lor USB_EP0R_DTOG_RX USB_EP0R_DTOG_TX) USB_EP0R_STAT_TX)
        USB_EP0R_STAT_RX.

(** The value each endpoint function computes from the register value it
    read and then stores to the register.  [~m] on a 32-bit operand is
    [Z.lnot m]; and-ing it into a value of the range [0, 2^32) stays in
    that range. *)

Definition set_rx_ready_val (val : Z) : Z :=
  let val := Z.land val (Z.lnot USB_EP0R_CTR_RX) in
  let val := Z.lor val USB_EP0R_CTR_TX in
  let val := Z.land val (Z.lnot EP_TOGGLE_RX) in
  Z.lxor val USB_EP0R_STAT_RX.

Definition clear_rx_val (val : Z) : Z :=
  let val := Z.land val (Z.lnot USB_EP0R_CTR_RX) in
  Z.land val (Z.lnot EP_TOGGLE_ALL).

Definition clear_tx_val (val : Z) : Z :=
  let val := Z.land val (Z.lnot USB_EP0R_CTR_TX) in
  let val := Z.lor val USB_EP0R_CTR_RX in
  Z.land val (Z.lnot EP_TOGGLE_ALL).

(** [val &= ~USB_EP0R_CTR_RX | USB_EP0R_CTR_TX;] parses as
    [(~CTR_RX) | CTR_TX]. *)
Definition stall_val (val : Z) : Z :=
  let val := Z.land val (Z.lor (Z.lnot USB_EP0R_CTR_RX) USB_EP0R_CTR_TX) in
  let val := Z.land val (Z.lnot EP_TOGGLE_RX) in
  Z.lxor val USB_EP0R_STAT_TX_0.

Definition set_tx_valid_val (val : Z) : Z :=
  let val := Z.land val (Z.lnot USB_EP0R_CTR_TX) in
  let val := Z.lor val USB_EP0R_CTR_RX in
  let val := Z.land val (Z.lnot EP_TOGGLE_TX) in
  Z.lxor val USB_EP0R_STAT_TX.

Definition set_tx_nak_val (val : Z) : Z :=
  let val := Z.land val (Z.lnot USB_EP0R_CTR_TX) in
  let val := Z.lor val USB_EP0R_CTR_RX in
  let val := Z.land val (Z.lnot EP_TOGGLE_TX) in
  Z.lxor val USB_EP0R_STAT_TX_1.

(** Modelled from the spec: the endpoint register itself is hardware and
    is missing from the sources.  A store of [w] into a register holding
    [cur] toggles the status and data-toggle bits where [w] has a one
    (write-one-to-toggle, section 4.3), clears a correct-transfer flag
    where [w] has a zero and cannot set it, leaves the read-only SETUP bit,
    and stores the type, kind and address bits as written. *)
Definition epr_write (cur w : Z) : Z :=
  let toggled := Z.land (Z.lxor cur w) EP_TOGGLE_ALL in
  let ctr := Z.land (Z.land cur w) (Z.lor USB_EP0R_CTR_RX USB_EP0R_CTR_TX) in
  let ro := Z.land cur USB_EP0R_SETUP in
  let rw := Z.land w (Z.lor (Z.lor USB_EP0R_EP_TYPE USB_EP0R_EP_KIND)
                            USB_EP0R_EA) in
  Z.lor (Z.lor toggled ctr) (Z.lor ro rw).

(** The two 2-bit status fields and their encodings. *)
Definition stat_rx (epr : Z) : Z := Z.land (Z.shiftr epr 12) 3.
Definition stat_tx (epr : Z) : Z := Z.land (Z.shiftr epr 4) 3.

Definition STAT_DISABLED : Z := 0.
Definition STAT_STALL : Z := 1.
Definition STAT_NAK : Z := 2.
Definition STAT_VALID : Z := 3.

(** ** Outcomes *)

Inductive result (A : Type) : Type :=
| Ok (a : A)
| Panic (msg : string)
| Spin
| Overrun.
Arguments Ok {A} a.
Arguments Panic {A} msg.
Arguments Spin {A}.
Arguments Overrun {A}.

Definition bind {A B : Type} (r : result A) (k : A -> result B) : result B :=
  match r with
  | Ok a => k a
  | Panic msg => Panic msg
  | Spin => Spin
  | Overrun => Overrun
  end.

Notation "'run' x <- r 'in' k" := (bind r (fun x => k))
  (at level 10, x name, r at level 100, k at level 200).

(** [panic] prints its message on the debug port and loops for ever. *)
Definition panic {A : Type} (msg : string) : result A := Panic msg.

(** ** Driver state *)

Inductive usb_state : Type := BOOT | INIT | CONFIGURED.
Inductive uart_state : Type := DISABLED | ENABLED.
Inductive cp21_ctl : Type := NONE | BAUD | CHARS.

Definition usb_state_eqb (a b : usb_state) : bool :=
  match a, b with
  | BOOT, BOOT | INIT, INIT | CONFIGURED, CONFIGURED => true
  | _, _ => false
  end.

Definition uart_state_eqb (a b : uart_state) : bool :=
  match a, b with
  | DISABLED, DISABLED | ENABLED, ENABLED => true
  | _, _ => false
  end.

(** The registers of the USB peripheral, the packet memory and the globals
    of [usb.c] and [usb_enum.c].

    - [EPR] holds the eight endpoint registers; [PMA] the 256 16-bit words
      of packet memory (one word per 32-bit slot of the ARM address space).
    - [ep_flags] holds [ep_info[ep].flags]; the [tx_buf] and [rx_buf]
      members are written once and never read, and are left out.
    - [tx_rem] is the pointer kept by [usb_endpoint_send]: the caller's
      bytes from offset 64 on, as they were at the call. *)
Record usb_dev : Type := mk_usb_dev {
  EPR : list Z;
  CNTR : Z;
  ISTR : Z;
  DADDR : Z;
  BTABLE : Z;
  PMA : list Z;
  ep_flags : list Z;
  usb_current_state : usb_state;
  uart_current_state : uart_state;
  pending_address : Z;
  tx_rem : list Z;
  tx_rem_count : Z;
  in_queue : cqueue;
  cp21_control : cp21_ctl;
  cp21_baud : list Z;
  cp21_chars : list Z;
  usb_inital_prompt_pending : Z;
  int_count : Z;
  int_first : Z
}.

Definition set_EPR (v : list Z) (s : usb_dev) : usb_dev :=
  {| EPR := v; CNTR := CNTR s; ISTR := ISTR s; DADDR := DADDR s; BTABLE :=
     BTABLE s; PMA := PMA s; ep_flags := ep_flags s; usb_current_state :=
     usb_current_state s; uart_current_state := uart_current_state s;
     pending_address := pending_address s; tx_rem := tx_rem s; tx_rem_count
     := tx_rem_count s; in_queue := in_queue s; cp21_control := cp21_control
     s; cp21_baud := cp21_baud s; cp21_chars := cp21_chars s;
     usb_inital_prompt_pending := usb_inital_prompt_pending s; int_count :=
     int_count s; int_first := int_first s |}.

Definition set_CNTR (v : Z) (s : usb_dev) : usb_dev :=
  {| EPR := EPR s; CNTR := v; ISTR := ISTR s; DADDR := DADDR s; BTABLE :=
     BTABLE s; PMA := PMA s; ep_flags := ep_flags s; usb_current_state :=
     usb_current_state s; uart_current_state := uart_current_state s;
     pending_address := pending_address s; tx_rem := tx_rem s; tx_rem_count
     := tx_rem_count s; in_queue := in_queue s; cp21_control := cp21_control
     s; cp21_baud := cp21_baud s; cp21_chars := cp21_chars s;
     usb_inital_prompt_pending := usb_inital_prompt_pending s; int_count :=
     int_count s; int_first := int_first s |}.

Definition set_ISTR (v : Z) (s : usb_dev) : usb_dev :=
  {| EPR := EPR s; CNTR := CNTR s; ISTR := v; DADDR := DADDR s; BTABLE :=
     BTABLE s; PMA := PMA s; ep_flags := ep_flags s; usb_current_state :=
     usb_current_state s; uart_current_state := uart_current_state s;
     pending_address := pending_address s; tx_rem := tx_rem s; tx_rem_count
     := tx_rem_count s; in_queue := in_queue s; cp21_control := cp21_control
     s; cp21_baud := cp21_baud s; cp21_chars := cp21_chars s;
     usb_inital_prompt_pending := usb_inital_prompt_pending s; int_count :=
     int_count s; int_first := int_first s |}.

Definition set_DADDR (v : Z) (s : usb_dev) : usb_dev :=
  {| EPR := EPR s; CNTR := CNTR s; ISTR := ISTR s; DADDR := v; BTABLE :=
     BTABLE s; PMA := PMA s; ep_flags := ep_flags s; usb_current_state :=
     usb_current_state s; uart_current_state := uart_current_state s;
     pending_address := pending_address s; tx_rem := tx_rem s; tx_rem_count
     := tx_rem_count s; in_queue := in_queue s; cp21_control := cp21_control
     s; cp21_baud := cp21_baud s; cp21_chars := cp21_chars s;
     usb_inital_prompt_pending := usb_inital_prompt_pending s; int_count :=
     int_count s; int_first := int_first s |}.

Definition set_BTABLE (v : Z) (s : usb_dev) : usb_dev :=
  {| EPR := EPR s; CNTR := CNTR s; ISTR := ISTR s; DADDR := DADDR s; BTABLE
     := v; PMA := PMA s; ep_flags := ep_flags s; usb_current_state :=
     usb_current_state s; uart_current_state := uart_current_state s;
     pending_address := pending_address s; tx_rem := tx_rem s; tx_rem_count
     := tx_rem_count s; in_queue := in_queue s; cp21_control := cp21_control
     s; cp21_baud := cp21_baud s; cp21_chars := cp21_chars s;
     usb_inital_prompt_pending := usb_inital_prompt_pending s; int_count :=
     int_count s; int_first := int_first s |}.

Definition set_PMA (v : list Z) (s : usb_dev) : usb_dev :=
  {| EPR := EPR s; CNTR := CNTR s; ISTR := ISTR s; DADDR := DADDR s; BTABLE
     := BTABLE s; PMA := v; ep_flags := ep_flags s; usb_current_state :=
     usb_current_state s; uart_current_state := uart_current_state s;
     pending_address := pending_address s; tx_rem := tx_rem s; tx_rem_count
     := tx_rem_count s; in_queue := in_queue s; cp21_control := cp21_control
     s; cp21_baud := cp21_baud s; cp21_chars := cp21_chars s;
     usb_inital_prompt_pending := usb_inital_prompt_pending s; int_count :=
     int_count s; int_first := int_first s |}.

Definition set_ep_flags (v : list Z) (s : usb_dev) : usb_dev :=
  {| EPR := EPR s; CNTR := CNTR s; ISTR := ISTR s; DADDR := DADDR s; BTABLE
     := BTABLE s; PMA := PMA s; ep_flags := v; usb_current_state :=
     usb_current_state s; uart_current_state := uart_current_state s;
     pending_address := pending_address s; tx_rem := tx_rem s; tx_rem_count
     := tx_rem_count s; in_queue := in_queue s; cp21_control := cp21_control
     s; cp21_baud := cp21_baud s; cp21_chars := cp21_chars s;
     usb_inital_prompt_pending := usb_inital_prompt_pending s; int_count :=
     int_count s; int_first := int_first s |}.

Definition set_usb_current_state (v : usb_state) (s : usb_dev) : usb_dev :=
  {| EPR := EPR s; CNTR := CNTR s; ISTR := ISTR s; DADDR := DADDR s; BTABLE
     := BTABLE s; PMA := PMA s; ep_flags := ep_flags s; usb_current_state :=
     v; uart_current_state := uart_current_state s; pending_address :=
     pending_address s; tx_rem := tx_rem s; tx_rem_count := tx_rem_count s;
     in_queue := in_queue s; cp21_control := cp21_control s; cp21_baud :=
     cp21_baud s; cp21_chars := cp21_chars s; usb_inital_prompt_pending :=
     usb_inital_prompt_pending s; int_count := int_count s; int_first :=
     int_first s |}.

Definition set_uart_current_state (v : uart_state) (s : usb_dev) : usb_dev :=
  {| EPR := EPR s; CNTR := CNTR s; ISTR := ISTR s; DADDR := DADDR s; BTABLE
     := BTABLE s; PMA := PMA s; ep_flags := ep_flags s; usb_current_state :=
     usb_current_state s; uart_current_state := v; pending_address :=
     pending_address s; tx_rem := tx_rem s; tx_rem_count := tx_rem_count s;
     in_queue := in_queue s; cp21_control := cp21_control s; cp21_baud :=
     cp21_baud s; cp21_chars := cp21_chars s; usb_inital_prompt_pending :=
     usb_inital_prompt_pending s; int_count := int_count s; int_first :=
     int_first s |}.

Definition set_pending_address (v : Z) (s : usb_dev) : usb_dev :=
  {| EPR := EPR s; CNTR := CNTR s; ISTR := ISTR s; DADDR := DADDR s; BTABLE
     := BTABLE s; PMA := PMA s; ep_flags := ep_flags s; usb_current_state :=
     usb_current_state s; uart_current_state := uart_current_state s;
     pending_address := v; tx_rem := tx_rem s; tx_rem_count := tx_rem_count
     s; in_queue := in_queue s; cp21_control := cp21_control s; cp21_baud :=
     cp21_baud s; cp21_chars := cp21_chars s; usb_inital_prompt_pending :=
     usb_inital_prompt_pending s; int_count := int_count s; int_first :=
     int_first s |}.

Definition set_tx_rem (v : list Z) (s : usb_dev) : usb_dev :=
  {| EPR := EPR s; CNTR := CNTR s; ISTR := ISTR s; DADDR := DADDR s; BTABLE
     := BTABLE s; PMA := PMA s; ep_flags := ep_flags s; usb_current_state :=
     usb_current_state s; uart_current_state := uart_current_state s;
     pending_address := pending_address s; tx_rem := v; tx_rem_count :=
     tx_rem_count s; in_queue := in_queue s; cp21_control := cp21_control s;
     cp21_baud := cp21_baud s; cp21_chars := cp21_chars s;
     usb_inital_prompt_pending := usb_inital_prompt_pending s; int_count :=
     int_count s; int_first := int_first s |}.

Definition set_tx_rem_count (v : Z) (s : usb_dev) : usb_dev :=
  {| EPR := EPR s; CNTR := CNTR s; ISTR := ISTR s; DADDR := DADDR s; BTABLE
     := BTABLE s; PMA := PMA s; ep_flags := ep_flags s; usb_current_state :=
     usb_current_state s; uart_current_state := uart_current_state s;
     pending_address := pending_address s; tx_rem := tx_rem s; tx_rem_count
     := v; in_queue := in_queue s; cp21_control := cp21_control s; cp21_baud
     := cp21_baud s; cp21_chars := cp21_chars s; usb_inital_prompt_pending
     := usb_inital_prompt_pending s; int_count := int_count s; int_first :=
     int_first s |}.

Definition set_in_queue (v : cqueue) (s : usb_dev) : usb_dev :=
  {| EPR := EPR s; CNTR := CNTR s; ISTR := ISTR s; DADDR := DADDR s; BTABLE
     := BTABLE s; PMA := PMA s; ep_flags := ep_flags s; usb_current_state :=
     usb_current_state s; uart_current_state := uart_current_state s;
     pending_address := pending_address s; tx_rem := tx_rem s; tx_rem_count
     := tx_rem_count s; in_queue := v; cp21_control := cp21_control s;
     cp21_baud := cp21_baud s; cp21_chars := cp21_chars s;
     usb_inital_prompt_pending := usb_inital_prompt_pending s; int_count :=
     int_count s; int_first := int_first s |}.

Definition set_cp21_control (v : cp21_ctl) (s : usb_dev) : usb_dev :=
  {| EPR := EPR s; CNTR := CNTR s; ISTR := ISTR s; DADDR := DADDR s; BTABLE
     := BTABLE s; PMA := PMA s; ep_flags := ep_flags s; usb_current_state :=
     usb_current_state s; uart_current_state := uart_current_state s;
     pending_address := pending_address s; tx_rem := tx_rem s; tx_rem_count
     := tx_rem_count s; in_queue := in_queue s; cp21_control := v; cp21_baud
     := cp21_baud s; cp21_chars := cp21_chars s; usb_inital_prompt_pending
     := usb_inital_prompt_pending s; int_count := int_count s; int_first :=
     int_first s |}.

Definition set_cp21_baud (v : list Z) (s : usb_dev) : usb_dev :=
  {| EPR := EPR s; CNTR := CNTR s; ISTR := ISTR s; DADDR := DADDR s; BTABLE
     := BTABLE s; PMA := PMA s; ep_flags := ep_flags s; usb_current_state :=
     usb_current_state s; uart_current_state := uart_current_state s;
     pending_address := pending_address s; tx_rem := tx_rem s; tx_rem_count
     := tx_rem_count s; in_queue := in_queue s; cp21_control := cp21_control
     s; cp21_baud := v; cp21_chars := cp21_chars s;
     usb_inital_prompt_pending := usb_inital_prompt_pending s; int_count :=
     int_count s; int_first := int_first s |}.

Definition set_cp21_chars (v : list Z) (s : usb_dev) : usb_dev :=
  {| EPR := EPR s; CNTR := CNTR s; ISTR := ISTR s; DADDR := DADDR s; BTABLE
     := BTABLE s; PMA := PMA s; ep_flags := ep_flags s; usb_current_state :=
     usb_current_state s; uart_current_state := uart_current_state s;
     pending_address := pending_address s; tx_rem := tx_rem s; tx_rem_count
     := tx_rem_count s; in_queue := in_queue s; cp21_control := cp21_control
     s; cp21_baud := cp21_baud s; cp21_chars := v; usb_inital_prompt_pending
     := usb_inital_prompt_pending s; int_count := int_count s; int_first :=
     int_first s |}.

Definition set_usb_inital_prompt_pending (v : Z) (s : usb_dev) : usb_dev :=
  {| EPR := EPR s; CNTR := CNTR s; ISTR := ISTR s; DADDR := DADDR s; BTABLE
     := BTABLE s; PMA := PMA s; ep_flags := ep_flags s; usb_current_state :=
     usb_current_state s; uart_current_state := uart_current_state s;
     pending_address := pending_address s; tx_rem := tx_rem s; tx_rem_count
     := tx_rem_count s; in_queue := in_queue s; cp21_control := cp21_control
     s; cp21_baud := cp21_baud s; cp21_chars := cp21_chars s;
     usb_inital_prompt_pending := v; int_count := int_count s; int_first :=
     int_first s |}.

Definition set_int_count (v : Z) (s : usb_dev) : usb_dev :=
  {| EPR := EPR s; CNTR := CNTR s; ISTR := ISTR s; DADDR := DADDR s; BTABLE
     := BTABLE s; PMA := PMA s; ep_flags := ep_flags s; usb_current_state :=
     usb_current_state s; uart_current_state := uart_current_state s;
     pending_address := pending_address s; tx_rem := tx_rem s; tx_rem_count
     := tx_rem_count s; in_queue := in_queue s; cp21_control := cp21_control
     s; cp21_baud := cp21_baud s; cp21_chars := cp21_chars s;
     usb_inital_prompt_pending := usb_inital_prompt_pending s; int_count :=
     v; int_first := int_first s |}.

Definition set_int_first (v : Z) (s : usb_dev) : usb_dev :=
  {| EPR := EPR s; CNTR := CNTR s; ISTR := ISTR s; DADDR := DADDR s; BTABLE
     := BTABLE s; PMA := PMA s; ep_flags := ep_flags s; usb_current_state :=
     usb_current_state s; uart_current_state := uart_current_state s;
     pending_address := pending_address s; tx_rem := tx_rem s; tx_rem_count
     := tx_rem_count s; in_queue := in_queue s; cp21_control := cp21_control
     s; cp21_baud := cp21_baud s; cp21_chars := cp21_chars s;
     usb_inital_prompt_pending := usb_inital_prompt_pending s; int_count :=
     int_count s; int_first := v |}.

(** A store to [USB->EPR[ep]] goes through the write rule of the
    register; a load returns the register as it stands. *)
Definition epr_load (ep : Z) (s : usb_dev) : Z := rd (EPR s) ep.

Definition epr_store (ep : Z) (w : Z) (s : usb_dev) : usb_dev :=
  set_EPR (wr (EPR s) ep (epr_write (rd (EPR s) ep) w)) s.

(** ** Packet memory and the buffer table

    [PMA_btable] and [PMA_buf] are placed by the linker script, which is not
    part of the sources; with [USB->BTABLE = 0] the table starts at
    [USB_RAM], where the code also reaches it through the cast
    [(struct btable_entry * )USB_RAM].  Entry [ep] occupies the four slots
    [4 * ep .. 4 * ep + 3].  A 32-bit store keeps the low 16 bits. *)

Definition pma_load (slot : Z) (s : usb_dev) : Z := rd (PMA s) slot.

Definition pma_store (slot : Z) (v : Z) (s : usb_dev) : usb_dev :=
  set_PMA (wr (PMA s) slot (uint16 v)) s.

Definition bte_tx_addr (ep : Z) (s : usb_dev) : Z := pma_load (4 * ep) s.
Definition bte_tx_count (ep : Z) (s : usb_dev) : Z := pma_load (4 * ep + 1) s.
Definition bte_rx_addr (ep : Z) (s : usb_dev) : Z := pma_load (4 * ep + 2) s.
Definition bte_rx_count (ep : Z) (s : usb_dev) : Z := pma_load (4 * ep + 3) s.

Definition set_bte_tx_addr (ep v : Z) (s : usb_dev) : usb_dev :=
  pma_store (4 * ep) v s.
Definition set_bte_tx_count (ep v : Z) (s : usb_dev) : usb_dev :=
  pma_store (4 * ep + 1) v s.
Definition set_bte_rx_addr (ep v : Z) (s : usb_dev) : usb_dev :=
  pma_store (4 * ep + 2) v s.
Definition set_bte_rx_count (ep v : Z) (s : usb_dev) : usb_dev :=
  pma_store (4 * ep + 3) v s.

(** The slot reached from a packet-memory byte offset: the address is
    [USB_RAM + 2 * pma_off], used as a pointer to 32-bit slots. *)
Definition pma_slot (pma_off : Z) : Z := (2 * pma_off) / 4.

(** The [i]-th 16-bit unit of a byte buffer (little endian). *)
Definition rd16 (buf : list Z) (i : Z) : Z :=
  uint8 (rd buf (2 * i)) + 256 * uint8 (rd buf (2 * i + 1)).

Definition wr16 (buf : list Z) (i : Z) (v : Z) : list Z :=
  wr (wr buf (2 * i) (v mod 256)) (2 * i + 1) ((v / 256) mod 256).

(** Number of 16-bit units moved for [count] bytes: [(count + 1) / 2] with
    C's truncating division. *)
Definition pma_units (count : Z) : nat := Z.to_nat (Z.quot (count + 1) 2).

Fixpoint pma_copy_out_loop (n : nat) (i : Z) (slot : Z) (buf : list Z)
    (pma : list Z) : list Z :=
  match n with
  | O => pma
  | S n' =>
      pma_copy_out_loop n' (i + 1) slot buf (wr pma (slot + i) (rd16 buf i))
  end.

Definition pma_copy_out (pma_off : Z) (buf : list Z) (count : Z)
    (s : usb_dev) : usb_dev :=
  set_PMA (pma_copy_out_loop (pma_units count) 0 (pma_slot pma_off) buf
             (PMA s)) s.

Fixpoint pma_copy_in_loop (n : nat) (i : Z) (slot : Z) (pma : list Z)
    (buf : list Z) : list Z :=
  match n with
  | O => buf
  | S n' =>
      pma_copy_in_loop n' (i + 1) slot pma
        (wr16 buf i (uint16 (rd pma (slot + i))))
  end.

(** [buf] is the destination array as it is before the call; the result
    is the array after it. *)
Definition pma_copy_in (pma_off : Z) (buf : list Z) (count : Z)
    (s : usb_dev) : list Z :=
  pma_copy_in_loop (pma_units count) 0 (pma_slot pma_off) (PMA s) buf.

Definition pma_clear (s : usb_dev) : usb_dev :=
  let s := set_PMA (replicate 256 0) s in
  let s := pma_store 254 0xdead s in
  pma_store 255 0xdeadbeef s.

(** ** Endpoint functions *)

Definition endpoint_set_rx_ready (ep : Z) (s : usb_dev) : usb_dev :=
  epr_store ep (set_rx_ready_val (epr_load ep s)) s.

Definition endpoint_clear_rx (ep : Z) (s : usb_dev) : usb_dev :=
  epr_store ep (clear_rx_val (epr_load ep s)) s.

Definition endpoint_clear_tx (ep : Z) (s : usb_dev) : usb_dev :=
  epr_store ep (clear_tx_val (epr_load ep s)) s.

Definition endpoint_stall (ep : Z) (s : usb_dev) : usb_dev :=
  epr_store ep (stall_val (epr_load ep s)) s.

Definition endpoint_set_tx_valid (ep : Z) (s : usb_dev) : usb_dev :=
  epr_store ep (set_tx_valid_val (epr_load ep s)) s.

Definition endpoint_set_tx_nak (ep : Z) (s : usb_dev) : usb_dev :=
  epr_store ep (set_tx_nak_val (epr_load ep s)) s.

Definition endpoint_recv_ready (ep : Z) (s : usb_dev) : usb_dev :=
  let s := set_bte_rx_count ep (Z.land (bte_rx_count ep s) (Z.lnot 0x3ff)) s in
  endpoint_set_rx_ready ep s.

Definition flags_of (ep : Z) (s : usb_dev) : Z := rd (ep_flags s) ep.

Definition set_flags (ep : Z) (v : Z) (s : usb_dev) : usb_dev :=
  set_ep_flags (wr (ep_flags s) ep (uint8 v)) s.

Definition usb_pend_address (addr : Z) (s : usb_dev) : usb_dev :=
  set_pending_address addr s.

Definition usb_endpoint_send (ep : Z) (buf : list Z) (count : Z)
    (s : usb_dev) : usb_dev :=
  if count <=? ENDPOINT_LIMIT then
    let s := set_bte_tx_count ep count s in
    let s := pma_copy_out (bte_tx_addr ep s) buf count s in
    endpoint_set_tx_valid ep s
  else
    let s := set_tx_rem (skipn (Z.to_nat ENDPOINT_LIMIT) buf) s in
    let s := set_tx_rem_count (int32 (count - ENDPOINT_LIMIT)) s in
    let s := set_flags ep (Z.lor (flags_of ep s) F_TX_REM) s in
    let s := set_bte_tx_count ep ENDPOINT_LIMIT s in
    let s := pma_copy_out (bte_tx_addr ep s) buf ENDPOINT_LIMIT s in
    endpoint_set_tx_valid ep s.

Definition usb_endpoint_send_zlp (ep : Z) (s : usb_dev) : usb_dev :=
  let s := set_bte_tx_count ep 0 s in
  endpoint_set_tx_valid ep s.

(** Returns the filled buffer and the byte count. *)
Definition usb_endpoint_recv (ep : Z) (buf : list Z) (s : usb_dev)
  : list Z * Z :=
  let count := Z.land (bte_rx_count ep s) 0x3ff in
  (pma_copy_in (bte_rx_addr ep s) buf count s, count).

Definition set_address (addr : Z) (s : usb_dev) : usb_dev :=
  set_DADDR (Z.lor USB_DADDR_EF (Z.land addr 0x7f)) s.

Fixpoint clear_eprs (n : nat) (ep : Z) (s : usb_dev) : usb_dev :=
  match n with
  | O => s
  | S n' => clear_eprs n' (ep + 1) (epr_store ep 0 s)
  end.

Definition endpoint_init (s : usb_dev) : usb_dev :=
  let s := clear_eprs (Z.to_nat EP_COUNT) 0 s in
  let s := epr_store EP0R (Z.lor USB_EP0R_EP_TYPE_0 0) s in
  let s := epr_store EP1R 1 s in
  let s := set_bte_tx_addr EP0R (EP0R_TX_BUF_INDEX * 64) s in
  let s := set_bte_tx_count EP0R 0 s in
  let s := set_bte_rx_addr EP0R (EP0R_RX_BUF_INDEX * 64) s in
  let s := set_bte_rx_count EP0R COUNT_RX_VALUE s in
  let s := endpoint_set_rx_ready EP0R s in
  let s := endpoint_set_tx_nak EP0R s in
  let s := set_bte_tx_addr EP1R (EP1R_TX_BUF_INDEX * 64) s in
  let s := set_bte_tx_count EP1R 0 s in
  let s := set_bte_rx_addr EP1R (EP1R_RX_BUF_INDEX * 64) s in
  let s := set_bte_rx_count EP1R COUNT_RX_VALUE s in
  let s := endpoint_set_rx_ready EP1R s in
  let s := endpoint_set_tx_nak EP1R s in
  let s := set_flags EP0R 0 s in
  set_flags EP1R 0 s.

Definition reset (s : usb_dev) : usb_dev :=
  let s := endpoint_init s in
  set_address 0 s.

(** [NVIC_EnableIRQ] lets the interrupt through to the handler; the
    interrupt controller is not part of the state. *)
Definition hw_init (s : usb_dev) : usb_dev :=
  let s := set_CNTR 0 s in
  let s := set_ISTR 0 s in
  let s := set_DADDR 0 s in
  let s := set_BTABLE 0 s in
  let s := pma_clear s in
  let s := endpoint_init s in
  let s := set_address 0 s in
  set_CNTR (Z.lor USB_ISTR_CTR USB_ISTR_RESET) s.

Definition endpoint_rem (ep : Z) (s : usb_dev) : usb_dev :=
  let s := set_bte_tx_count ep (tx_rem_count s) s in
  let s := pma_copy_out (bte_tx_addr ep s) (tx_rem s) (tx_rem_count s) s in
  let s := endpoint_set_tx_valid ep s in
  set_flags ep (Z.land (flags_of ep s) (Z.lnot F_TX_REM)) s.

(** [endpoint_send] waits in [while (ep_info[ep].flags & F_TX_BUSY);]: with
    the flag set and no interrupt to clear it the call never returns
    ([Spin]). *)
Definition endpoint_send (ep : Z) (buf : list Z) (count : Z) (s : usb_dev)
  : result usb_dev :=
  if negb (usb_state_eqb (usb_current_state s) CONFIGURED) then Ok s
  else if negb (uart_state_eqb (uart_current_state s) ENABLED) then Ok s
  else if negb (Z.land (flags_of ep s) F_TX_BUSY =? 0) then Spin
  else
    let s := set_flags ep (Z.lor (flags_of ep s) F_TX_BUSY) s in
    Ok (usb_endpoint_send ep buf count s).

(** [strlen] ([src/utils/utils.c]): the bytes before the first zero; a
    list that ends without one stands for a string whose terminator
    follows it. *)
Fixpoint strlen (str : list Z) : Z :=
  match str with
  | [] => 0
  | c :: rest => if c =? 0 then 0 else 1 + strlen rest
  end.

(** [usb_terminal_print] counts the characters itself, up to the
    terminating zero. *)
Definition usb_terminal_print (str : list Z) (s : usb_dev) : result usb_dev :=
  endpoint_send EP1R str (strlen str) s.

(** ** Enumeration ([src/driver/usb_enum.c]) *)

Definition DESC_TYPE_DEVICE : Z := 1.
Definition DESC_TYPE_CONFIG : Z := 2.
Definition DESC_TYPE_STRING : Z := 3.
Definition DESC_TYPE_INTERFACE : Z := 4.
Definition DESC_TYPE_ENDPOINT : Z := 5.

Definition DATA_ENDPOINT_OUT : Z := 1.
Definition DATA_ENDPOINT_IN : Z := 1.
Definition ENDPOINT_DIR_IN : Z := 0x80.
Definition ENDPOINT_TYPE_BULK : Z := 2.

Definition my_device_desc : list Z :=
  [0x12; DESC_TYPE_DEVICE; 0x00; 0x02; 0x00; 0x00; 0x00; 0x40;
   0xc4; 0x10; 0x60; 0xea; 0x00; 0x01; 1; 2; 3; 1].

Definition my_config_desc : list Z :=
  [0x09; DESC_TYPE_CONFIG; 0x20; 0x00; 0x01; 0x01; 0x00; 0xC0; 0x32;
   0x09; DESC_TYPE_INTERFACE; 0x00; 0x00; 2; 0xff; 0x00; 0x00; 0x02;
   0x07; DESC_TYPE_ENDPOINT; Z.lor DATA_ENDPOINT_IN ENDPOINT_DIR_IN;
   ENDPOINT_TYPE_BULK; 64; 0x00; 0x00;
   0x07; DESC_TYPE_ENDPOINT; DATA_ENDPOINT_OUT; ENDPOINT_TYPE_BULK; 64;
   0x00; 0x00].

Definition my_language_string_desc : list Z := [4; DESC_TYPE_STRING; 0x09; 0x04].

(** [sizeof] of an array of bytes. *)
Definition sizeof (a : list Z) : Z := Z.of_nat (length a).

(** [struct setup], read from the receive buffer through the cast
    [(struct setup * )buf]: two bytes and three little-endian 16-bit
    words. *)
Record setup : Type := mk_setup {
  rtype : Z;
  request : Z;
  value : Z;
  index : Z;
  length_ : Z
}.

Definition setup_of (buf : list Z) : setup :=
  {| rtype := rd buf 0; request := rd buf 1; value := rd16 buf 1;
     index := rd16 buf 2; length_ := rd16 buf 3 |}.

Definition D_DESC : Z := 1.
Definition D_CONFIG : Z := 2.
Definition D_STRING : Z := 3.
Definition D_QUAL : Z := 6.

Definition part_number : list Z := [2; 0].
Definition modem_status : list Z := [0; 0].
Definition cp21_status_response : list Z := [0x00; 0x00].

(** The bytes of a string literal, without its terminating zero. *)
Definition bytes_of (str : string) : list Z :=
  map (fun c => Z.of_nat (nat_of_ascii c)) (list_ascii_of_string str).

Definition my_strings : list (list Z) :=
  [bytes_of "---"; bytes_of "ACME computers"; bytes_of "Basic console port";
   bytes_of "1234"].

(** A handler returns the state and its [int] result; [None] stands for a
    function that falls off its end without a [return] (the callers never
    use the value). *)
Definition handled : Type := usb_dev * option Z.

Definition cp21_vendor (sp : setup) (s : usb_dev) : handled :=
  (usb_endpoint_send 0 part_number 1 s, None).

Definition cp21_enable (sp : setup) (s : usb_dev) : handled :=
  let s := if value sp =? 1 then set_uart_current_state ENABLED s
           else set_uart_current_state DISABLED s in
  (usb_endpoint_send_zlp 0 s, None).

Definition cp21_set_baud (sp : setup) (s : usb_dev) : handled :=
  let s := set_cp21_control BAUD s in
  (usb_endpoint_send_zlp 0 s, None).

Definition cp21_set_chars (sp : setup) (s : usb_dev) : handled :=
  let s := set_cp21_control CHARS s in
  (usb_endpoint_send_zlp 0 s, None).

Definition cp21_set_modem (sp : setup) (s : usb_dev) : handled :=
  let s := if negb (Z.land (value sp) 0x01 =? 0)
           then set_usb_inital_prompt_pending 1 s else s in
  (usb_endpoint_send_zlp 0 s, Some 1).

Definition cp21_set_line (sp : setup) (s : usb_dev) : handled :=
  (usb_endpoint_send_zlp 0 s, None).

Definition cp21_get_flow (sp : setup) (s : usb_dev) : handled :=
  (usb_endpoint_send_zlp 0 s, Some 1).

Definition cp21_get_modem (sp : setup) (s : usb_dev) : handled :=
  (usb_endpoint_send 0 modem_status 1 s, None).

Definition cp21_get_status (sp : setup) (s : usb_dev) : handled :=
  (usb_endpoint_send 0 cp21_status_response (sizeof cp21_status_response) s,
   Some 1).

(** [struct string_xx] seen as bytes: the length, the type, then one
    little-endian 16-bit unit per character. *)
Definition string_xx_bytes (len : Z) (typ : Z) (units : list Z) : list Z :=
  uint8 len :: uint8 typ ::
  flat_map (fun u => [uint16 u mod 256; uint16 u / 256]) units.

Definition string_send (index : Z) (s : usb_dev) : result handled :=
  if index =? 0 then
    let len := sizeof my_language_string_desc in
    Ok (usb_endpoint_send 0 my_language_string_desc len s, Some 1)
  else if (index <? 1) || (index >? 3) then panic "No such string"
  else
    let str := nth (Z.to_nat index) my_strings [] in
    let n := strlen str in
    if n >? 31 then panic "String too big"
    else
      let xx := string_xx_bytes (2 + 2 * n) D_STRING str in
      let len := 2 + 2 * n in
      Ok (usb_endpoint_send 0 xx len s, Some 3).

(** The two branches of [D_CONFIG] on [len < 64] make the same call. *)
Definition get_descriptor (sp : setup) (s : usb_dev) : result handled :=
  let type := Z.shiftr (value sp) 8 in
  let index := Z.land (value sp) 0xff in
  if type =? D_DESC then
    Ok (usb_endpoint_send 0 my_device_desc (sizeof my_device_desc) s, Some 1)
  else if type =? D_QUAL then
    Ok (usb_endpoint_send_zlp 0 s, Some 1)
  else if type =? D_CONFIG then
    let len := sizeof my_config_desc in
    let len := if len >? length_ sp then length_ sp else len in
    Ok (usb_endpoint_send 0 my_config_desc len s, Some 1)
  else if type =? D_STRING then
    string_send index s
  else Ok (s, Some 0).

Definition usb_class (sp : setup) (s : usb_dev) : usb_dev :=
  usb_endpoint_send_zlp 0 s.

(** The [set_address] of [usb_enum.c] (a second static function of that
    name writes the address register in [usb.c]). *)
Definition enum_set_address (sp : setup) (s : usb_dev) : handled :=
  let s := usb_pend_address (value sp) s in
  (usb_endpoint_send_zlp 0 s, Some 1).

Definition set_configuration (sp : setup) (s : usb_dev) : handled :=
  let s := usb_endpoint_send_zlp 0 s in
  (set_usb_current_state CONFIGURED s, Some 1).

(** The 16-bit tag [sp->rtype << 8 | sp->request]. *)
Definition tag_of (sp : setup) : Z := Z.lor (Z.shiftl (rtype sp) 8) (request sp).

Definition usb_setup (buf : list Z) (count : Z) (s : usb_dev)
  : result handled :=
  if count =? 0 then Ok (s, Some 0)
  else
    let sp := setup_of buf in
    if rtype sp =? 0x21 then Ok (usb_class sp s, Some 1)
    else
      let tag := tag_of sp in
      let s := set_cp21_control NONE s in
      if tag =? 0x8006 then get_descriptor sp s
      else if tag =? 0x0005 then Ok (enum_set_address sp s)
      else if tag =? 0x0009 then Ok (set_configuration sp s)
      else if tag =? 0xc0ff then Ok (cp21_vendor sp s)
      else if tag =? 0x4100 then Ok (cp21_enable sp s)
      else if tag =? 0x411e then Ok (cp21_set_baud sp s)
      else if tag =? 0x4103 then Ok (cp21_set_line sp s)
      else if tag =? 0x4119 then Ok (cp21_set_chars sp s)
      else if tag =? 0xc114 then Ok (cp21_get_flow sp s)
      else if tag =? 0xc108 then Ok (cp21_get_modem sp s)
      else if tag =? 0x4107 then Ok (cp21_set_modem sp s)
      else if tag =? 0xc110 then Ok (cp21_get_status sp s)
      else Ok (s, Some 0).

(** [memcpy] ([src/utils/utils.c]) into an array of known size: the loop
    [while (len--) *d++ = *s++;] copies [len] bytes.  A [len] that is
    negative or larger than the destination runs past it ([Overrun]). *)
Fixpoint memcpy_loop (n : nat) (i : Z) (dest src : list Z) : list Z :=
  match n with
  | O => dest
  | S n' => memcpy_loop n' (i + 1) (wr dest i (rd src i)) src
  end.

Definition memcpy (dest src : list Z) (len : Z) : result (list Z) :=
  if (len <? 0) || (len >? sizeof dest) then Overrun
  else Ok (memcpy_loop (Z.to_nat len) 0 dest src).

(** An array after its first [len] bytes have been replaced by the first
    [len] bytes of [src]: what a copy that stays inside the array leaves. *)
Definition overwritten (dest src : list Z) (len : Z) : list Z :=
  map (fun k : nat => rd src (Z.of_nat k)) (seq 0 (Z.to_nat len))
  ++ skipn (Z.to_nat len) dest.

Definition usb_control (buf : list Z) (count : Z) (s : usb_dev)
  : result handled :=
  match cp21_control s with
  | BAUD =>
      run d <- memcpy (cp21_baud s) buf count in
      Ok (set_cp21_baud d s, Some 1)
  | CHARS =>
      run d <- memcpy (cp21_chars s) buf count in
      Ok (set_cp21_chars d s, Some 1)
  | NONE => Ok (usb_endpoint_send_zlp 0 s, Some 1)
  end.

(** ** Interrupt handlers ([src/driver/usb.c])

    [buf] and [inbuf] are the local arrays of the handlers as they are on
    entry: ten and sixty-four bytes of whatever the stack holds. *)

Definition ctr0_rx (buf : list Z) (s : usb_dev) : result (usb_dev * bool) :=
  let count := Z.land (bte_rx_count EP0R s) 0x3ff in
  if count >? SETUP_BUF then panic "ctr0 setup count"
  else
    let setup := Z.land (epr_load EP0R s) USB_EP0R_SETUP in
    let s := endpoint_clear_tx EP0R s in
    let (buf, count) := usb_endpoint_recv EP0R buf s in
    let s := endpoint_recv_ready EP0R s in
    if count =? 1 then Ok (s, true)
    else if negb (setup =? 0) then
      run r <- usb_setup buf count s in Ok (fst r, false)
    else
      run r <- usb_control buf count s in Ok (fst r, false).

Definition ctr0_tx (s : usb_dev) : usb_dev :=
  let s := endpoint_clear_tx EP0R s in
  if negb (pending_address s =? 0) then
    let s := set_address (pending_address s) s in
    set_pending_address 0 s
  else if negb (Z.land (flags_of EP0R s) F_TX_REM =? 0) then
    endpoint_rem EP0R s
  else
    set_flags EP0R (Z.land (flags_of EP0R s) (Z.lnot F_TX_BUSY)) s.

(** [ctr0]: the receive part returns early on a one-byte packet; otherwise
    the transmit part runs when the register, read again, shows
    [CTR_TX]. *)
Definition ctr0 (buf : list Z) (s : usb_dev) : result usb_dev :=
  run r <- (if negb (Z.land (epr_load EP0R s) USB_EP0R_CTR_RX =? 0)
            then ctr0_rx buf s else Ok (s, false)) in
  let (s, returned) := r in
  if returned then Ok s
  else if negb (Z.land (epr_load EP0R s) USB_EP0R_CTR_TX =? 0)
  then Ok (ctr0_tx s)
  else Ok s.

(** The loop of [data_ctr] over the received bytes. *)
Fixpoint data_ctr_queue (n : nat) (i : Z) (inbuf : list Z) (q : cqueue)
  : cqueue :=
  match n with
  | O => q
  | S n' =>
      let q := if cq_space q >? 0 then cq_add q (rd inbuf i) else q in
      data_ctr_queue n' (i + 1) inbuf q
  end.

(** A packet of more than 64 bytes would run past [inbuf]. *)
Definition data_ctr (ep : Z) (inbuf : list Z) (s : usb_dev) : result usb_dev :=
  if negb (Z.land (epr_load ep s) USB_EP0R_CTR_TX =? 0) then
    let s := endpoint_clear_tx ep s in
    Ok (set_flags ep (Z.land (flags_of ep s) (Z.lnot F_TX_BUSY)) s)
  else if negb (Z.land (epr_load ep s) USB_EP0R_CTR_RX =? 0) then
    let s := endpoint_clear_rx ep s in
    let count := Z.land (bte_rx_count ep s) 0x3ff in
    if count >? sizeof inbuf then Overrun
    else
      let inbuf := pma_copy_in (bte_rx_addr ep s) inbuf count s in
      let s := set_in_queue
                 (data_ctr_queue (Z.to_nat count) 0 inbuf (in_queue s)) s in
      Ok (endpoint_recv_ready ep s)
  else Ok s.

(** [int_first && int_count++ > 2000]: the counter moves only while
    [int_first] is set. *)
Definition USB_LP_CAN1_RX0_IRQHandler (buf inbuf : list Z) (s : usb_dev)
  : result usb_dev :=
  let s :=
    if negb (int_first s =? 0) then
      let c := int_count s in
      let s := set_int_count (int32 (c + 1)) s in
      if c >? 2000 then set_CNTR 0 (set_int_first 0 s) else s
    else s in
  let s :=
    if negb (Z.land (ISTR s) USB_ISTR_RESET =? 0) then
      let s := reset s in
      set_ISTR (Z.land (ISTR s) (Z.lnot USB_ISTR_RESET)) s
    else s in
  if negb (Z.land (ISTR s) USB_ISTR_CTR =? 0) then
    let ep := Z.land (ISTR s) 0xf in
    run s <- (if ep =? 0 then ctr0 buf s else data_ctr ep inbuf s) in
    Ok (set_ISTR (Z.land (ISTR s) (Z.lnot USB_ISTR_CTR)) s)
  else Ok s.

(** ** Start-up *)

(** The globals as the C start-up code leaves them (initialised data and
    zeroed [.bss]) and the peripheral registers at their reset value. *)
Definition boot : usb_dev :=
  {| EPR := replicate 8 0; CNTR := 0; ISTR := 0; DADDR := 0; BTABLE := 0;
     PMA := replicate 256 0;
     ep_flags := replicate 8 0;
     usb_current_state := BOOT;
     uart_current_state := DISABLED;
     pending_address := 0;
     tx_rem := []; tx_rem_count := 0;
     in_queue := {| q_buf := []; q_bp := 0; q_ip := 0; q_op := 0;
                    q_limit := 0; q_size := 0; q_count := 0; q_toss := 0 |};
     cp21_control := NONE;
     cp21_baud := replicate 4 0;
     cp21_chars := replicate 6 0;
     usb_inital_prompt_pending := 0;
     int_count := 0; int_first := 1 |}.

(** [usb_init] up to the assignment [usb_current_state = INIT]: the queue
    is set up over [in_buf], the hardware initialised and the endpoints
    reset.  The clock and pin set-up before it touches no state of the
    driver; [enum_wait] and [init_terminal] after it only poll. *)
Definition usb_init (s : usb_dev) : usb_dev :=
  let s := set_in_queue
             (cq_init (replicate (Z.to_nat IN_BUF_SIZE) 0) IN_BUF_SIZE) s in
  let s := hw_init s in
  let s := reset s in
  set_usb_current_state INIT s.

(** ** The peripheral's side of a transfer

    Modelled from the spec: the USB peripheral is hardware and is missing
    from the sources.  Sections 4.4 and 4.7 name the events it raises: a
    receive-complete interrupt after a SETUP or OUT packet has been stored
    in the endpoint's receive buffer with its byte count in the buffer
    table, a transmit-complete interrupt after an IN packet has been sent,
    and a bus reset.  Each event sets the flags the handlers test; the
    status of the direction that completed goes to NAK. *)

Inductive usb_event : Type :=
| HostSetup (pkt : list Z)
| HostOut (ep : Z) (pkt : list Z)
| TxDone (ep : Z)
| BusReset.

Definition USB_ISTR_DIR : Z := 0x0010.

Definition hw_flag_ctr (ep : Z) (dir : Z) (s : usb_dev) : usb_dev :=
  set_ISTR (Z.lor (Z.lor (Z.lor (Z.land (ISTR s) (Z.lnot 0x1f)) USB_ISTR_CTR)
                         dir) ep) s.

Definition hw_receive (ep : Z) (is_setup : bool) (pkt : list Z)
    (s : usb_dev) : usb_dev :=
  let n := sizeof pkt in
  let s := pma_copy_out (bte_rx_addr ep s) pkt n s in
  let s := set_bte_rx_count ep
             (Z.lor (Z.land (bte_rx_count ep s) (Z.lnot 0x3ff)) n) s in
  let e := epr_load ep s in
  let e := Z.land e (Z.lnot (Z.lor USB_EP0R_STAT_RX USB_EP0R_SETUP)) in
  let e := Z.lor (Z.lor e USB_EP0R_CTR_RX) 0x2000 in
  let e := if is_setup then Z.lor e USB_EP0R_SETUP else e in
  let s := set_EPR (wr (EPR s) ep e) s in
  hw_flag_ctr ep USB_ISTR_DIR s.

Definition hw_transmitted (ep : Z) (s : usb_dev) : usb_dev :=
  let e := epr_load ep s in
  let e := Z.land e (Z.lnot USB_EP0R_STAT_TX) in
  let e := Z.lor (Z.lor e USB_EP0R_CTR_TX) 0x0020 in
  let s := set_EPR (wr (EPR s) ep e) s in
  hw_flag_ctr ep 0 s.

Definition hw_bus_reset (s : usb_dev) : usb_dev :=
  let keep := Z.lor USB_EP0R_CTR_RX USB_EP0R_CTR_TX in
  let s := set_EPR (map (fun e => Z.land e keep) (EPR s)) s in
  set_ISTR (Z.lor (ISTR s) USB_ISTR_RESET) s.

Definition hw_event (e : usb_event) (s : usb_dev) : usb_dev :=
  match e with
  | HostSetup pkt => hw_receive EP0R true pkt s
  | HostOut ep pkt => hw_receive ep false pkt s
  | TxDone ep => hw_transmitted ep s
  | BusReset => hw_bus_reset s
  end.

(** The interrupt handler entered with zeroed local arrays. *)
Definition irq (s : usb_dev) : result usb_dev :=
  USB_LP_CAN1_RX0_IRQHandler (replicate 10 0) (replicate 64 0) s.

(** A run of events, each followed by the interrupt it raises. *)
Fixpoint play (es : list usb_event) (s : usb_dev) : result usb_dev :=
  match es with
  | [] => Ok s
  | e :: es' => run s' <- irq (hw_event e s) in play es' s'
  end.

(** The packet the peripheral sends on the next IN token of endpoint
    [ep]: [tx_count] bytes from the transmit buffer, two per slot, low
    byte first. *)
Definition pma_byte (pma : list Z) (slot : Z) (k : Z) : Z :=
  let w := rd pma (slot + k / 2) in
  if k mod 2 =? 0 then w mod 256 else (w / 256) mod 256.

Definition tx_packet (ep : Z) (s : usb_dev) : list Z :=
  map (fun k : nat =>
         pma_byte (PMA s) (pma_slot (bte_tx_addr ep s)) (Z.of_nat k))
      (seq 0 (Z.to_nat (bte_tx_count ep s))).

(** The bytes of the packet waiting in the receive buffer of [ep]. *)
Definition rx_packet (ep : Z) (s : usb_dev) : list Z :=
  map (fun k : nat =>
         pma_byte (PMA s) (pma_slot (bte_rx_addr ep s)) (Z.of_nat k))
      (seq 0 (Z.to_nat (Z.land (bte_rx_count ep s) 0x3ff))).

(** Some SETUP packets. *)
Definition setup_packet (rt rq val idx len : Z) : list Z :=
  [rt; rq; val mod 256; val / 256; idx mod 256; idx / 256;
   len mod 256; len / 256].

Definition SET_ADDRESS (addr : Z) : list Z := setup_packet 0x00 0x05 addr 0 0.
Definition SET_CONFIGURATION (cfg : Z) : list Z :=
  setup_packet 0x00 0x09 cfg 0 0.
Definition GET_STRING (idx : Z) : list Z :=
  setup_packet 0x80 0x06 (0x0300 + idx) 0x0409 255.
Definition IFC_ENABLE (on : Z) : list Z := setup_packet 0x41 0x00 on 0 0.
Definition SET_BAUDDIV : list Z := setup_packet 0x41 0x1e 0 0 4.
Definition SET_CHARS : list Z := setup_packet 0x41 0x19 0 0 6.
Definition SET_LINE_CODING : list Z := setup_packet 0x21 0x20 0 0 7.

(** Reading the outcome of a run. *)
Definition result_map {A B : Type} (f : A -> B) (r : result A) : result B :=
  match r with
  | Ok a => Ok (f a)
  | Panic msg => Panic msg
  | Spin => Spin
  | Overrun => Overrun
  end.

(** The SETUP packets that [usb_setup] hands to [set_configuration]. *)
Definition is_set_configuration (buf : list Z) (count : Z) : bool :=
  negb (count =? 0) && negb (rtype (setup_of buf) =? 0x21)
  && (tag_of (setup_of buf) =? 0x0009).

(** The receive part of [ctr0] before the dispatch: the packet copied
    out of packet memory and the state with the endpoint armed again. *)
Definition ctr0_count (s : usb_dev) : Z := Z.land (bte_rx_count EP0R s) 0x3ff.

Definition ctr0_packet (buf : list Z) (s : usb_dev) : list Z :=
  pma_copy_in (bte_rx_addr EP0R s) buf (ctr0_count s) s.

Definition ctr0_armed (s : usb_dev) : usb_dev :=
  endpoint_recv_ready EP0R (endpoint_clear_tx EP0R s).

(** Flags of endpoint register [ep] as the handlers test them. *)
Definition ctr_rx_set (ep : Z) (s : usb_dev) : Prop :=
  Z.land (epr_load ep s) USB_EP0R_CTR_RX <> 0.
Definition ctr_tx_set (ep : Z) (s : usb_dev) : Prop :=
  Z.land (epr_load ep s) USB_EP0R_CTR_TX <> 0.
Definition ctr_rx_clear (ep : Z) (s : usb_dev) : Prop :=
  Z.land (epr_load ep s) USB_EP0R_CTR_RX = 0.
Definition ctr_tx_clear (ep : Z) (s : usb_dev) : Prop :=
  Z.land (epr_load ep s) USB_EP0R_CTR_TX = 0.
Definition setup_set (s : usb_dev) : Prop :=
  Z.land (epr_load EP0R s) USB_EP0R_SETUP <> 0.
Definition setup_clear (s : usb_dev) : Prop :=
  Z.land (epr_load EP0R s) USB_EP0R_SETUP = 0.

(** The string descriptor as the specification words it: a length byte of
    [2 + 2 * strlen], the descriptor type, then every character as a
    16-bit unit whose high byte is zero. *)
Definition string_descriptor (str : list Z) : list Z :=
  (2 + 2 * strlen str) :: DESC_TYPE_STRING :: flat_map (fun c => [c; 0]) str.

(** The transmit buffer of [ep] lies behind its table entry and has its 32
    slots inside packet memory, as [endpoint_init] lays the buffers out. *)
Definition tx_buffer_ok (ep : Z) (s : usb_dev) : Prop :=
  0 <= ep /\
  4 * ep + 1 < pma_slot (bte_tx_addr ep s) /\
  pma_slot (bte_tx_addr ep s) + 32 <= Z.of_nat (length (PMA s)).

(** The first [n] bytes of a buffer as the copy to packet memory reads
    them. *)
Definition bytes_at (data : list Z) (n : Z) : list Z :=
  map (fun k : nat => uint8 (rd data (Z.of_nat k))) (seq 0 (Z.to_nat n)).

(** ** What runs between a request and its status stage

    Between two interrupts the peripheral rewrites the endpoint registers,
    the interrupt status and the packet memory; [hw] gives their new
    contents from the state it finds.  The software's part is a call of
    one of the two endpoint handlers. *)
Inductive usb_step : Type :=
| Peripheral (hw : usb_dev -> list Z * Z * list Z)
| Ctr0 (buf : list Z)
| DataCtr (ep : Z) (inbuf : list Z).

Definition usb_step_run (st : usb_step) (s : usb_dev) : result usb_dev :=
  match st with
  | Peripheral hw =>
      let '(epr, istr, pma) := hw s in
      Ok (set_PMA pma (set_ISTR istr (set_EPR epr s)))
  | Ctr0 buf => ctr0 buf s
  | DataCtr ep inbuf => data_ctr ep inbuf s
  end.

Fixpoint usb_steps (sts : list usb_step) (s : usb_dev) : result usb_dev :=
  match sts with
  | [] => Ok s
  | st :: rest => run s' <- usb_step_run st s in usb_steps rest s'
  end.

(** The registers and the packet memory after an event of the
    peripheral. *)
Definition raised (e : usb_event) (s : usb_dev) : list Z * Z * list Z :=
  let s' := hw_event e s in (EPR s', ISTR s', PMA s').

(** A step taken while a status stage is awaited: a call of [ctr0] is not
    the handling of a transmit-complete (the receive flag is up or the
    transmit flag is down) and does not receive a SET_ADDRESS request. *)
Definition awaits_status (st : usb_step) (s : usb_dev) : Prop :=
  match st with
  | Ctr0 buf =>
      (ctr_rx_set EP0R s \/ ctr_tx_clear EP0R s) /\
      (ctr_rx_set EP0R s -> setup_set s ->
       tag_of (setup_of (ctr0_packet buf s)) <> 0x0005)
  | _ => True
  end.

Fixpoint awaiting_status (sts : list usb_step) (s : usb_dev) : Prop :=
  match sts with
  | [] => True
  | st :: rest =>
      awaits_status st s /\
      match usb_step_run st s with
      | Ok s' => awaiting_status rest s'
      | _ => True
      end
  end.

(** ** Invariants used in the proofs *)

(** Two states with register files and packet memories of the same
    sizes. *)
Definition same_sizes (s s' : usb_dev) : Prop :=
  length (EPR s') = length (EPR s) /\ length (PMA s') = length (PMA s).


(** A queue of capacity [C] over a backing array of [C] bytes, as
    [cq_init] builds it and [cq_add] and [cq_remove] keep it: the write
    cursor is [count] places after the read cursor, wrapping at the end. *)
Definition cq_wf (C : Z) (q : cqueue) : Prop :=
  0 <= C <= INT_MAX /\ q_size q = C /\ q_bp q = 0 /\ q_limit q = C /\
  Z.of_nat (length (q_buf q)) = C /\
  0 <= q_count q <= C /\
  0 <= q_op q /\ (q_op q < C \/ q_op q = 0) /\
  q_ip q = cq_wrap q (q_op q + q_count q).

(** The counters of a queue of capacity [C] after [n] calls. *)
Definition cq_balanced (C n : Z) (st : cqueue * cq_tally) : Prop :=
  q_size (fst st) = C /\
  0 <= q_count (fst st) <= C /\
  0 <= q_toss (fst st) <= n /\
  q_count (fst st) = pushes (snd st) - pops (snd st) - q_toss (fst st).

(** The same queue with one more tossed byte. *)
Definition cq_tossed (q : cqueue) : cqueue :=
  {| q_buf := q_buf q; q_bp := q_bp q; q_ip := q_ip q; q_op := q_op q;
     q_limit := q_limit q; q_size := q_size q; q_count := q_count q;
     q_toss := q_toss q + 1 |}.

Definition is_byte (b : Z) : Prop := 0 <= b < 256.

(** The bookkeeping of the specification for a queue of capacity [C], kept
    from the calls alone and not read from the queue: the bytes held, the
    pushes, the pops that found a byte to return, and the overflows, that
    is the pushes that found [C] bytes held. *)
Record cq_ledger : Type := mk_ledger {
  held : Z;
  pushed : Z;
  popped : Z;
  overflowed : Z
}.

Definition cq_ledger_step (C : Z) (l : cq_ledger) (c : cq_call) : cq_ledger :=
  match c with
  | Add _ =>
      if held l <? C then
        {| held := held l + 1; pushed := pushed l + 1; popped := popped l;
           overflowed := overflowed l |}
      else
        {| held := held l; pushed := pushed l + 1; popped := popped l;
           overflowed := overflowed l + 1 |}
  | Remove =>
      if held l <? 1 then l
      else
        {| held := held l - 1; pushed := pushed l; popped := popped l + 1;
           overflowed := overflowed l |}
  end.

Definition cq_ledger_run (C : Z) (cs : list cq_call) : cq_ledger :=
  fold_left (cq_ledger_step C) cs
    {| held := 0; pushed := 0; popped := 0; overflowed := 0 |}.

(** The number of [cq_remove] calls of a trace that returned a byte, read
    from the value each call returns. *)
Fixpoint cq_returned (qp : cqueue) (cs : list cq_call) : Z :=
  match cs with
  | [] => 0
  | Add ch :: rest => cq_returned (cq_add qp ch) rest
  | Remove :: rest =>
      (if snd (cq_remove qp) =? -1 then 0 else 1)
      + cq_returned (fst (cq_remove qp)) rest
  end.

(** The number of [cq_add] calls of a trace. *)
Fixpoint cq_pushes (cs : list cq_call) : Z :=
  match cs with
  | [] => 0
  | Add _ :: rest => 1 + cq_pushes rest
  | Remove :: rest => cq_pushes rest
  end.

(** A queue whose counters agree with the ledger after [n] calls, and whose
    unread bytes are bytes. *)
Definition cq_tracked (n : Z) (q : cqueue) (l : cq_ledger) : Prop :=
  q_count q = held l /\ q_toss q = overflowed l /\
  held l = pushed l - popped l - overflowed l /\
  0 <= overflowed l <= n /\
  Forall is_byte (cq_contents q).

(** ** Further functions of [src/utils/utils.c] *)

(** [memset]: the loop [while (len-- > 0) *ptr++ = val;] stores the byte
    [val] [len] times and nothing for [len <= 0]; a [len] larger than the
    destination runs past it. *)
Fixpoint memset_loop (n : nat) (i : Z) (dest : list Z) (val : Z) : list Z :=
  match n with
  | O => dest
  | S n' => memset_loop n' (i + 1) (wr dest i (uint8 val)) val
  end.

Definition memset (dest : list Z) (val : Z) (len : Z) : result (list Z) :=
  if len >? sizeof dest then Overrun
  else Ok (memset_loop (Z.to_nat len) 0 dest val).

(** [strcmp]: as for [strlen], a list that ends stands for a string whose
    terminating zero follows it.  The characters are compared as
    [unsigned char]. *)
Definition head_char (s : list Z) : Z :=
  match s with
  | [] => 0
  | c :: _ => c
  end.

Fixpoint strcmp (s1 s2 : list Z) : Z :=
  let c1 := head_char s1 in
  let c2 := head_char s2 in
  if c1 =? c2 then
    if c1 =? 0 then 0
    else
      match s1 with
      | [] => 0
      | _ :: r1 => strcmp r1 (tl s2)
      end
  else c1 - c2.

(** The characters of a C string: those before the first zero. *)
Fixpoint c_string (s : list Z) : list Z :=
  match s with
  | [] => []
  | c :: rest => if c =? 0 then [] else c :: c_string rest
  end.

(** [itoa].  [v] and [radix] are taken as [unsigned] in [v % radix] and
    [v /= radix]; division by zero is undefined in C, the UDIV instruction
    of the Cortex-M3 yields 0 for it, and so does division in [Z].  The
    digits go to [tmp[16]], least significant first; a seventeenth digit
    would run past it. *)
Definition itoa_char (i : Z) : Z :=
  uint8 (if i <? 10 then i + 48 else i + 97 - 10).

Fixpoint itoa_loop (room : nat) (v radix : Z) (started : bool)
  : result (list Z) :=
  if (v =? 0) && started then Ok []
  else
    match room with
    | O => Overrun
    | S room' =>
        let i := int32 (v mod radix) in
        let v := v / radix in
        run rest <- itoa_loop room' v radix true in
        Ok (itoa_char i :: rest)
    end.

(** The result is the characters stored through [sp]; the value returned
    by the C function is their number. *)
Definition itoa_sign (value radix : Z) : bool :=
  (radix =? 10) && (value <? 0).

(** [v = -value] or [v = (unsigned)value]. *)
Definition itoa_magnitude (value radix : Z) : Z :=
  if itoa_sign value radix then (- value) mod 2 ^ 32 else value mod 2 ^ 32.

Definition itoa (value : Z) (radix : Z) : result (list Z) :=
  let sign := itoa_sign value radix in
  let v := itoa_magnitude value radix in
  run tmp <- itoa_loop 16 v (radix mod 2 ^ 32) false in
  Ok ((if sign then [45] else []) ++ rev tmp).

(** The number a string of decimal digits denotes. *)
Definition decimal_value (cs : list Z) : Z :=
  fold_left (fun acc c => 10 * acc + (c - 48)) cs 0.

Definition is_digit (c : Z) : Prop := 48 <= c <= 57.

(** The same for digits given least significant first. *)
Definition lsd_value (cs : list Z) : Z :=
  fold_right (fun c acc => 10 * acc + (c - 48)) 0 cs.

(** ** A queue trace with its inputs and outputs *)

(** The bytes [cq_add] stored and the bytes [cq_remove] returned in the
    course of a trace, each in call order. *)
Record cq_io : Type := mk_io { stored : list Z; returned : list Z }.

Definition cq_io_step (st : cqueue * cq_io) (c : cq_call) : cqueue * cq_io :=
  let (qp, io) := st in
  match c with
  | Add ch =>
      (cq_add qp ch,
       {| stored := if q_count qp <? q_size qp then stored io ++ [uint8 ch]
                    else stored io;
          returned := returned io |})
  | Remove =>
      (fst (cq_remove qp),
       {| stored := stored io;
          returned := if q_count qp <? 1 then returned io
                      else returned io ++ [snd (cq_remove qp)] |})
  end.

Definition cq_run_io (qp : cqueue) (cs : list cq_call) : cqueue * cq_io :=
  fold_left cq_io_step cs (qp, {| stored := []; returned := [] |}).

(** ** [endpoint_recv] ([src/driver/usb.c])

    The function waits in [while (cq_count(&in_queue) < 1);], then moves
    up to [limit] queued bytes to [buf].  The result is the state, the
    buffer and the number of bytes. *)
Fixpoint endpoint_recv_loop (n : nat) (i : Z) (buf : list Z) (q : cqueue)
  : list Z * cqueue :=
  match n with
  | O => (buf, q)
  | S n' =>
      let (q', ch) := cq_remove q in
      endpoint_recv_loop n' (i + 1) (wr buf i (uint8 ch)) q'
  end.

Definition endpoint_recv (ep : Z) (buf : list Z) (limit : Z) (s : usb_dev)
  : result (usb_dev * list Z * Z) :=
  if cq_count (in_queue s) <? 1 then Spin
  else
    let n := cq_count (in_queue s) in
    let n := if n >? limit then limit else n in
    if n >? sizeof buf then Overrun
    else
      let (buf', q') := endpoint_recv_loop (Z.to_nat n) 0 buf (in_queue s) in
      Ok (set_in_queue q' s, buf', n).

(** * Properties *)

(** ** Bits of the endpoint register *)

Section EprBits.

Lemma land3_bits (x : Z) :
  Z.land x 3 = Z.b2z (Z.testbit x 0) + 2 * Z.b2z (Z.testbit x 1).
Proof.
  change 3 with (Z.ones 2). rewrite Z.land_ones by lia.
  rewrite (Z.testbit_spec' x 0), (Z.testbit_spec' x 1) by lia.
  change (2 ^ 0) with 1. change (2 ^ 1) with 2. change (2 ^ 2) with 4.
  rewrite Z.div_1_r. Z.div_mod_to_equations. lia.
Qed.

Lemma stat_tx_bits (v : Z) :
  stat_tx v = Z.b2z (Z.testbit v 4) + 2 * Z.b2z (Z.testbit v 5).
Proof.
  unfold stat_tx. rewrite land3_bits, !Z.shiftr_spec by lia. reflexivity.
Qed.

Lemma stat_rx_bits (v : Z) :
  stat_rx v = Z.b2z (Z.testbit v 12) + 2 * Z.b2z (Z.testbit v 13).
Proof.
  unfold stat_rx. rewrite land3_bits, !Z.shiftr_spec by lia. reflexivity.
Qed.

End EprBits.

(** Reduce a bit of a stored register value to the bits of the value
    read, then decide it by cases on those bits. *)
Ltac epr_bit f v :=
  unfold epr_write, f;
  repeat first [ rewrite Z.lor_spec | rewrite Z.land_spec
               | rewrite Z.lxor_spec | rewrite Z.lnot_spec by lia ];
  repeat match goal with
         | |- context [Z.testbit v ?n] =>
             let b := fresh "b" in
             generalize (Z.testbit v n); intro b
         end;
  vm_compute;
  repeat match goal with b : bool |- _ => destruct b end;
  reflexivity.

Lemma set_rx_ready_reaches_valid (v : Z) :
  stat_rx (epr_write v (set_rx_ready_val v)) = STAT_VALID.
Proof.
  rewrite stat_rx_bits.
  assert (H12 : Z.testbit (epr_write v (set_rx_ready_val v)) 12 = true)
    by epr_bit set_rx_ready_val v.
  assert (H13 : Z.testbit (epr_write v (set_rx_ready_val v)) 13 = true)
    by epr_bit set_rx_ready_val v.
  rewrite H12, H13. reflexivity.
Qed.

Lemma set_tx_valid_reaches_valid (v : Z) :
  stat_tx (epr_write v (set_tx_valid_val v)) = STAT_VALID.
Proof.
  rewrite stat_tx_bits.
  assert (H4 : Z.testbit (epr_write v (set_tx_valid_val v)) 4 = true)
    by epr_bit set_tx_valid_val v.
  assert (H5 : Z.testbit (epr_write v (set_tx_valid_val v)) 5 = true)
    by epr_bit set_tx_valid_val v.
  rewrite H4, H5. reflexivity.
Qed.

Lemma set_tx_nak_reaches_nak (v : Z) :
  stat_tx (epr_write v (set_tx_nak_val v)) = STAT_NAK.
Proof.
  rewrite stat_tx_bits.
  assert (H4 : Z.testbit (epr_write v (set_tx_nak_val v)) 4 = false)
    by epr_bit set_tx_nak_val v.
  assert (H5 : Z.testbit (epr_write v (set_tx_nak_val v)) 5 = true)
    by epr_bit set_tx_nak_val v.
  rewrite H4, H5. reflexivity.
Qed.

(** [endpoint_stall] clears the transmit status bits of the value it read
    before the exclusive-or, so the store flips the low status bit whatever
    the field held: the field ends at STALL only from DISABLED. *)
Lemma stall_flips_low_bit (v : Z) :
  stat_tx (epr_write v (stall_val v)) = Z.lxor (stat_tx v) STAT_STALL.
Proof.
  rewrite !stat_tx_bits.
  assert (H4 : Z.testbit (epr_write v (stall_val v)) 4
               = negb (Z.testbit v 4)) by epr_bit stall_val v.
  assert (H5 : Z.testbit (epr_write v (stall_val v)) 5 = Z.testbit v 5)
    by epr_bit stall_val v.
  rewrite H4, H5.
  destruct (Z.testbit v 4), (Z.testbit v 5); reflexivity.
Qed.

(** The same store writes back the receive status bits it read, which
    toggles the receive status to DISABLED. *)
Lemma stall_disables_rx (v : Z) :
  stat_rx (epr_write v (stall_val v)) = STAT_DISABLED.
Proof.
  rewrite stat_rx_bits.
  assert (H12 : Z.testbit (epr_write v (stall_val v)) 12 = false)
    by epr_bit stall_val v.
  assert (H13 : Z.testbit (epr_write v (stall_val v)) 13 = false)
    by epr_bit stall_val v.
  rewrite H12, H13. reflexivity.
Qed.

(** ** Arrays *)

Lemma rd_wr_same (l : list Z) (i v : Z) :
  0 <= i < Z.of_nat (length l) -> rd (wr l i v) i = v.
Proof.
  intros Hi. unfold rd, wr.
  destruct (Z.ltb_spec i 0) as [Hneg | _]; [lia |].
  rewrite list_lookup_insert_eq by lia. reflexivity.
Qed.

Lemma rd_wr_other (l : list Z) (i j v : Z) :
  i <> j -> rd (wr l i v) j = rd l j.
Proof.
  intros Hne. unfold rd, wr.
  destruct (Z.ltb_spec j 0) as [Hj | Hj]; [reflexivity |].
  destruct (Z.ltb_spec i 0) as [Hi | Hi]; [reflexivity |].
  rewrite list_lookup_insert_ne by lia. reflexivity.
Qed.

Lemma length_wr (l : list Z) (i v : Z) : length (wr l i v) = length l.
Proof.
  unfold wr. destruct (i <? 0); [reflexivity | apply length_insert].
Qed.

(** The endpoint functions on a register file of eight registers. *)
Section EndpointStatus.

Variable s : usb_dev.
Variable ep : Z.
Hypothesis Hregs : length (EPR s) = 8%nat.
Hypothesis Hep : 0 <= ep < EP_COUNT.

Lemma epr_load_store (w : Z) :
  epr_load ep (epr_store ep w s) = epr_write (epr_load ep s) w.
Proof.
  unfold epr_load, epr_store, set_EPR; cbn.
  apply rd_wr_same. unfold EP_COUNT in Hep. rewrite Hregs. lia.
Qed.

Lemma endpoint_set_rx_ready_status :
  stat_rx (epr_load ep (endpoint_set_rx_ready ep s)) = STAT_VALID.
Proof.
  unfold endpoint_set_rx_ready. rewrite epr_load_store.
  apply set_rx_ready_reaches_valid.
Qed.

Lemma endpoint_set_tx_valid_status :
  stat_tx (epr_load ep (endpoint_set_tx_valid ep s)) = STAT_VALID.
Proof.
  unfold endpoint_set_tx_valid. rewrite epr_load_store.
  apply set_tx_valid_reaches_valid.
Qed.

Lemma endpoint_set_tx_nak_status :
  stat_tx (epr_load ep (endpoint_set_tx_nak ep s)) = STAT_NAK.
Proof.
  unfold endpoint_set_tx_nak. rewrite epr_load_store.
  apply set_tx_nak_reaches_nak.
Qed.

Lemma endpoint_stall_status :
  stat_tx (epr_load ep (endpoint_stall ep s))
  = Z.lxor (stat_tx (epr_load ep s)) STAT_STALL.
Proof.
  unfold endpoint_stall. rewrite epr_load_store.
  apply stall_flips_low_bit.
Qed.

End EndpointStatus.

(** C1. Of the four status-changing functions, [endpoint_stall] does not
    reach its target from every starting value: on endpoint 0 as
    [usb_init] leaves it the transmit status is NAK, and after
    [endpoint_stall] it is VALID, not STALL.  (The other three reach their
    targets from every value: [endpoint_set_rx_ready_status],
    [endpoint_set_tx_valid_status], [endpoint_set_tx_nak_status].) *)
Theorem endpoint_stall_from_nak :
  stat_tx (epr_load EP0R (usb_init boot)) = STAT_NAK /\
  stat_tx (epr_load EP0R (endpoint_stall EP0R (usb_init boot))) = STAT_VALID /\
  stat_tx (epr_load EP0R (endpoint_stall EP0R (usb_init boot))) <> STAT_STALL.
Proof.
  repeat split; try (vm_compute; reflexivity).
  vm_compute. discriminate.
Qed.

(** ** The circular queue *)

Lemma int32_small (z : Z) : - 2 ^ 31 <= z <= INT_MAX -> int32 z = z.
Proof.
  unfold int32, INT_MAX. intros Hz.
  rewrite Z.mod_small by lia. lia.
Qed.

Lemma uint8_byte (b : Z) : is_byte b -> uint8 b = b.
Proof. unfold is_byte, uint8. intros Hb. apply Z.mod_small. lia. Qed.

Lemma cq_run_tally_fst (cs : list cq_call) (q : cqueue) (t : cq_tally) :
  fst (fold_left cq_tally_step cs (q, t)) = cq_run q cs.
Proof.
  revert q t. induction cs as [| c cs IH]; intros q t; [reflexivity |].
  cbn [fold_left cq_run]. destruct c; cbn [cq_tally_step]; apply IH.
Qed.

Section QueueCounters.

Variable C : Z.
Hypothesis HC : 0 <= C <= INT_MAX.

Lemma cq_balanced_init (buf : list Z) :
  cq_balanced C 0 (cq_init buf C, {| pushes := 0; pops := 0 |}).
Proof. unfold cq_balanced; cbn. lia. Qed.

Lemma cq_balanced_step (n : Z) (st : cqueue * cq_tally) (c : cq_call) :
  0 <= n < INT_MAX ->
  cq_balanced C n st -> cq_balanced C (n + 1) (cq_tally_step st c).
Proof.
  intros Hn. destruct st as [q t].
  unfold cq_balanced; cbn [fst snd]. intros (Hs & Hc & Ht & Hb).
  unfold INT_MAX in *.
  destruct c as [ch |]; cbn [cq_tally_step fst snd].
  - unfold cq_add.
    destruct (Z.ltb_spec (q_count q) (q_size q)) as [Hlt | Hge];
      cbn [q_size q_count q_toss pushes pops].
    + rewrite int32_small by (unfold INT_MAX; lia). lia.
    + rewrite int32_small by (unfold INT_MAX; lia). lia.
  - unfold cq_remove.
    destruct (Z.ltb_spec (q_count q) 1) as [Hlt | Hge];
      cbn [fst q_size q_count q_toss pushes pops].
    + lia.
    + rewrite int32_small by (unfold INT_MAX; lia). lia.
Qed.

Lemma cq_balanced_run (cs : list cq_call) (n : Z) (st : cqueue * cq_tally) :
  0 <= n -> n + Z.of_nat (length cs) <= INT_MAX ->
  cq_balanced C n st ->
  cq_balanced C (n + Z.of_nat (length cs)) (fold_left cq_tally_step cs st).
Proof.
  revert n st. induction cs as [| c cs IH]; intros n st Hn Hlen Hbal.
  - cbn. rewrite Z.add_0_r. exact Hbal.
  - cbn [fold_left]. cbn [length] in *.
    replace (n + Z.of_nat (S (length cs)))
      with ((n + 1) + Z.of_nat (length cs)) by lia.
    apply IH; [lia | lia |].
    apply cq_balanced_step; [lia | exact Hbal].
Qed.

(** A push onto a full queue changes the toss counter and nothing else. *)
Lemma cq_add_full (q : cqueue) (ch : Z) :
  q_size q <= q_count q -> 0 <= q_toss q < INT_MAX ->
  cq_add q ch = cq_tossed q.
Proof.
  intros Hfull Ht. unfold cq_add, cq_tossed.
  destruct (Z.ltb_spec (q_count q) (q_size q)) as [Hlt | _]; [lia |].
  rewrite int32_small by (unfold INT_MAX in *; lia). reflexivity.
Qed.

End QueueCounters.

(** Case analysis on the cursor comparisons. *)
Ltac cursor_cases :=
  repeat match goal with
         | |- context [?a >=? ?b] =>
             rewrite (Z.geb_leb a b); destruct (Z.leb_spec b a)
         | H : context [?a >=? ?b] |- _ =>
             rewrite (Z.geb_leb a b) in H; destruct (Z.leb_spec b a)
         end.

Section QueueContents.

Variable C : Z.

Lemma cq_wf_init (buf : list Z) :
  0 <= C <= INT_MAX -> Z.of_nat (length buf) = C -> cq_wf C (cq_init buf C).
Proof.
  intros HC Hlen. unfold cq_wf, cq_init, cq_wrap; cbn.
  repeat split; try lia. cursor_cases; lia.
Qed.

Lemma cq_contents_length (q : cqueue) :
  length (cq_contents q) = Z.to_nat (q_count q).
Proof. unfold cq_contents. rewrite length_map, length_seq. reflexivity. Qed.

Lemma cq_add_spec (q : cqueue) (ch : Z) :
  cq_wf C q -> q_count q < C ->
  cq_wf C (cq_add q ch) /\
  q_count (cq_add q ch) = q_count q + 1 /\
  q_toss (cq_add q ch) = q_toss q /\
  cq_contents (cq_add q ch) = cq_contents q ++ [uint8 ch].
Proof.
  intros (HC & Hsz & Hbp & Hlim & Hlen & Hcnt & Hop0 & Hop & Hip) Hlt.
  unfold cq_add. rewrite Hsz.
  destruct (Z.ltb_spec (q_count q) C) as [_ | Hge]; [| lia].
  rewrite int32_small by (unfold INT_MAX in *; lia).
  unfold cq_wrap in Hip. rewrite Hlim, Hsz in Hip.
  split; [| split; [reflexivity | split; [reflexivity |]]].
  - unfold cq_wf, cq_wrap; cbn. rewrite ?length_wr, ?Hlim, ?Hbp, ?Hsz.
    repeat split; try lia. cursor_cases; lia.
  - unfold cq_contents, cq_wrap; cbn. rewrite ?Hlim, ?Hsz.
    replace (Z.to_nat (q_count q + 1)) with (S (Z.to_nat (q_count q)))
      by lia.
    rewrite seq_S, map_app. cbn. f_equal.
    + apply map_ext_in. intros k Hk. apply in_seq in Hk.
      apply rd_wr_other. cursor_cases; lia.
    + f_equal. rewrite Z2Nat.id by lia.
      rewrite <- Hip.
      apply rd_wr_same. cursor_cases; lia.
Qed.

Lemma cq_remove_spec (q : cqueue) :
  cq_wf C q -> 1 <= q_count q ->
  cq_wf C (fst (cq_remove q)) /\
  q_count (fst (cq_remove q)) = q_count q - 1 /\
  q_toss (fst (cq_remove q)) = q_toss q /\
  cq_contents q = snd (cq_remove q) :: cq_contents (fst (cq_remove q)).
Proof.
  intros (HC & Hsz & Hbp & Hlim & Hlen & Hcnt & Hop0 & Hop & Hip) Hge.
  unfold cq_remove.
  destruct (Z.ltb_spec (q_count q) 1) as [Hlt | _]; [lia |].
  rewrite int32_small by (unfold INT_MAX in *; lia).
  unfold cq_wrap in Hip. rewrite Hlim, Hsz in Hip.
  cbn [fst snd].
  split; [| split; [reflexivity | split; [reflexivity |]]].
  - unfold cq_wf, cq_wrap; cbn. rewrite ?Hlim, ?Hbp, ?Hsz.
    repeat split; try lia; cursor_cases; lia.
  - unfold cq_contents, cq_wrap; cbn. rewrite ?Hlim, ?Hbp, ?Hsz.
    replace (Z.to_nat (q_count q)) with (S (Z.to_nat (q_count q - 1)))
      by lia.
    cbn [seq map]. f_equal.
    + f_equal. cursor_cases; lia.
    + rewrite <- seq_shift, map_map. apply map_ext_in.
      intros k Hk. apply in_seq in Hk. f_equal. cursor_cases; lia.
Qed.

Lemma cq_wf_step (q : cqueue) (c : cq_call) :
  cq_wf C q -> cq_wf C (cq_step q c).
Proof.
  intros Hwf. destruct c as [ch |]; cbn [cq_step].
  - destruct (Z.lt_ge_cases (q_count q) C) as [Hlt | Hge].
    + apply cq_add_spec; assumption.
    + destruct Hwf as (HC & Hsz & Hrest). unfold cq_add. rewrite Hsz.
      destruct (Z.ltb_spec (q_count q) C) as [Hlt | _]; [lia |].
      unfold cq_wf, cq_wrap in *; cbn. rewrite Hsz in Hrest. intuition.
  - destruct (Z.lt_ge_cases (q_count q) 1) as [Hlt | Hge].
    + unfold cq_remove.
      destruct (Z.ltb_spec (q_count q) 1) as [_ | Hge]; [| lia].
      exact Hwf.
    + apply cq_remove_spec; assumption.
Qed.

Lemma cq_wf_run (cs : list cq_call) (q : cqueue) :
  cq_wf C q -> cq_wf C (cq_run q cs).
Proof.
  revert q. induction cs as [| c cs IH]; intros q Hwf; [exact Hwf |].
  cbn [cq_run fold_left]. apply IH. apply cq_wf_step. exact Hwf.
Qed.

(** Popping [n] bytes returns the [n] oldest unread bytes. *)
Lemma cq_remove_n_contents (n : nat) (q : cqueue) :
  cq_wf C q -> Z.of_nat n <= q_count q ->
  snd (cq_remove_n n q) = firstn n (cq_contents q).
Proof.
  revert q. induction n as [| n IH]; intros q Hwf Hn; [reflexivity |].
  destruct (cq_remove_spec q Hwf ltac:(lia)) as (Hwf' & Hc' & _ & Hcont).
  cbn [cq_remove_n]. rewrite Hcont.
  destruct (cq_remove q) as [q' b]. cbn [fst snd] in *.
  specialize (IH q' Hwf' ltac:(lia)).
  destruct (cq_remove_n n q') as [q'' rest]. cbn [fst snd] in *.
  rewrite IH. reflexivity.
Qed.

(** Pushing a list of bytes appends those that fit and counts the
    others in [toss]. *)
Lemma cq_add_all_spec (bs : list Z) (q : cqueue) :
  cq_wf C q -> 0 <= q_toss q ->
  q_toss q + Z.of_nat (length bs) <= INT_MAX ->
  cq_wf C (cq_add_all q bs) /\
  q_count (cq_add_all q bs)
  = Z.min C (q_count q + Z.of_nat (length bs)) /\
  q_toss (cq_add_all q bs)
  = q_toss q + Z.max 0 (q_count q + Z.of_nat (length bs) - C) /\
  cq_contents (cq_add_all q bs)
  = cq_contents q ++ firstn (Z.to_nat (C - q_count q)) (map uint8 bs).
Proof.
  revert q. induction bs as [| b bs IH]; intros q Hwf Ht Hlen.
  - cbn. pose proof Hwf as (HC & Hsz & _ & _ & _ & Hcnt & _).
    rewrite firstn_nil, app_nil_r.
    split; [exact Hwf |]. split; [lia |]. split; [lia | reflexivity].
  - cbn [cq_add_all fold_left length map] in *.
    pose proof Hwf as (HC & Hsz & _ & _ & _ & Hcnt & _).
    destruct (Z.lt_ge_cases (q_count q) C) as [Hlt | Hge].
    + destruct (cq_add_spec q b Hwf Hlt) as (Hwf' & Hc' & Ht' & Hcont').
      destruct (IH (cq_add q b) Hwf' ltac:(lia) ltac:(lia))
        as (Hwf2 & Hc2 & Ht2 & Hcont2).
      fold (cq_add_all (cq_add q b) bs).
      rewrite Hc2, Ht2, Hcont2, Hc', Ht', Hcont'.
      split; [exact Hwf2 |]. split; [lia |]. split; [lia |].
      replace (Z.to_nat (C - q_count q))
        with (S (Z.to_nat (C - (q_count q + 1)))) by lia.
      cbn [firstn]. rewrite <- app_assoc. reflexivity.
    + rewrite (cq_add_full q b) by lia.
      assert (Hwft : cq_wf C (cq_tossed q)).
      { unfold cq_wf, cq_tossed, cq_wrap in *; cbn. tauto. }
      destruct (IH (cq_tossed q) Hwft) as (Hwf2 & Hc2 & Ht2 & Hcont2).
      { cbn. lia. }
      { cbn. lia. }
      fold (cq_add_all (cq_tossed q) bs).
      rewrite Hc2, Ht2, Hcont2. cbn [cq_tossed q_count q_toss].
      split; [exact Hwf2 |]. split; [lia |]. split; [lia |].
      replace (Z.to_nat (C - q_count q)) with 0%nat by lia.
      reflexivity.
Qed.

End QueueContents.

Lemma map_uint8_bytes (bs : list Z) :
  Forall is_byte bs -> map uint8 bs = bs.
Proof.
  induction 1 as [| b bs Hb _ IH]; [reflexivity |].
  cbn. rewrite uint8_byte by exact Hb. rewrite IH. reflexivity.
Qed.

(** ** The queue against the ledger of its calls *)

Section QueueLedger.

Variable C : Z.

Lemma uint8_is_byte (ch : Z) : is_byte (uint8 ch).
Proof. unfold is_byte, uint8. apply Z.mod_pos_bound. lia. Qed.

Lemma cq_remove_empty (q : cqueue) : q_count q < 1 -> cq_remove q = (q, -1).
Proof.
  intros Hlt. unfold cq_remove.
  destruct (Z.ltb_spec (q_count q) 1) as [_ | Hge]; [reflexivity | lia].
Qed.

Lemma cq_tracked_init (buf : list Z) :
  cq_tracked 0 (cq_init buf C) (cq_ledger_run C []).
Proof.
  unfold cq_tracked, cq_ledger_run, cq_contents; cbn.
  repeat split; try lia. constructor.
Qed.

(** One call moves the queue and the ledger together: a push is stored
    exactly when fewer than [C] bytes are held and tossed otherwise, a pop
    takes a byte exactly when one is held. *)
Lemma cq_tracked_step (n : Z) (q : cqueue) (l : cq_ledger) (c : cq_call) :
  0 <= n < INT_MAX -> cq_wf C q ->
  cq_tracked n q l ->
  cq_tracked (n + 1) (cq_step q c) (cq_ledger_step C l c).
Proof.
  intros Hn Hwf (Hc & Ht & Hb & Ho & Hbytes).
  pose proof Hwf as (HC & Hsz & _ & _ & _ & Hcnt & _).
  unfold cq_tracked. destruct c as [ch |]; cbn [cq_step cq_ledger_step].
  - rewrite <- Hc.
    destruct (Z.ltb_spec (q_count q) C) as [Hlt | Hge].
    + destruct (cq_add_spec C q ch Hwf Hlt) as (_ & Hc' & Ht' & Hcont).
      rewrite Hc', Ht', Hcont. cbn [held pushed popped overflowed].
      repeat split; try lia.
      apply Forall_app. split; [exact Hbytes |].
      constructor; [apply uint8_is_byte | constructor].
    + rewrite (cq_add_full q ch) by lia.
      cbn [cq_tossed q_count q_toss held pushed popped overflowed].
      repeat split; try lia. exact Hbytes.
  - rewrite <- Hc.
    destruct (Z.ltb_spec (q_count q) 1) as [Hlt | Hge].
    + rewrite cq_remove_empty by exact Hlt. cbn [fst].
      repeat split; try lia. exact Hbytes.
    + destruct (cq_remove_spec C q Hwf Hge) as (_ & Hc' & Ht' & Hcont).
      rewrite Hc', Ht'. cbn [held pushed popped overflowed].
      repeat split; try lia.
      rewrite Hcont in Hbytes. inversion Hbytes; assumption.
Qed.

Lemma cq_tracked_run (cs : list cq_call) (n : Z) (q : cqueue)
    (l : cq_ledger) :
  0 <= n -> n + Z.of_nat (length cs) <= INT_MAX ->
  cq_wf C q -> cq_tracked n q l ->
  cq_tracked (n + Z.of_nat (length cs)) (cq_run q cs)
    (fold_left (cq_ledger_step C) cs l).
Proof.
  revert n q l. induction cs as [| c cs IH]; intros n q l Hn Hlen Hwf Htr.
  - cbn. rewrite Z.add_0_r. exact Htr.
  - cbn [cq_run fold_left]. cbn [length] in *.
    replace (n + Z.of_nat (S (length cs)))
      with ((n + 1) + Z.of_nat (length cs)) by lia.
    apply IH; [lia | lia | apply cq_wf_step; exact Hwf |].
    apply cq_tracked_step; [lia | exact Hwf | exact Htr].
Qed.

(** [cq_remove] returns [-1] exactly when nothing is held. *)
Lemma cq_remove_fails_iff (q : cqueue) :
  cq_wf C q -> Forall is_byte (cq_contents q) ->
  snd (cq_remove q) = -1 <-> q_count q = 0.
Proof.
  intros Hwf Hbytes.
  pose proof Hwf as (_ & _ & _ & _ & _ & Hcnt & _).
  split.
  - intros Hret.
    destruct (Z.lt_ge_cases (q_count q) 1) as [Hlt | Hge]; [lia |].
    destruct (cq_remove_spec C q Hwf Hge) as (_ & _ & _ & Hcont).
    rewrite Hcont, Hret in Hbytes. inversion Hbytes as [| b bs Hb _].
    unfold is_byte in Hb. lia.
  - intros H0. rewrite cq_remove_empty by lia. reflexivity.
Qed.

(** The pops the ledger counts are the calls of [cq_remove] that returned
    a byte, and its pushes are the calls of [cq_add]. *)
Lemma cq_ledger_counts (cs : list cq_call) (n : Z) (q : cqueue)
    (l : cq_ledger) :
  0 <= n -> n + Z.of_nat (length cs) <= INT_MAX ->
  cq_wf C q -> cq_tracked n q l ->
  popped (fold_left (cq_ledger_step C) cs l) = popped l + cq_returned q cs /\
  pushed (fold_left (cq_ledger_step C) cs l) = pushed l + cq_pushes cs.
Proof.
  revert n q l. induction cs as [| c cs IH]; intros n q l Hn Hlen Hwf Htr.
  - cbn. lia.
  - cbn [length] in Hlen.
    pose proof (cq_tracked_step n q l c ltac:(lia) Hwf Htr) as Htr'.
    pose proof (cq_wf_step C q c Hwf) as Hwf'.
    destruct (IH (n + 1) (cq_step q c) (cq_ledger_step C l c)
                ltac:(lia) ltac:(lia) Hwf' Htr') as [IHp IHq].
    cbn [fold_left]. rewrite IHp, IHq.
    destruct Htr as (Hc & _ & _ & _ & Hbytes).
    destruct c as [ch |]; cbn [cq_step cq_returned cq_ledger_step cq_pushes].
    + destruct (held l <? C); cbn [popped pushed]; lia.
    + pose proof (cq_remove_fails_iff q Hwf Hbytes) as Hiff.
      rewrite <- Hc.
      destruct (Z.ltb_spec (q_count q) 1) as [Hlt | Hge],
        (Z.eqb_spec (snd (cq_remove q)) (-1)) as [He | Hne];
        cbn [popped pushed];
        pose proof Hwf as (_ & _ & _ & _ & _ & Hcnt & _); lia.
Qed.

End QueueLedger.

(** C2.  On a queue initialised with capacity [C] over an array of [C]
    bytes, after every prefix of a trace of [cq_add] and [cq_remove]
    calls: the count is the number of pushes minus the number of pops that
    found a byte minus the number of overflows, where the ledger counts as
    an overflow a push made while [C] bytes are held and never reads the
    queue; the ledger's pushes are the calls of [cq_add] and its pops the
    calls of [cq_remove] that returned a byte; the count is the number of
    bytes held and the toss counter is the number of overflows; the count
    lies between 0 and [C]; and [cq_remove] returns [-1] exactly when the
    count is 0.  A further push
    while the count is below [C] raises the count by one, leaves the toss
    counter and the read cursor alone and appends the byte to the unread
    bytes.  A further push when the count has reached [C] yields the same
    queue with the toss counter one higher: count, cursors and buffer are
    untouched and so are the unread bytes.  The trace is short enough for
    the [int] counters not to overflow. *)
Theorem cq_count_balance (C : Z) (buf : list Z) (cs : list cq_call)
    (k : nat) (ch : Z) :
  0 <= C <= INT_MAX ->
  Z.of_nat (length buf) = C ->
  Z.of_nat (length cs) < INT_MAX ->
  let q := cq_run (cq_init buf C) (firstn k cs) in
  let l := cq_ledger_run C (firstn k cs) in
  q_count q = pushed l - popped l - overflowed l /\
  pushed l = cq_pushes (firstn k cs) /\
  popped l = cq_returned (cq_init buf C) (firstn k cs) /\
  q_count q = held l /\
  q_toss q = overflowed l /\
  0 <= q_count q <= C /\
  (snd (cq_remove q) = -1 <-> q_count q = 0) /\
  (q_count q < C ->
   q_count (cq_add q ch) = q_count q + 1 /\
   q_toss (cq_add q ch) = q_toss q /\
   q_op (cq_add q ch) = q_op q /\
   cq_contents (cq_add q ch) = cq_contents q ++ [uint8 ch]) /\
  (q_count q = C ->
   cq_add q ch = cq_tossed q /\
   cq_contents (cq_add q ch) = cq_contents q).
Proof.
  intros HC Hbuf Hlen q l.
  assert (Hk : Z.of_nat (length (firstn k cs)) <= Z.of_nat (length cs)).
  { rewrite length_firstn. lia. }
  assert (Hwf : cq_wf C q).
  { apply cq_wf_run, cq_wf_init; assumption. }
  pose proof (cq_tracked_run C (firstn k cs) 0 _ _ (Z.le_refl 0) ltac:(lia)
                (cq_wf_init C buf HC Hbuf) (cq_tracked_init C buf)) as Htr.
  fold q in Htr. fold (cq_ledger_run C (firstn k cs)) in Htr. fold l in Htr.
  destruct Htr as (Hc & Ht & Hb & Ho & Hbytes).
  pose proof Hwf as (_ & Hsz & _ & _ & _ & Hcnt & _).
  destruct (cq_ledger_counts C (firstn k cs) 0 _ _ (Z.le_refl 0) ltac:(lia)
              (cq_wf_init C buf HC Hbuf) (cq_tracked_init C buf))
    as [Hpops Hpushes].
  split; [rewrite Hc; exact Hb |].
  split; [exact (eq_trans Hpushes (Z.add_0_l _)) |].
  split; [exact (eq_trans Hpops (Z.add_0_l _)) |].
  split; [exact Hc |]. split; [exact Ht |].
  split; [exact Hcnt |].
  split; [apply (cq_remove_fails_iff C); assumption |].
  split.
  - intros Hroom.
    destruct (cq_add_spec C q ch Hwf Hroom) as (_ & Hc' & Ht' & Hcont).
    split; [exact Hc' |]. split; [exact Ht' |]. split; [| exact Hcont].
    unfold cq_add. destruct (q_count q <? q_size q); reflexivity.
  - intros Hfull.
    assert (Hadd : cq_add q ch = cq_tossed q).
    { apply cq_add_full; lia. }
    split; [exact Hadd |]. rewrite Hadd. reflexivity.
Qed.

(** On a queue of two bytes: after three pushes the queue is full with one
    byte tossed, and after the pop that follows it has room again. *)
Lemma cq_count_balance_witness :
  let cs := [Add 65; Add 66; Add 67; Remove; Add 68] in
  (let q := cq_run (cq_init [0; 0] 2) (firstn 3 cs) in
   let l := cq_ledger_run 2 (firstn 3 cs) in
   q_count q = pushed l - popped l - overflowed l /\
   pushed l = cq_pushes (firstn 3 cs) /\
   popped l = cq_returned (cq_init [0; 0] 2) (firstn 3 cs) /\
   q_count q = held l /\
   q_toss q = overflowed l /\
   0 <= q_count q <= 2 /\
   (snd (cq_remove q) = -1 <-> q_count q = 0) /\
   (q_count q < 2 ->
    q_count (cq_add q 69) = q_count q + 1 /\
    q_toss (cq_add q 69) = q_toss q /\
    q_op (cq_add q 69) = q_op q /\
    cq_contents (cq_add q 69) = cq_contents q ++ [uint8 69]) /\
   (q_count q = 2 ->
    cq_add q 69 = cq_tossed q /\
    cq_contents (cq_add q 69) = cq_contents q)) /\
  (let q := cq_run (cq_init [0; 0] 2) (firstn 4 cs) in
   let l := cq_ledger_run 2 (firstn 4 cs) in
   q_count q = pushed l - popped l - overflowed l /\
   pushed l = cq_pushes (firstn 4 cs) /\
   popped l = cq_returned (cq_init [0; 0] 2) (firstn 4 cs) /\
   q_count q = held l /\
   q_toss q = overflowed l /\
   0 <= q_count q <= 2 /\
   (snd (cq_remove q) = -1 <-> q_count q = 0) /\
   (q_count q < 2 ->
    q_count (cq_add q 69) = q_count q + 1 /\
    q_toss (cq_add q 69) = q_toss q /\
    q_op (cq_add q 69) = q_op q /\
    cq_contents (cq_add q 69) = cq_contents q ++ [uint8 69]) /\
   (q_count q = 2 ->
    cq_add q 69 = cq_tossed q /\
    cq_contents (cq_add q 69) = cq_contents q)).
Proof.
  intros cs. split.
  - apply (cq_count_balance 2 [0; 0] cs 3 69).
    + unfold INT_MAX. lia.
    + reflexivity.
    + unfold INT_MAX. simpl. lia.
  - apply (cq_count_balance 2 [0; 0] cs 4 69).
    + unfold INT_MAX. lia.
    + reflexivity.
    + unfold INT_MAX. simpl. lia.
Defined.

(** C6. Take any empty queue that a trace of calls on an initialised queue
    of capacity [C] leads to, and push the bytes [bs].  If [bs] has at
    most [C] bytes, popping as many times returns [bs] in order.  If [bs]
    has [C + k] bytes, the count is [C], the toss counter has grown by [k],
    and the unread bytes, which [C] pops return, are the first [C] bytes
    of [bs].  The calls are few enough for the [int] counters not to
    overflow. *)
Theorem cq_fifo_order (C : Z) (buf : list Z) (cs : list cq_call)
    (bs : list Z) (k : nat) :
  0 <= C <= INT_MAX ->
  Z.of_nat (length buf) = C ->
  Z.of_nat (length cs) + Z.of_nat (length bs) <= INT_MAX ->
  Forall is_byte bs ->
  let q0 := cq_run (cq_init buf C) cs in
  q_count q0 = 0 ->
  let q := cq_add_all q0 bs in
  (Z.of_nat (length bs) <= C ->
   snd (cq_remove_n (length bs) q) = bs) /\
  (Z.of_nat (length bs) = C + Z.of_nat k ->
   q_count q = C /\
   q_toss q = q_toss q0 + Z.of_nat k /\
   cq_contents q = firstn (Z.to_nat C) bs /\
   snd (cq_remove_n (Z.to_nat C) q) = firstn (Z.to_nat C) bs).
Proof.
  intros HC Hbuf Hlen Hbytes q0 Hempty q.
  assert (Hwf0 : cq_wf C q0).
  { apply cq_wf_run, cq_wf_init; assumption. }
  assert (Htoss0 : 0 <= q_toss q0 <= Z.of_nat (length cs)).
  { pose proof (cq_balanced_run C HC cs 0 _ (Z.le_refl 0) ltac:(lia)
                  (cq_balanced_init C HC buf)) as (_ & _ & Ht & _).
    rewrite cq_run_tally_fst in Ht. exact Ht. }
  destruct (cq_add_all_spec C bs q0 Hwf0 ltac:(lia) ltac:(lia))
    as (Hwf & Hcount & Htoss & Hcont).
  fold q in Hwf, Hcount, Htoss, Hcont.
  rewrite Hempty in Hcount, Htoss, Hcont.
  assert (Hnil : cq_contents q0 = []).
  { apply length_zero_iff_nil. rewrite cq_contents_length, Hempty.
    reflexivity. }
  rewrite Hnil, map_uint8_bytes in Hcont by exact Hbytes.
  cbn [app] in Hcont. rewrite Z.sub_0_r in Hcont.
  split.
  - intros Hfit.
    rewrite (cq_remove_n_contents C) by (exact Hwf || lia).
    rewrite Hcont, firstn_firstn.
    apply firstn_all2. lia.
  - intros Hover. split; [lia |]. split; [lia |]. split; [exact Hcont |].
    replace (snd (cq_remove_n (Z.to_nat C) q))
      with (firstn (Z.to_nat C) (cq_contents q)).
    + rewrite Hcont, firstn_firstn. f_equal. lia.
    + symmetry. apply (cq_remove_n_contents C); [exact Hwf | lia].
Qed.

Lemma cq_fifo_order_witness :
  let q0 := cq_run (cq_init [0; 0; 0] 3) [Add 9; Add 8; Remove; Remove] in
  q_count q0 = 0 /\
  let q := cq_add_all q0 [65; 66; 67] in
  (Z.of_nat (length [65; 66; 67]) <= 3 ->
   snd (cq_remove_n (length [65; 66; 67]) q) = [65; 66; 67]) /\
  (Z.of_nat (length [65; 66; 67]) = 3 + Z.of_nat 0 ->
   q_count q = 3 /\
   q_toss q = q_toss q0 + Z.of_nat 0 /\
   cq_contents q = firstn (Z.to_nat 3) [65; 66; 67] /\
   snd (cq_remove_n (Z.to_nat 3) q) = firstn (Z.to_nat 3) [65; 66; 67]).
Proof.
  split; [reflexivity |].
  apply (cq_fifo_order 3 [0; 0; 0] [Add 9; Add 8; Remove; Remove]
           [65; 66; 67] 0).
  - unfold INT_MAX. lia.
  - reflexivity.
  - unfold INT_MAX. simpl. lia.
  - repeat constructor; unfold is_byte; lia.
  - reflexivity.
Defined.

(** ** Driver state: what each function leaves alone

    A field of the state after a chain of stores is found by conversion;
    the chains are never normalised as a whole. *)

Ltac branches :=
  repeat match goal with
         | |- context [if ?b then _ else _] => destruct b
         end.

(** C7. [endpoint_send] returns at once, with the state as it found it,
    when the device is not CONFIGURED or the emulated UART is not ENABLED;
    so does [usb_terminal_print], the send on the bulk endpoint.  Nothing
    is transmitted: registers, endpoint flags, buffer table and packet
    memory are those of the state before the call. *)
Theorem endpoint_send_refused (ep : Z) (buf : list Z) (count : Z)
    (s : usb_dev) :
  usb_current_state s <> CONFIGURED \/ uart_current_state s <> ENABLED ->
  endpoint_send ep buf count s = Ok s /\
  usb_terminal_print buf s = Ok s.
Proof.
  intros Hoff. unfold usb_terminal_print, endpoint_send.
  destruct (usb_current_state s), (uart_current_state s);
    cbn [negb usb_state_eqb uart_state_eqb];
    try (split; reflexivity);
    destruct Hoff as [H | H]; exfalso; apply H; reflexivity.
Qed.

Lemma endpoint_send_refused_witness :
  endpoint_send EP1R [104; 105] 2 (usb_init boot) = Ok (usb_init boot) /\
  usb_terminal_print [104; 105] (usb_init boot) = Ok (usb_init boot).
Proof.
  apply (endpoint_send_refused EP1R [104; 105] 2 (usb_init boot)).
  left. vm_compute. discriminate.
Defined.

Section EnumerationState.

Lemma usb_endpoint_send_state (ep : Z) (buf : list Z) (count : Z)
    (s : usb_dev) :
  usb_current_state (usb_endpoint_send ep buf count s)
  = usb_current_state s.
Proof.
  unfold usb_endpoint_send. destruct (count <=? ENDPOINT_LIMIT);
    reflexivity.
Qed.

Lemma reset_state (s : usb_dev) :
  usb_current_state (reset s) = usb_current_state s.
Proof. reflexivity. Qed.

Lemma usb_init_state (s : usb_dev) : usb_current_state (usb_init s) = INIT.
Proof. reflexivity. Qed.

Lemma string_send_state (index : Z) (s s' : usb_dev) (rv : option Z) :
  string_send index s = Ok (s', rv) ->
  usb_current_state s' = usb_current_state s.
Proof.
  unfold string_send, panic. branches;
    intros H; inversion H; subst; apply usb_endpoint_send_state.
Qed.

Lemma get_descriptor_state (sp : setup) (s s' : usb_dev) (rv : option Z) :
  get_descriptor sp s = Ok (s', rv) ->
  usb_current_state s' = usb_current_state s.
Proof.
  unfold get_descriptor.
  repeat match goal with
         | |- context [if ?b =? ?c then _ else _] => destruct (b =? c)
         end;
    try (intros H; inversion H; subst;
         first [ apply usb_endpoint_send_state | reflexivity ]).
  apply string_send_state.
Qed.

End EnumerationState.

(** C5, as the code has it.  The state is BOOT at start-up and INIT after
    [usb_init]; [usb_setup] makes it CONFIGURED when the packet is a
    SET_CONFIGURATION request (tag 0x0009) and otherwise leaves it alone;
    an interrupt that reports a bus reset runs [reset], which leaves the
    state as it is. *)
Theorem enumeration_state (buf : list Z) (count : Z) (s s1 : usb_dev)
    (rv : option Z) (buf2 inbuf : list Z) (s2 : usb_dev) :
  usb_setup buf count s = Ok (s1, rv) ->
  Z.land (ISTR s2) USB_ISTR_RESET <> 0 ->
  Z.land (ISTR s2) USB_ISTR_CTR = 0 ->
  usb_current_state boot = BOOT /\
  usb_current_state (usb_init s) = INIT /\
  usb_current_state s1
  = (if is_set_configuration buf count then CONFIGURED
     else usb_current_state s) /\
  usb_current_state (reset s2) = usb_current_state s2 /\
  exists s3, USB_LP_CAN1_RX0_IRQHandler buf2 inbuf s2 = Ok s3 /\
             usb_current_state s3 = usb_current_state s2.
Proof.
  intros Hsetup Hreset Hctr.
  split; [reflexivity |]. split; [reflexivity |].
  split; [| split; [reflexivity |]].
  - revert Hsetup. unfold usb_setup, is_set_configuration.
    destruct (count =? 0); cbn [negb andb].
    { intros H; inversion H; reflexivity. }
    destruct (rtype (setup_of buf) =? 33); cbn [negb andb].
    { intros H; inversion H; reflexivity. }
    destruct (tag_of (setup_of buf) =? 32774) eqn:E1.
    { apply Z.eqb_eq in E1. rewrite E1. cbn [Z.eqb Pos.eqb].
      intros H. apply get_descriptor_state in H. exact H. }
    destruct (tag_of (setup_of buf) =? 5) eqn:E2.
    { apply Z.eqb_eq in E2. rewrite E2. cbn [Z.eqb Pos.eqb].
      intros H; inversion H; reflexivity. }
    destruct (tag_of (setup_of buf) =? 9).
    { intros H; inversion H; reflexivity. }
    unfold cp21_vendor, cp21_enable, cp21_set_baud, cp21_set_line,
      cp21_set_chars, cp21_get_flow, cp21_get_modem, cp21_set_modem,
      cp21_get_status.
    branches; intros H; inversion H; subst;
      first [ reflexivity | apply usb_endpoint_send_state ].
  - unfold USB_LP_CAN1_RX0_IRQHandler.
    set (sa := if negb (int_first s2 =? 0) then _ else s2).
    assert (Ha : ISTR sa = ISTR s2 /\
                 usb_current_state sa = usb_current_state s2).
    { subst sa. destruct (negb (int_first s2 =? 0));
        [destruct (int_count s2 >? 2000) |]; split; reflexivity. }
    destruct Ha as [Ha1 Ha2]. rewrite Ha1.
    destruct (Z.eqb_spec (Z.land (ISTR s2) USB_ISTR_RESET) 0) as [H0 | _];
      [contradiction |].
    cbn [negb].
    change (ISTR (set_ISTR (Z.land (ISTR (reset sa)) (Z.lnot USB_ISTR_RESET))
                    (reset sa)))
      with (Z.land (ISTR sa) (Z.lnot USB_ISTR_RESET)).
    assert (Hz : Z.land (Z.land (ISTR s2) (Z.lnot USB_ISTR_RESET))
                   USB_ISTR_CTR = 0).
    { rewrite <- Z.land_assoc, (Z.land_comm (Z.lnot _)), Z.land_assoc, Hctr.
      reflexivity. }
    rewrite Ha1, Hz. cbn [Z.eqb negb].
    eexists. split; [reflexivity |]. exact Ha2.
Qed.

Lemma enumeration_state_witness :
  usb_current_state boot = BOOT /\
  usb_current_state (usb_init (usb_init boot)) = INIT /\
  usb_current_state
    (set_usb_current_state CONFIGURED
       (usb_endpoint_send_zlp 0 (set_cp21_control NONE (usb_init boot))))
  = (if is_set_configuration (SET_CONFIGURATION 1) 8 then CONFIGURED
     else usb_current_state (usb_init boot)) /\
  usb_current_state (reset (hw_bus_reset (usb_init boot)))
  = usb_current_state (hw_bus_reset (usb_init boot)) /\
  exists s3,
    USB_LP_CAN1_RX0_IRQHandler (replicate 10 0) (replicate 64 0)
      (hw_bus_reset (usb_init boot)) = Ok s3 /\
    usb_current_state s3 = usb_current_state (hw_bus_reset (usb_init boot)).
Proof.
  apply (enumeration_state (SET_CONFIGURATION 1) 8 (usb_init boot)
           (set_usb_current_state CONFIGURED
              (usb_endpoint_send_zlp 0
                 (set_cp21_control NONE (usb_init boot))))
           (Some 1) (replicate 10 0) (replicate 64 0)
           (hw_bus_reset (usb_init boot))).
  - reflexivity.
  - vm_compute. discriminate.
  - reflexivity.
Defined.

(** C5, the claim's last clause fails: the device is configured, the bus
    is reset, and the state is still CONFIGURED, not INIT. *)
Lemma reset_leaves_configured :
  result_map usb_current_state
    (play [HostSetup (SET_CONFIGURATION 1); TxDone 0; BusReset]
       (usb_init boot)) = Ok CONFIGURED /\
  result_map usb_current_state
    (play [HostSetup (SET_CONFIGURATION 1); TxDone 0; BusReset]
       (usb_init boot)) <> Ok INIT.
Proof.
  split; [vm_compute; reflexivity | vm_compute; discriminate].
Qed.

(** ** Flags of the endpoint register *)

Lemma land_bit (x n : Z) :
  0 <= n -> Z.land x (2 ^ n) = if Z.testbit x n then 2 ^ n else 0.
Proof.
  intros Hn. apply Z.bits_inj'. intros m Hm.
  rewrite Z.land_spec, Z.pow2_bits_eqb by lia.
  destruct (Z.eqb_spec n m) as [-> | Hne].
  - destruct (Z.testbit x m); cbn.
    + rewrite Z.pow2_bits_true by lia. reflexivity.
    + rewrite Z.bits_0. reflexivity.
  - rewrite andb_false_r. destruct (Z.testbit x n).
    + rewrite Z.pow2_bits_false by lia. reflexivity.
    + rewrite Z.bits_0. reflexivity.
Qed.

Lemma flag_clear_iff (x n : Z) :
  0 <= n -> Z.land x (2 ^ n) = 0 <-> Z.testbit x n = false.
Proof.
  intros Hn. rewrite land_bit by exact Hn.
  assert (0 < 2 ^ n) by (apply Z.pow_pos_nonneg; lia).
  destruct (Z.testbit x n); split; intros; try reflexivity; try lia;
    discriminate.
Qed.

Lemma flag_set_iff (x n : Z) :
  0 <= n -> Z.land x (2 ^ n) <> 0 <-> Z.testbit x n = true.
Proof.
  intros Hn. rewrite flag_clear_iff by exact Hn.
  destruct (Z.testbit x n); split; intros; congruence.
Qed.

(** A store cannot raise a correct-transfer flag. *)
Lemma epr_write_ctr_tx (cur w : Z) :
  Z.testbit (epr_write cur w) 7 = Z.testbit cur 7 && Z.testbit w 7.
Proof.
  unfold epr_write.
  repeat first [ rewrite Z.lor_spec | rewrite Z.land_spec
               | rewrite Z.lxor_spec ].
  generalize (Z.testbit cur 7) (Z.testbit w 7). intros b c.
  vm_compute. destruct b, c; reflexivity.
Qed.

Lemma epr_write_ctr_rx (cur w : Z) :
  Z.testbit (epr_write cur w) 15 = Z.testbit cur 15 && Z.testbit w 15.
Proof.
  unfold epr_write.
  repeat first [ rewrite Z.lor_spec | rewrite Z.land_spec
               | rewrite Z.lxor_spec ].
  generalize (Z.testbit cur 15) (Z.testbit w 15). intros b c.
  vm_compute. destruct b, c; reflexivity.
Qed.

Lemma clear_tx_val_bit7 (v : Z) : Z.testbit (clear_tx_val v) 7 = false.
Proof.
  unfold clear_tx_val.
  repeat first [ rewrite Z.lor_spec | rewrite Z.land_spec
               | rewrite Z.lnot_spec by lia ].
  generalize (Z.testbit v 7). intros b. vm_compute. destruct b; reflexivity.
Qed.

Lemma clear_tx_val_bit15 (v : Z) : Z.testbit (clear_tx_val v) 15 = true.
Proof.
  unfold clear_tx_val.
  repeat first [ rewrite Z.lor_spec | rewrite Z.land_spec
               | rewrite Z.lnot_spec by lia ].
  generalize (Z.testbit v 15). intros b. vm_compute. destruct b; reflexivity.
Qed.

(** What a load sees after a store to some endpoint register. *)
Lemma rd_wr (l : list Z) (i j v : Z) :
  rd (wr l i v) j
  = if (i =? j) && (0 <=? i) && (i <? Z.of_nat (length l)) then v
    else rd l j.
Proof.
  destruct (Z.eqb_spec i j) as [-> | Hne]; cbn [andb].
  - destruct (Z.leb_spec 0 j) as [H0 | H0]; cbn [andb].
    + destruct (Z.ltb_spec j (Z.of_nat (length l))) as [Hl | Hl].
      * apply rd_wr_same. lia.
      * unfold rd, wr. destruct (Z.ltb_spec j 0); [reflexivity |].
        rewrite list_insert_ge by lia. reflexivity.
    + unfold rd, wr. destruct (Z.ltb_spec j 0); [reflexivity | lia].
  - apply rd_wr_other. exact Hne.
Qed.

Lemma epr_load_epr_store (ep ep' w : Z) (s : usb_dev) :
  epr_load ep (epr_store ep' w s)
  = if (ep' =? ep) && (0 <=? ep') && (ep' <? Z.of_nat (length (EPR s)))
    then epr_write (epr_load ep' s) w else epr_load ep s.
Proof. unfold epr_load, epr_store. cbn [EPR set_EPR]. apply rd_wr. Qed.

Lemma epr_store_keeps_ctr_tx_clear (ep ep' w : Z) (s : usb_dev) :
  ctr_tx_clear ep s -> ctr_tx_clear ep (epr_store ep' w s).
Proof.
  unfold ctr_tx_clear, USB_EP0R_CTR_TX. change 128 with (2 ^ 7).
  rewrite !flag_clear_iff by lia. intros Hclr.
  rewrite epr_load_epr_store.
  destruct (Z.eqb_spec ep' ep) as [-> | _]; cbn [andb]; [| exact Hclr].
  destruct ((0 <=? ep) && (ep <? Z.of_nat (length (EPR s)))); [| exact Hclr].
  rewrite epr_write_ctr_tx, Hclr. reflexivity.
Qed.

Section TransmitFlag.

Variable ep : Z.

Lemma send_zlp_keeps_ctr_tx_clear (ep' : Z) (s : usb_dev) :
  ctr_tx_clear ep s -> ctr_tx_clear ep (usb_endpoint_send_zlp ep' s).
Proof.
  intros H. unfold usb_endpoint_send_zlp, endpoint_set_tx_valid.
  cbv zeta. apply epr_store_keeps_ctr_tx_clear. exact H.
Qed.

Lemma send_keeps_ctr_tx_clear (ep' : Z) (buf : list Z) (count : Z)
    (s : usb_dev) :
  ctr_tx_clear ep s -> ctr_tx_clear ep (usb_endpoint_send ep' buf count s).
Proof.
  intros H. unfold usb_endpoint_send, endpoint_set_tx_valid.
  destruct (count <=? ENDPOINT_LIMIT); cbv zeta;
    apply epr_store_keeps_ctr_tx_clear; exact H.
Qed.

Lemma recv_ready_keeps_ctr_tx_clear (ep' : Z) (s : usb_dev) :
  ctr_tx_clear ep s -> ctr_tx_clear ep (endpoint_recv_ready ep' s).
Proof.
  intros H. unfold endpoint_recv_ready, endpoint_set_rx_ready.
  cbv zeta. apply epr_store_keeps_ctr_tx_clear. exact H.
Qed.

Lemma string_send_keeps_ctr_tx_clear (index : Z) (s s' : usb_dev)
    (rv : option Z) :
  string_send index s = Ok (s', rv) ->
  ctr_tx_clear ep s -> ctr_tx_clear ep s'.
Proof.
  unfold string_send, panic. branches; intros H Hc; inversion H; subst;
    apply send_keeps_ctr_tx_clear; exact Hc.
Qed.

Lemma get_descriptor_keeps_ctr_tx_clear (sp : setup) (s s' : usb_dev)
    (rv : option Z) :
  get_descriptor sp s = Ok (s', rv) ->
  ctr_tx_clear ep s -> ctr_tx_clear ep s'.
Proof.
  unfold get_descriptor.
  repeat match goal with
         | |- context [if ?b =? ?c then _ else _] => destruct (b =? c)
         end;
    try (intros H Hc; inversion H; subst;
         first [ apply send_keeps_ctr_tx_clear; exact Hc
               | apply send_zlp_keeps_ctr_tx_clear; exact Hc
               | exact Hc ]).
  apply string_send_keeps_ctr_tx_clear.
Qed.

Lemma usb_setup_keeps_ctr_tx_clear (buf : list Z) (count : Z)
    (s s' : usb_dev) (rv : option Z) :
  usb_setup buf count s = Ok (s', rv) ->
  ctr_tx_clear ep s -> ctr_tx_clear ep s'.
Proof.
  unfold usb_setup.
  destruct (count =? 0); [intros H Hc; inversion H; subst; exact Hc |].
  destruct (rtype (setup_of buf) =? 33).
  { intros H Hc; inversion H; subst.
    apply send_zlp_keeps_ctr_tx_clear; exact Hc. }
  destruct (tag_of (setup_of buf) =? 32774).
  { intros H Hc.
    apply (get_descriptor_keeps_ctr_tx_clear _ _ _ _ H). exact Hc. }
  unfold enum_set_address, set_configuration, cp21_vendor, cp21_enable,
    cp21_set_baud, cp21_set_line, cp21_set_chars, cp21_get_flow,
    cp21_get_modem, cp21_set_modem, cp21_get_status.
  branches; intros H Hc; inversion H; subst;
    first [ exact Hc
          | apply send_keeps_ctr_tx_clear; exact Hc
          | apply send_zlp_keeps_ctr_tx_clear; exact Hc
          | apply (send_zlp_keeps_ctr_tx_clear 0
                     (usb_pend_address _ _)); exact Hc
          | idtac ].
  all: cbv zeta.
  all: try (change (ctr_tx_clear ep
                      (usb_endpoint_send_zlp 0
                         (set_cp21_control NONE s)));
            apply send_zlp_keeps_ctr_tx_clear; exact Hc).
Qed.

Lemma usb_control_keeps_ctr_tx_clear (buf : list Z) (count : Z)
    (s s' : usb_dev) (rv : option Z) :
  usb_control buf count s = Ok (s', rv) ->
  ctr_tx_clear ep s -> ctr_tx_clear ep s'.
Proof.
  unfold usb_control. destruct (cp21_control s).
  - intros H Hc; inversion H; subst.
    apply send_zlp_keeps_ctr_tx_clear; exact Hc.
  - destruct (memcpy (cp21_baud s) buf count); cbn [bind]; try discriminate.
    intros H Hc; inversion H; subst. exact Hc.
  - destruct (memcpy (cp21_chars s) buf count); cbn [bind];
      try discriminate.
    intros H Hc; inversion H; subst. exact Hc.
Qed.

End TransmitFlag.

(** ** Endpoint 0 *)

Lemma length_EPR_epr_store (ep w : Z) (s : usb_dev) :
  length (EPR (epr_store ep w s)) = length (EPR s).
Proof. unfold epr_store. cbn [EPR set_EPR]. apply length_wr. Qed.

Lemma length_EPR_ctr0_armed (s : usb_dev) :
  length (EPR (ctr0_armed s)) = length (EPR s).
Proof.
  unfold ctr0_armed, endpoint_recv_ready, endpoint_set_rx_ready,
    endpoint_clear_tx. cbv zeta.
  rewrite length_EPR_epr_store.
  change (EPR (set_bte_rx_count EP0R ?v ?x)) with (EPR x).
  apply length_EPR_epr_store.
Qed.

Lemma length_PMA_ctr0_armed (s : usb_dev) :
  length (PMA (ctr0_armed s)) = length (PMA s).
Proof.
  unfold ctr0_armed, endpoint_recv_ready. cbv zeta.
  change (length (wr (PMA s) (4 * EP0R + 3)
                    (uint16 (Z.land (bte_rx_count EP0R
                                       (endpoint_clear_tx EP0R s))
                                    (Z.lnot 1023)))) = length (PMA s)).
  apply length_wr.
Qed.

Lemma endpoint_clear_tx_clears (ep : Z) (s : usb_dev) :
  ctr_tx_clear ep (endpoint_clear_tx ep s).
Proof.
  unfold ctr_tx_clear, endpoint_clear_tx, USB_EP0R_CTR_TX.
  change 128 with (2 ^ 7). rewrite flag_clear_iff by lia.
  rewrite epr_load_epr_store, Z.eqb_refl. cbn [andb].
  destruct ((0 <=? ep) && (ep <? Z.of_nat (length (EPR s)))) eqn:E.
  - rewrite epr_write_ctr_tx, clear_tx_val_bit7. apply andb_false_r.
  - unfold epr_load, rd.
    destruct (Z.ltb_spec ep 0) as [_ | Hge]; [reflexivity |].
    rewrite lookup_ge_None_2; [reflexivity |].
    apply andb_false_iff in E. destruct E as [E | E].
    + apply Z.leb_gt in E. lia.
    + apply Z.ltb_ge in E. lia.
Qed.

Lemma ctr0_armed_ctr_tx_clear (s : usb_dev) : ctr_tx_clear EP0R (ctr0_armed s).
Proof.
  unfold ctr0_armed. apply recv_ready_keeps_ctr_tx_clear.
  apply endpoint_clear_tx_clears.
Qed.

(** With [CTR_RX] up and a packet that is neither too long nor one byte
    long, [ctr0] copies the packet out, arms the endpoint and dispatches;
    the transmit part does not run in the same call, because the receive
    part has cleared [CTR_TX] and no store can set it. *)
Lemma ctr0_receive (buf : list Z) (s : usb_dev) :
  ctr_rx_set EP0R s ->
  ctr0_count s <= SETUP_BUF -> ctr0_count s <> 1 ->
  ctr0 buf s
  = run r <- (if negb (Z.land (epr_load EP0R s) USB_EP0R_SETUP =? 0)
              then usb_setup (ctr0_packet buf s) (ctr0_count s) (ctr0_armed s)
              else usb_control (ctr0_packet buf s) (ctr0_count s)
                     (ctr0_armed s))
    in Ok (fst r).
Proof.
  intros Hrx Hle Hne1. unfold ctr0.
  destruct (Z.eqb_spec (Z.land (epr_load EP0R s) USB_EP0R_CTR_RX) 0)
    as [H0 | _]; [contradiction |].
  cbn [negb]. unfold ctr0_rx. fold (ctr0_count s).
  rewrite Z.gtb_ltb.
  destruct (Z.ltb_spec SETUP_BUF (ctr0_count s)) as [Hgt | _]; [lia |].
  change (usb_endpoint_recv EP0R buf (endpoint_clear_tx EP0R s))
    with (ctr0_packet buf s, ctr0_count s).
  cbv beta iota zeta. fold (ctr0_armed s).
  destruct (Z.eqb_spec (ctr0_count s) 1) as [H1 | _]; [contradiction |].
  pose proof (ctr0_armed_ctr_tx_clear s) as Harmed.
  destruct (negb (Z.land (epr_load EP0R s) USB_EP0R_SETUP =? 0)).
  - destruct (usb_setup (ctr0_packet buf s) (ctr0_count s) (ctr0_armed s))
      as [[s' rv] | msg | |] eqn:E; cbn [bind fst]; try reflexivity.
    pose proof (usb_setup_keeps_ctr_tx_clear EP0R _ _ _ _ _ E Harmed) as Hc.
    unfold ctr_tx_clear in Hc. rewrite Hc. reflexivity.
  - destruct (usb_control (ctr0_packet buf s) (ctr0_count s) (ctr0_armed s))
      as [[s' rv] | msg | |] eqn:E; cbn [bind fst]; try reflexivity.
    pose proof (usb_control_keeps_ctr_tx_clear EP0R _ _ _ _ _ E Harmed) as Hc.
    unfold ctr_tx_clear in Hc. rewrite Hc. reflexivity.
Qed.

(** With [CTR_RX] down and [CTR_TX] up, [ctr0] runs its transmit part. *)
Lemma ctr0_transmit (buf : list Z) (s : usb_dev) :
  ctr_rx_clear EP0R s -> ctr_tx_set EP0R s -> ctr0 buf s = Ok (ctr0_tx s).
Proof.
  unfold ctr_rx_clear, ctr_tx_set. intros Hrx Htx. unfold ctr0.
  rewrite Hrx. cbn [Z.eqb negb bind].
  destruct (Z.eqb_spec (Z.land (epr_load EP0R s) USB_EP0R_CTR_TX) 0)
    as [H0 | _]; [contradiction | reflexivity].
Qed.

Lemma bte_tx_count_send_zlp (ep : Z) (s : usb_dev) :
  0 <= 4 * ep + 1 < Z.of_nat (length (PMA s)) ->
  bte_tx_count ep (usb_endpoint_send_zlp ep s) = 0.
Proof.
  intros Hin.
  change (rd (wr (PMA s) (4 * ep + 1) (uint16 0)) (4 * ep + 1) = 0).
  rewrite rd_wr_same by exact Hin. reflexivity.
Qed.

Lemma usb_setup_set_address (buf : list Z) (count : Z) (s : usb_dev) :
  count <> 0 ->
  rtype (setup_of buf) = 0 -> request (setup_of buf) = 5 ->
  usb_setup buf count s
  = Ok (enum_set_address (setup_of buf) (set_cp21_control NONE s)).
Proof.
  intros Hc Hrt Hrq. unfold usb_setup, tag_of.
  destruct (Z.eqb_spec count 0) as [H0 | _]; [contradiction |].
  rewrite Hrt, Hrq. reflexivity.
Qed.

(** ** The address register and the pending address *)

Section AddressRegister.

Lemma usb_setup_keeps_address (buf : list Z) (count : Z) (s s' : usb_dev)
    (rv : option Z) :
  usb_setup buf count s = Ok (s', rv) ->
  DADDR s' = DADDR s /\
  (tag_of (setup_of buf) <> 0x0005 -> pending_address s' = pending_address s).
Proof.
  unfold usb_setup.
  destruct (count =? 0); [intros H; inversion H; split; reflexivity |].
  destruct (rtype (setup_of buf) =? 33).
  { intros H; inversion H; split; reflexivity. }
  destruct (Z.eqb_spec (tag_of (setup_of buf)) 32774) as [E | _].
  { unfold get_descriptor, string_send, panic.
    branches; intros H; inversion H; subst; unfold usb_endpoint_send;
      branches; split; reflexivity. }
  destruct (Z.eqb_spec (tag_of (setup_of buf)) 5) as [E | _].
  { intros H; inversion H. split; [reflexivity | intros N; contradiction]. }
  unfold set_configuration, cp21_vendor, cp21_enable,
    cp21_set_baud, cp21_set_line, cp21_set_chars, cp21_get_flow,
    cp21_get_modem, cp21_set_modem, cp21_get_status.
  branches; intros H; inversion H; subst; unfold usb_endpoint_send;
    branches; split; reflexivity.
Qed.

Lemma usb_control_keeps_address (buf : list Z) (count : Z) (s s' : usb_dev)
    (rv : option Z) :
  usb_control buf count s = Ok (s', rv) ->
  DADDR s' = DADDR s /\ pending_address s' = pending_address s.
Proof.
  unfold usb_control. destruct (cp21_control s).
  - intros H; inversion H; split; reflexivity.
  - destruct (memcpy (cp21_baud s) buf count); cbn [bind]; try discriminate.
    intros H; inversion H; split; reflexivity.
  - destruct (memcpy (cp21_chars s) buf count); cbn [bind];
      try discriminate.
    intros H; inversion H; split; reflexivity.
Qed.

(** The handler of the other endpoints never touches the address. *)
Lemma data_ctr_keeps_address (ep : Z) (inbuf : list Z) (s s' : usb_dev) :
  data_ctr ep inbuf s = Ok s' ->
  DADDR s' = DADDR s /\ pending_address s' = pending_address s.
Proof.
  unfold data_ctr. cbv zeta.
  branches; intros H; inversion H; split; reflexivity.
Qed.

(** With neither flag up [ctr0] does nothing. *)
Lemma ctr0_idle (buf : list Z) (s : usb_dev) :
  ctr_rx_clear EP0R s -> ctr_tx_clear EP0R s -> ctr0 buf s = Ok s.
Proof.
  unfold ctr_rx_clear, ctr_tx_clear. intros Hrx Htx. unfold ctr0.
  rewrite Hrx. cbn [Z.eqb negb bind]. rewrite Htx. reflexivity.
Qed.

(** The receive part of [ctr0], whatever the packet. *)
Lemma ctr0_receive_any (buf : list Z) (s : usb_dev) :
  ctr_rx_set EP0R s ->
  ctr0 buf s
  = if ctr0_count s >? SETUP_BUF then Panic "ctr0 setup count"
    else if ctr0_count s =? 1 then Ok (ctr0_armed s)
    else
      run r <- (if negb (Z.land (epr_load EP0R s) USB_EP0R_SETUP =? 0)
                then usb_setup (ctr0_packet buf s) (ctr0_count s)
                       (ctr0_armed s)
                else usb_control (ctr0_packet buf s) (ctr0_count s)
                       (ctr0_armed s))
      in Ok (fst r).
Proof.
  intros Hrx. rewrite Z.gtb_ltb.
  destruct (Z.ltb_spec SETUP_BUF (ctr0_count s)) as [Hgt | Hle].
  - unfold ctr0.
    destruct (Z.eqb_spec (Z.land (epr_load EP0R s) USB_EP0R_CTR_RX) 0)
      as [H0 | _]; [contradiction |].
    cbn [negb]. unfold ctr0_rx. fold (ctr0_count s).
    rewrite Z.gtb_ltb.
    destruct (Z.ltb_spec SETUP_BUF (ctr0_count s)) as [_ | ?]; [| lia].
    reflexivity.
  - destruct (Z.eqb_spec (ctr0_count s) 1) as [H1 | Hne1].
    + unfold ctr0.
      destruct (Z.eqb_spec (Z.land (epr_load EP0R s) USB_EP0R_CTR_RX) 0)
        as [H0 | _]; [contradiction |].
      cbn [negb]. unfold ctr0_rx. fold (ctr0_count s).
      rewrite Z.gtb_ltb.
      destruct (Z.ltb_spec SETUP_BUF (ctr0_count s)) as [? | _]; [lia |].
      change (usb_endpoint_recv EP0R buf (endpoint_clear_tx EP0R s))
        with (ctr0_packet buf s, ctr0_count s).
      cbv beta iota zeta. fold (ctr0_armed s).
      rewrite H1. reflexivity.
    + apply ctr0_receive; assumption.
Qed.

Lemma ctr0_receive_keeps_address (buf : list Z) (s s' : usb_dev) :
  ctr_rx_set EP0R s -> ctr0 buf s = Ok s' ->
  DADDR s' = DADDR s /\
  ((setup_set s -> tag_of (setup_of (ctr0_packet buf s)) <> 0x0005) ->
   pending_address s' = pending_address s).
Proof.
  intros Hrx. rewrite ctr0_receive_any by exact Hrx.
  destruct (ctr0_count s >? SETUP_BUF); [discriminate |].
  destruct (ctr0_count s =? 1).
  { intros H; inversion H; split; reflexivity. }
  unfold setup_set.
  destruct (Z.eqb_spec (Z.land (epr_load EP0R s) USB_EP0R_SETUP) 0)
    as [H0 | Hset]; cbn [negb].
  - destruct (usb_control (ctr0_packet buf s) (ctr0_count s) (ctr0_armed s))
      as [[s'' rv] | msg | |] eqn:E; cbn [bind fst]; try discriminate.
    intros H; inversion H; subst s''.
    destruct (usb_control_keeps_address _ _ _ _ _ E) as [Hd Hp].
    split; [exact Hd | intros _; exact Hp].
  - destruct (usb_setup (ctr0_packet buf s) (ctr0_count s) (ctr0_armed s))
      as [[s'' rv] | msg | |] eqn:E; cbn [bind fst]; try discriminate.
    intros H; inversion H; subst s''.
    destruct (usb_setup_keeps_address _ _ _ _ _ E) as [Hd Hp].
    split; [exact Hd |]. intros Htag. apply Hp. apply Htag. exact Hset.
Qed.

(** The transmit part of [ctr0]: the one place that writes a pending
    address to the register. *)
Lemma ctr0_tx_address (s : usb_dev) :
  pending_address (ctr0_tx s) = 0 /\
  DADDR (ctr0_tx s)
  = if pending_address s =? 0 then DADDR s
    else Z.lor USB_DADDR_EF (Z.land (pending_address s) 0x7f).
Proof.
  unfold ctr0_tx. cbv zeta.
  change (pending_address (endpoint_clear_tx EP0R s))
    with (pending_address s).
  destruct (Z.eqb_spec (pending_address s) 0) as [H0 | _]; cbn [negb].
  - branches; split; first [exact H0 | reflexivity].
  - split; reflexivity.
Qed.

Lemma awaits_status_keeps_address (st : usb_step) (s s' : usb_dev) :
  awaits_status st s -> usb_step_run st s = Ok s' ->
  DADDR s' = DADDR s /\ pending_address s' = pending_address s.
Proof.
  destruct st as [hw | buf | ep inbuf]; cbn [awaits_status usb_step_run].
  - intros _. destruct (hw s) as [[epr istr] pma].
    intros H; inversion H; split; reflexivity.
  - intros [Hflags Htag] H.
    destruct (Z.eq_dec (Z.land (epr_load EP0R s) USB_EP0R_CTR_RX) 0)
      as [Hclr | Hset].
    + destruct Hflags as [Hrx | Htx]; [contradiction |].
      rewrite ctr0_idle in H by assumption.
      inversion H; split; reflexivity.
    + destruct (ctr0_receive_keeps_address buf s s' Hset H) as [Hd Hp].
      split; [exact Hd |]. apply Hp. apply Htag. exact Hset.
  - intros _. apply data_ctr_keeps_address.
Qed.

Lemma awaiting_status_keeps_address (sts : list usb_step) (s s2 : usb_dev) :
  awaiting_status sts s -> usb_steps sts s = Ok s2 ->
  DADDR s2 = DADDR s /\ pending_address s2 = pending_address s.
Proof.
  revert s. induction sts as [| st sts IH]; intros s.
  - intros _ H. inversion H. split; reflexivity.
  - cbn [awaiting_status usb_steps]. intros [Hst Hrest].
    destruct (usb_step_run st s) as [s' | msg | |] eqn:E; cbn [bind];
      try discriminate.
    intros H.
    destruct (awaits_status_keeps_address st s s' Hst E) as [Hd Hp].
    destruct (IH s' Hrest H) as [Hd2 Hp2].
    split; congruence.
Qed.

End AddressRegister.

(** C3, as the code has it.  [ctr0] handles a SET_ADDRESS request with
    value [a] by answering with a zero-length packet (transmit count 0,
    transmit status VALID) and recording [a] as pending; the address
    register is left alone.  Whatever then runs before the
    transmit-complete interrupt of endpoint 0 -- the peripheral rewriting
    its registers and the packet memory, [data_ctr] for any endpoint,
    [ctr0] for anything but a transmit-complete or another SET_ADDRESS --
    leaves the address register and the pending value as they are.  The
    call of [ctr0] for that transmit-complete clears the pending value; it
    writes the enable bit and the low seven bits of [a] to the address
    register when [a] is not zero, and leaves the register as it was when
    [a] is zero. *)
Theorem set_address_deferred (buf buf' : list Z) (s : usb_dev) (a : Z)
    (sts : list usb_step) (s2 : usb_dev) :
  length (EPR s) = 8%nat -> length (PMA s) = 256%nat ->
  ctr_rx_set EP0R s -> setup_set s ->
  ctr0_count s <= SETUP_BUF -> ctr0_count s <> 0 -> ctr0_count s <> 1 ->
  rtype (setup_of (ctr0_packet buf s)) = 0 ->
  request (setup_of (ctr0_packet buf s)) = 5 ->
  value (setup_of (ctr0_packet buf s)) = a ->
  let s1 := usb_endpoint_send_zlp 0
              (usb_pend_address a (set_cp21_control NONE (ctr0_armed s))) in
  (ctr0 buf s = Ok s1 /\
   DADDR s1 = DADDR s /\
   pending_address s1 = a /\
   bte_tx_count EP0R s1 = 0 /\
   stat_tx (epr_load EP0R s1) = STAT_VALID /\
   ctr_tx_clear EP0R s1) /\
  (awaiting_status sts s1 -> usb_steps sts s1 = Ok s2 ->
   DADDR s2 = DADDR s /\
   pending_address s2 = a /\
   (ctr_rx_clear EP0R s2 -> ctr_tx_set EP0R s2 ->
    exists s3,
      ctr0 buf' s2 = Ok s3 /\
      pending_address s3 = 0 /\
      DADDR s3 = if a =? 0 then DADDR s
                 else Z.lor USB_DADDR_EF (Z.land a 0x7f))).
Proof.
  intros Hregs Hpma Hrx Hsetup Hle Hne0 Hne1 Hrt Hrq Hval s1.
  split.
  - rewrite ctr0_receive by assumption.
    unfold setup_set in Hsetup.
    destruct (Z.eqb_spec (Z.land (epr_load EP0R s) USB_EP0R_SETUP) 0)
      as [H0 | _]; [contradiction |].
    cbn [negb]. rewrite usb_setup_set_address by assumption.
    cbn [bind]. unfold enum_set_address. rewrite Hval. cbn [fst].
    split; [reflexivity |].
    split; [reflexivity |]. split; [reflexivity |].
    split; [| split].
    + apply bte_tx_count_send_zlp.
      change (PMA (usb_pend_address a (set_cp21_control NONE (ctr0_armed s))))
        with (PMA (ctr0_armed s)).
      rewrite length_PMA_ctr0_armed, Hpma. unfold EP0R. lia.
    + unfold s1, usb_endpoint_send_zlp. cbv zeta.
      apply endpoint_set_tx_valid_status.
      * change (length (EPR (ctr0_armed s)) = 8%nat).
        rewrite length_EPR_ctr0_armed. exact Hregs.
      * unfold EP0R, EP_COUNT. lia.
    + apply send_zlp_keeps_ctr_tx_clear.
      exact (ctr0_armed_ctr_tx_clear s).
  - intros Hwait Hrun.
    destruct (awaiting_status_keeps_address sts s1 s2 Hwait Hrun)
      as [Hd Hp].
    change (DADDR s1) with (DADDR s) in Hd.
    change (pending_address s1) with a in Hp.
    split; [exact Hd |]. split; [exact Hp |].
    intros Hrx2 Htx2. rewrite ctr0_transmit by assumption.
    destruct (ctr0_tx_address s2) as [Hp3 Hd3].
    rewrite Hp, Hd in Hd3.
    eexists. split; [reflexivity |]. split; [exact Hp3 | exact Hd3].
Qed.

(** Two runs.  First SET_ADDRESS(5) on the initialised device, then a bulk
    packet on endpoint 1 and its interrupt, then the transmit-complete of
    the status stage: the register holds 0 until the last step and
    [EF | 5] after it.  Second SET_ADDRESS(0) on the device that has taken
    address 5: the transmit-complete leaves [EF | 5] in the register. *)
Lemma set_address_deferred_witness :
  (let s := hw_event (HostSetup (SET_ADDRESS 5)) (usb_init boot) in
   let s1 := usb_endpoint_send_zlp 0
               (usb_pend_address 5 (set_cp21_control NONE (ctr0_armed s))) in
   let sts := [Peripheral (raised (HostOut 1 [104; 105]));
               DataCtr 1 (replicate 64 0);
               Peripheral (raised (TxDone 0))] in
   exists s2,
     awaiting_status sts s1 /\ usb_steps sts s1 = Ok s2 /\
     ctr_rx_clear EP0R s2 /\ ctr_tx_set EP0R s2 /\
     (ctr0 (replicate 10 0) s = Ok s1 /\
      DADDR s1 = DADDR s /\
      pending_address s1 = 5 /\
      bte_tx_count EP0R s1 = 0 /\
      stat_tx (epr_load EP0R s1) = STAT_VALID /\
      ctr_tx_clear EP0R s1) /\
     DADDR s2 = DADDR s /\
     pending_address s2 = 5 /\
     exists s3,
       ctr0 (replicate 10 0) s2 = Ok s3 /\
       pending_address s3 = 0 /\
       DADDR s3 = if 5 =? 0 then DADDR s
                  else Z.lor USB_DADDR_EF (Z.land 5 0x7f)) /\
  (let addressed :=
     match play [HostSetup (SET_ADDRESS 5); TxDone 0] (usb_init boot) with
     | Ok t => t
     | _ => boot
     end in
   let s := hw_event (HostSetup (SET_ADDRESS 0)) addressed in
   let s1 := usb_endpoint_send_zlp 0
               (usb_pend_address 0 (set_cp21_control NONE (ctr0_armed s))) in
   let sts := [Peripheral (raised (TxDone 0))] in
   exists s2,
     awaiting_status sts s1 /\ usb_steps sts s1 = Ok s2 /\
     ctr_rx_clear EP0R s2 /\ ctr_tx_set EP0R s2 /\
     DADDR s = Z.lor USB_DADDR_EF 5 /\
     (ctr0 (replicate 10 0) s = Ok s1 /\
      DADDR s1 = DADDR s /\
      pending_address s1 = 0 /\
      bte_tx_count EP0R s1 = 0 /\
      stat_tx (epr_load EP0R s1) = STAT_VALID /\
      ctr_tx_clear EP0R s1) /\
     DADDR s2 = DADDR s /\
     pending_address s2 = 0 /\
     exists s3,
       ctr0 (replicate 10 0) s2 = Ok s3 /\
       pending_address s3 = 0 /\
       DADDR s3 = if 0 =? 0 then DADDR s
                  else Z.lor USB_DADDR_EF (Z.land 0 0x7f)).
Proof.
  split.
  - intros s s1 sts.
    set (s2 := match usb_steps sts s1 with Ok t => t | _ => s1 end).
    assert (Hwait : awaiting_status sts s1).
    { vm_compute. repeat split. }
    assert (Hrun : usb_steps sts s1 = Ok s2).
    { vm_compute. reflexivity. }
    assert (Hrx2 : ctr_rx_clear EP0R s2).
    { vm_compute. reflexivity. }
    assert (Htx2 : ctr_tx_set EP0R s2).
    { vm_compute. discriminate. }
    destruct (set_address_deferred (replicate 10 0) (replicate 10 0) s 5
                sts s2) as [Hfirst Hthen].
    + reflexivity.
    + reflexivity.
    + vm_compute. discriminate.
    + vm_compute. discriminate.
    + vm_compute. discriminate.
    + vm_compute. discriminate.
    + vm_compute. discriminate.
    + reflexivity.
    + reflexivity.
    + reflexivity.
    + destruct (Hthen Hwait Hrun) as (Hd & Hp & Hlast).
      exists s2.
      split; [exact Hwait |]. split; [exact Hrun |].
      split; [exact Hrx2 |]. split; [exact Htx2 |].
      split; [exact Hfirst |]. split; [exact Hd |]. split; [exact Hp |].
      exact (Hlast Hrx2 Htx2).
  - intros addressed s s1 sts.
    set (s2 := match usb_steps sts s1 with Ok t => t | _ => s1 end).
    assert (Hwait : awaiting_status sts s1).
    { vm_compute. repeat split. }
    assert (Hrun : usb_steps sts s1 = Ok s2).
    { vm_compute. reflexivity. }
    assert (Hrx2 : ctr_rx_clear EP0R s2).
    { vm_compute. reflexivity. }
    assert (Htx2 : ctr_tx_set EP0R s2).
    { vm_compute. discriminate. }
    destruct (set_address_deferred (replicate 10 0) (replicate 10 0) s 0
                sts s2) as [Hfirst Hthen].
    + reflexivity.
    + reflexivity.
    + vm_compute. discriminate.
    + vm_compute. discriminate.
    + vm_compute. discriminate.
    + vm_compute. discriminate.
    + vm_compute. discriminate.
    + reflexivity.
    + reflexivity.
    + reflexivity.
    + destruct (Hthen Hwait Hrun) as (Hd & Hp & Hlast).
      exists s2.
      split; [exact Hwait |]. split; [exact Hrun |].
      split; [exact Hrx2 |]. split; [exact Htx2 |].
      split; [vm_compute; reflexivity |].
      split; [exact Hfirst |]. split; [exact Hd |]. split; [exact Hp |].
      exact (Hlast Hrx2 Htx2).
Defined.

(** C3, the claim fails for the value zero.  The device has taken address
    5; the host sends SET_ADDRESS(0); nothing is pending afterwards, and
    the transmit-complete interrupt of the status stage leaves the address
    register at [EF | 5]. *)
Lemma set_address_zero_not_applied :
  result_map (fun s => (pending_address s, DADDR s))
    (play [HostSetup (SET_ADDRESS 5); TxDone 0; HostSetup (SET_ADDRESS 0)]
       (usb_init boot)) = Ok (0, Z.lor USB_DADDR_EF 5) /\
  result_map DADDR
    (play [HostSetup (SET_ADDRESS 5); TxDone 0; HostSetup (SET_ADDRESS 0);
           TxDone 0]
       (usb_init boot)) = Ok (Z.lor USB_DADDR_EF 5) /\
  result_map DADDR
    (play [HostSetup (SET_ADDRESS 5); TxDone 0; HostSetup (SET_ADDRESS 0);
           TxDone 0]
       (usb_init boot)) <> Ok (Z.lor USB_DADDR_EF 0).
Proof.
  repeat split; try (vm_compute; reflexivity).
  vm_compute. discriminate.
Qed.

(** ** Sizes of the register file and of packet memory *)

Lemma length_pma_copy_out_loop (n : nat) (i slot : Z) (buf pma : list Z) :
  length (pma_copy_out_loop n i slot buf pma) = length pma.
Proof.
  revert i pma. induction n as [| n IH]; intros i pma; [reflexivity |].
  cbn [pma_copy_out_loop]. rewrite IH. apply length_wr.
Qed.

Lemma same_sizes_send_zlp (ep : Z) (s : usb_dev) :
  same_sizes s (usb_endpoint_send_zlp ep s).
Proof.
  split.
  - unfold usb_endpoint_send_zlp, endpoint_set_tx_valid. cbv zeta.
    rewrite length_EPR_epr_store. reflexivity.
  - change (length (wr (PMA s) (4 * ep + 1) (uint16 0)) = length (PMA s)).
    apply length_wr.
Qed.

Lemma same_sizes_send (ep : Z) (buf : list Z) (count : Z) (s : usb_dev) :
  same_sizes s (usb_endpoint_send ep buf count s).
Proof.
  unfold usb_endpoint_send. destruct (count <=? ENDPOINT_LIMIT).
  - split.
    + unfold endpoint_set_tx_valid. cbv zeta.
      rewrite length_EPR_epr_store. reflexivity.
    + cbv zeta. unfold endpoint_set_tx_valid, epr_store, pma_copy_out.
      cbn [PMA set_PMA set_EPR].
      rewrite length_pma_copy_out_loop.
      unfold set_bte_tx_count, pma_store. cbn [PMA set_PMA].
      rewrite length_wr. reflexivity.
  - split.
    + unfold endpoint_set_tx_valid. cbv zeta.
      rewrite length_EPR_epr_store. reflexivity.
    + cbv zeta. unfold endpoint_set_tx_valid, epr_store, pma_copy_out.
      cbn [PMA set_PMA set_EPR].
      rewrite length_pma_copy_out_loop.
      unfold set_bte_tx_count, pma_store. cbn [PMA set_PMA].
      rewrite length_wr. reflexivity.
Qed.

Lemma same_sizes_refl (s : usb_dev) : same_sizes s s.
Proof. split; reflexivity. Qed.

Lemma string_send_same_sizes (index : Z) (s s' : usb_dev) (rv : option Z) :
  string_send index s = Ok (s', rv) -> same_sizes s s'.
Proof.
  unfold string_send, panic. branches; intros H; inversion H; subst;
    apply same_sizes_send.
Qed.

Lemma get_descriptor_same_sizes (sp : setup) (s s' : usb_dev)
    (rv : option Z) :
  get_descriptor sp s = Ok (s', rv) -> same_sizes s s'.
Proof.
  unfold get_descriptor.
  repeat match goal with
         | |- context [if ?b =? ?c then _ else _] => destruct (b =? c)
         end;
    try (intros H; inversion H; subst;
         first [ apply same_sizes_send | apply same_sizes_send_zlp
               | apply same_sizes_refl ]).
  apply string_send_same_sizes.
Qed.

Lemma usb_setup_same_sizes (buf : list Z) (count : Z) (s s' : usb_dev)
    (rv : option Z) :
  usb_setup buf count s = Ok (s', rv) -> same_sizes s s'.
Proof.
  unfold usb_setup.
  destruct (count =? 0);
    [intros H; inversion H; subst; apply same_sizes_refl |].
  destruct (rtype (setup_of buf) =? 33).
  { intros H; inversion H; subst. apply same_sizes_send_zlp. }
  destruct (tag_of (setup_of buf) =? 32774).
  { intros H. exact (get_descriptor_same_sizes _ _ _ _ H). }
  unfold enum_set_address, set_configuration, cp21_vendor, cp21_enable,
    cp21_set_baud, cp21_set_line, cp21_set_chars, cp21_get_flow,
    cp21_get_modem, cp21_set_modem, cp21_get_status.
  branches; intros H; inversion H; subst; cbv zeta;
    first [ exact (same_sizes_refl s)
          | exact (same_sizes_send 0 _ _ (set_cp21_control NONE s))
          | exact (same_sizes_send_zlp 0 (set_cp21_control NONE s)) ].
Qed.

(** ** The control-data consumer *)

Lemma wr_insert (l : list Z) (i : nat) (v : Z) :
  wr l (Z.of_nat i) v = <[i := v]> l.
Proof.
  unfold wr. destruct (Z.ltb_spec (Z.of_nat i) 0) as [? | _]; [lia |].
  rewrite Nat2Z.id. reflexivity.
Qed.

Lemma memcpy_loop_overwrites (n i : nat) (dest src : list Z) :
  (i + n <= length dest)%nat ->
  memcpy_loop n (Z.of_nat i) dest src
  = firstn i dest
    ++ map (fun k : nat => rd src (Z.of_nat k)) (seq i n)
    ++ skipn (i + n) dest.
Proof.
  revert i dest. induction n as [| n IH]; intros i dest Hlen.
  - cbn [memcpy_loop seq map app]. rewrite Nat.add_0_r.
    symmetry. apply firstn_skipn.
  - cbn [memcpy_loop seq map].
    replace (Z.of_nat i + 1) with (Z.of_nat (S i)) by lia.
    rewrite wr_insert, IH by (rewrite length_insert; lia).
    rewrite (take_S_r _ _ (rd src (Z.of_nat i)))
      by (apply list_lookup_insert_eq; lia).
    rewrite take_insert_ge by lia.
    rewrite drop_insert_lt by lia.
    rewrite <- app_assoc. cbn [app].
    replace (S i + n)%nat with (i + S n)%nat by lia. reflexivity.
Qed.

(** [memcpy] within the destination leaves [overwritten]. *)
Lemma memcpy_overwrites (dest src : list Z) (len : Z) :
  memcpy dest src len
  = if (0 <=? len) && (len <=? sizeof dest)
    then Ok (overwritten dest src len) else Overrun.
Proof.
  unfold memcpy, sizeof, overwritten. rewrite Z.gtb_ltb.
  destruct (Z.ltb_spec len 0) as [Hneg | Hpos],
    (Z.leb_spec 0 len) as [H0 | H0]; try lia; cbn [orb andb];
    [reflexivity |].
  destruct (Z.ltb_spec (Z.of_nat (length dest)) len) as [Hbig | Hfit],
    (Z.leb_spec len (Z.of_nat (length dest))) as [H1 | H1]; try lia;
    [reflexivity |].
  f_equal.
  rewrite (memcpy_loop_overwrites (Z.to_nat len) 0) by lia.
  reflexivity.
Qed.

(** C10, as the code has it.  [usb_setup] passes over the consumer for an
    empty packet and for a class-type request (type 0x21): the consumer
    stays as it was.  Any other SETUP packet is dispatched with the
    consumer reset, so the outcome is the one from a state with no
    consumer armed, and afterwards BAUD is armed exactly for tag 0x411E,
    CHARS exactly for tag 0x4119, nothing otherwise.  [usb_setup] leaves
    the capture buffers as they are.  The DATA-OUT payload that follows
    goes by the consumer: with BAUD armed a payload of at most 4 bytes
    replaces the first bytes of the baud buffer and nothing else changes,
    with CHARS armed a payload of at most 6 bytes does so in the chars
    buffer, and a longer payload runs past the array; with nothing armed
    the payload is answered with a zero-length packet (transmit count 0,
    transmit status VALID) and both buffers stay as they were. *)
Theorem control_consumer (buf buf2 : list Z) (count count2 : Z)
    (s s1 : usb_dev) (rv : option Z) :
  length (EPR s) = 8%nat -> length (PMA s) = 256%nat ->
  length (cp21_baud s) = 4%nat -> length (cp21_chars s) = 6%nat ->
  usb_setup buf count s = Ok (s1, rv) ->
  let tag := tag_of (setup_of buf) in
  let passed := (count =? 0) || (rtype (setup_of buf) =? 0x21) in
  usb_setup buf count (if passed then s else set_cp21_control NONE s)
  = Ok (s1, rv) /\
  cp21_control s1
  = (if passed then cp21_control s
     else if tag =? 0x411e then BAUD
     else if tag =? 0x4119 then CHARS else NONE) /\
  cp21_baud s1 = cp21_baud s /\ cp21_chars s1 = cp21_chars s /\
  usb_control buf2 count2 s1
  = match cp21_control s1 with
    | BAUD =>
        if (0 <=? count2) && (count2 <=? 4)
        then Ok (set_cp21_baud (overwritten (cp21_baud s) buf2 count2) s1,
                 Some 1)
        else Overrun
    | CHARS =>
        if (0 <=? count2) && (count2 <=? 6)
        then Ok (set_cp21_chars (overwritten (cp21_chars s) buf2 count2) s1,
                 Some 1)
        else Overrun
    | NONE => Ok (usb_endpoint_send_zlp 0 s1, Some 1)
    end /\
  bte_tx_count 0 (usb_endpoint_send_zlp 0 s1) = 0 /\
  stat_tx (epr_load 0 (usb_endpoint_send_zlp 0 s1)) = STAT_VALID /\
  cp21_baud (usb_endpoint_send_zlp 0 s1) = cp21_baud s /\
  cp21_chars (usb_endpoint_send_zlp 0 s1) = cp21_chars s.
Proof.
  intros Hregs Hpma Hbaud4 Hchars6 Hsetup tag passed.
  assert (Hsizes : same_sizes s s1)
    by exact (usb_setup_same_sizes _ _ _ _ _ Hsetup).
  assert (Hreset : usb_setup buf count
                     (if passed then s else set_cp21_control NONE s)
                   = usb_setup buf count s).
  { subst passed. unfold usb_setup.
    destruct (count =? 0); cbn [orb]; [reflexivity |].
    destruct (rtype (setup_of buf) =? 33); reflexivity. }
  split; [rewrite Hreset; exact Hsetup |].
  assert (Hfacts :
            cp21_control s1
            = (if passed then cp21_control s
               else if tag =? 0x411e then BAUD
               else if tag =? 0x4119 then CHARS else NONE) /\
            cp21_baud s1 = cp21_baud s /\ cp21_chars s1 = cp21_chars s).
  { revert Hsetup. subst passed. unfold usb_setup. fold tag.
    destruct (count =? 0); cbn [orb].
    { intros H; inversion H; subst. repeat split; reflexivity. }
    destruct (rtype (setup_of buf) =? 33).
    { intros H; inversion H; subst. repeat split; reflexivity. }
    destruct (Z.eqb_spec tag 32774) as [E | _].
    { rewrite E. cbn [Z.eqb Pos.eqb]. unfold get_descriptor, string_send, panic.
      branches; intros H; inversion H; subst; unfold usb_endpoint_send;
        branches; repeat split; reflexivity. }
    unfold enum_set_address, set_configuration, cp21_vendor, cp21_enable,
      cp21_set_baud, cp21_set_line, cp21_set_chars, cp21_get_flow,
      cp21_get_modem, cp21_set_modem, cp21_get_status.
    repeat match goal with
           | |- context [if tag =? ?c then _ else _] =>
               destruct (Z.eqb_spec tag c) as [-> | ?]
           end; cbn [Z.eqb Pos.eqb];
      branches; intros H; inversion H; subst; unfold usb_endpoint_send;
        branches; repeat split; reflexivity. }
  destruct Hfacts as (Hctl & Hb & Hc).
  split; [exact Hctl |]. split; [exact Hb |]. split; [exact Hc |].
  split; [| split; [| split; [| split]]].
  - unfold usb_control. rewrite !memcpy_overwrites, Hb, Hc.
    unfold sizeof. rewrite Hbaud4, Hchars6.
    change (Z.of_nat 4) with 4. change (Z.of_nat 6) with 6.
    destruct (cp21_control s1).
    + reflexivity.
    + destruct ((0 <=? count2) && (count2 <=? 4)); reflexivity.
    + destruct ((0 <=? count2) && (count2 <=? 6)); reflexivity.
  - apply bte_tx_count_send_zlp. destruct Hsizes as [_ Hp].
    rewrite Hp, Hpma. lia.
  - unfold usb_endpoint_send_zlp. cbv zeta.
    apply endpoint_set_tx_valid_status.
    + change (length (EPR s1) = 8%nat). destruct Hsizes as [He _].
      rewrite He. exact Hregs.
    + unfold EP_COUNT. lia.
  - exact Hb.
  - exact Hc.
Qed.

(** Two runs.  SET_BAUDDIV on the initialised device arms BAUD, and a
    payload of three bytes replaces the first three bytes of the baud
    buffer.  A class request on the state that follows leaves BAUD armed,
    and a payload of five bytes runs past the four bytes of the buffer. *)
Lemma control_consumer_witness :
  (let s := usb_init boot in
   let s1 := usb_endpoint_send_zlp 0
               (set_cp21_control BAUD (set_cp21_control NONE s)) in
   let tag := tag_of (setup_of SET_BAUDDIV) in
   let passed := (8 =? 0) || (rtype (setup_of SET_BAUDDIV) =? 0x21) in
   usb_setup SET_BAUDDIV 8 (if passed then s else set_cp21_control NONE s)
   = Ok (s1, None) /\
   cp21_control s1
   = (if passed then cp21_control s
      else if tag =? 0x411e then BAUD
      else if tag =? 0x4119 then CHARS else NONE) /\
   cp21_baud s1 = cp21_baud s /\ cp21_chars s1 = cp21_chars s /\
   usb_control [1; 2; 3] 3 s1
   = match cp21_control s1 with
     | BAUD =>
         if (0 <=? 3) && (3 <=? 4)
         then Ok (set_cp21_baud (overwritten (cp21_baud s) [1; 2; 3] 3) s1,
                  Some 1)
         else Overrun
     | CHARS =>
         if (0 <=? 3) && (3 <=? 6)
         then Ok (set_cp21_chars (overwritten (cp21_chars s) [1; 2; 3] 3) s1,
                  Some 1)
         else Overrun
     | NONE => Ok (usb_endpoint_send_zlp 0 s1, Some 1)
     end /\
   bte_tx_count 0 (usb_endpoint_send_zlp 0 s1) = 0 /\
   stat_tx (epr_load 0 (usb_endpoint_send_zlp 0 s1)) = STAT_VALID /\
   cp21_baud (usb_endpoint_send_zlp 0 s1) = cp21_baud s /\
   cp21_chars (usb_endpoint_send_zlp 0 s1) = cp21_chars s) /\
  (let s := usb_endpoint_send_zlp 0
              (set_cp21_control BAUD
                 (set_cp21_control NONE (usb_init boot))) in
   let s1 := usb_endpoint_send_zlp 0 s in
   let tag := tag_of (setup_of SET_LINE_CODING) in
   let passed := (8 =? 0) || (rtype (setup_of SET_LINE_CODING) =? 0x21) in
   usb_setup SET_LINE_CODING 8
     (if passed then s else set_cp21_control NONE s)
   = Ok (s1, Some 1) /\
   cp21_control s1
   = (if passed then cp21_control s
      else if tag =? 0x411e then BAUD
      else if tag =? 0x4119 then CHARS else NONE) /\
   cp21_baud s1 = cp21_baud s /\ cp21_chars s1 = cp21_chars s /\
   usb_control [1; 2; 3; 4; 5] 5 s1
   = match cp21_control s1 with
     | BAUD =>
         if (0 <=? 5) && (5 <=? 4)
         then Ok (set_cp21_baud
                    (overwritten (cp21_baud s) [1; 2; 3; 4; 5] 5) s1,
                  Some 1)
         else Overrun
     | CHARS =>
         if (0 <=? 5) && (5 <=? 6)
         then Ok (set_cp21_chars
                    (overwritten (cp21_chars s) [1; 2; 3; 4; 5] 5) s1,
                  Some 1)
         else Overrun
     | NONE => Ok (usb_endpoint_send_zlp 0 s1, Some 1)
     end /\
   bte_tx_count 0 (usb_endpoint_send_zlp 0 s1) = 0 /\
   stat_tx (epr_load 0 (usb_endpoint_send_zlp 0 s1)) = STAT_VALID /\
   cp21_baud (usb_endpoint_send_zlp 0 s1) = cp21_baud s /\
   cp21_chars (usb_endpoint_send_zlp 0 s1) = cp21_chars s).
Proof.
  split.
  - intros s s1 tag passed.
    apply (control_consumer SET_BAUDDIV [1; 2; 3] 8 3 s s1 None).
    + reflexivity.
    + reflexivity.
    + reflexivity.
    + reflexivity.
    + reflexivity.
  - intros s s1 tag passed.
    apply (control_consumer SET_LINE_CODING [1; 2; 3; 4; 5] 8 5 s s1
             (Some 1)).
    + reflexivity.
    + reflexivity.
    + reflexivity.
    + reflexivity.
    + reflexivity.
Defined.

(** C10, the claim fails when a class-type SETUP comes between: BAUD is
    armed by SET_BAUDDIV, a class request (type 0x21) is acknowledged
    without the reset, and the payload of the DATA-OUT that follows is
    copied into the baud buffer although the SETUP before it was not
    SET_BAUDDIV. *)
Lemma class_setup_keeps_consumer :
  cp21_baud (usb_init boot) = [0; 0; 0; 0] /\
  result_map (fun s => (cp21_control s, cp21_baud s))
    (play [HostSetup SET_BAUDDIV; TxDone 0;
           HostSetup SET_LINE_CODING; TxDone 0;
           HostOut 0 [1; 2; 3; 4]]
       (usb_init boot)) = Ok (BAUD, [1; 2; 3; 4]).
Proof.
  split; vm_compute; reflexivity.
Qed.

(** [memcpy] within the destination: the first [len] bytes come from the
    source, the others stay. *)
Lemma memcpy_loop_rd (n : nat) (i : Z) (dest src : list Z) (j : Z) :
  0 <= i -> i + Z.of_nat n <= Z.of_nat (length dest) ->
  rd (memcpy_loop n i dest src) j
  = if (i <=? j) && (j <? i + Z.of_nat n) then rd src j else rd dest j.
Proof.
  revert i dest. induction n as [| n IH]; intros i dest Hi Hlen.
  - cbn [memcpy_loop]. destruct (Z.leb_spec i j), (Z.ltb_spec j (i + Z.of_nat 0));
      cbn [andb]; try reflexivity; lia.
  - cbn [memcpy_loop]. rewrite IH by (rewrite ?length_wr; lia).
    rewrite rd_wr.
    destruct (Z.leb_spec (i + 1) j), (Z.ltb_spec j (i + 1 + Z.of_nat n)),
      (Z.leb_spec i j), (Z.ltb_spec j (i + Z.of_nat (S n))),
      (Z.eqb_spec i j), (Z.leb_spec 0 i),
      (Z.ltb_spec i (Z.of_nat (length dest)));
      cbn [andb]; try reflexivity; try lia; subst; reflexivity.
Qed.

Lemma memcpy_copies (dest src : list Z) (len : Z) :
  0 <= len <= sizeof dest ->
  exists d, memcpy dest src len = Ok d /\
            length d = length dest /\
            forall j, rd d j = if (0 <=? j) && (j <? len) then rd src j
                               else rd dest j.
Proof.
  intros Hlen. unfold memcpy, sizeof in *.
  destruct (Z.ltb_spec len 0) as [? | _]; [lia |].
  rewrite Z.gtb_ltb.
  destruct (Z.ltb_spec (Z.of_nat (length dest)) len) as [? | _]; [lia |].
  cbn [orb]. eexists. split; [reflexivity |]. split.
  - generalize (Z.to_nat len) 0 dest. intros n.
    induction n as [| n IH]; intros i d; [reflexivity |].
    cbn [memcpy_loop]. rewrite IH. apply length_wr.
  - intros j. rewrite memcpy_loop_rd by lia.
    rewrite Z2Nat.id by lia. reflexivity.
Qed.

(** ** Bulk receive *)

Section BulkReceive.

Variable C : Z.

Lemma cq_space_wf (q : cqueue) :
  cq_wf C q -> cq_space q = C - q_count q.
Proof.
  intros (HC & Hsz & _ & _ & _ & Hcnt & _). unfold cq_space.
  rewrite Hsz. apply int32_small. unfold INT_MAX in *. lia.
Qed.

(** The loop of [data_ctr] appends the bytes that fit, in order, and
    drops the others without touching the toss counter. *)
Lemma data_ctr_queue_spec (n : nat) (i : Z) (inbuf : list Z) (q : cqueue) :
  cq_wf C q ->
  cq_wf C (data_ctr_queue n i inbuf q) /\
  q_toss (data_ctr_queue n i inbuf q) = q_toss q /\
  q_count (data_ctr_queue n i inbuf q)
  = Z.min C (q_count q + Z.of_nat n) /\
  cq_contents (data_ctr_queue n i inbuf q)
  = cq_contents q
    ++ firstn (Z.to_nat (C - q_count q))
         (map (fun k : nat => uint8 (rd inbuf (i + Z.of_nat k))) (seq 0 n)).
Proof.
  revert i q. induction n as [| n IH]; intros i q Hwf.
  - cbn [data_ctr_queue seq map]. rewrite firstn_nil, app_nil_r.
    pose proof Hwf as (_ & _ & _ & _ & _ & Hcnt & _).
    split; [exact Hwf |]. split; [reflexivity |]. split; [lia | reflexivity].
  - cbn [data_ctr_queue]. rewrite (cq_space_wf q Hwf), Z.gtb_ltb.
    pose proof Hwf as (_ & _ & _ & _ & _ & Hcnt & _).
    cbn [seq map]. rewrite <- seq_shift, map_map.
    destruct (Z.ltb_spec 0 (C - q_count q)) as [Hroom | Hfull].
    + destruct (cq_add_spec C q (rd inbuf i) Hwf ltac:(lia))
        as (Hwf' & Hc' & Ht' & Hcont').
      destruct (IH (i + 1) (cq_add q (rd inbuf i)) Hwf')
        as (Hwf2 & Ht2 & Hc2 & Hcont2).
      rewrite Ht2, Hc2, Hcont2, Ht', Hc', Hcont'.
      split; [exact Hwf2 |]. split; [reflexivity |]. split; [lia |].
      replace (Z.to_nat (C - q_count q))
        with (S (Z.to_nat (C - (q_count q + 1)))) by lia.
      cbn [firstn]. rewrite <- app_assoc, Z.add_0_r. cbn [app].
      do 3 f_equal. apply map_ext. intros k. do 2 f_equal. lia.
    + destruct (IH (i + 1) q Hwf) as (Hwf2 & Ht2 & Hc2 & Hcont2).
      rewrite Ht2, Hc2, Hcont2.
      split; [exact Hwf2 |]. split; [reflexivity |]. split; [lia |].
      replace (Z.to_nat (C - q_count q)) with 0%nat by lia.
      reflexivity.
Qed.

End BulkReceive.

(** ** Copies between packet memory and byte buffers *)

Lemma length_wr16 (buf : list Z) (i v : Z) :
  length (wr16 buf i v) = length buf.
Proof. unfold wr16. rewrite !length_wr. reflexivity. Qed.

Lemma wr16_rd (buf : list Z) (i v j : Z) :
  0 <= i -> 0 <= j < Z.of_nat (length buf) ->
  rd (wr16 buf i v) j
  = if j =? 2 * i + 1 then (v / 256) mod 256
    else if j =? 2 * i then v mod 256 else rd buf j.
Proof.
  intros Hi Hj. unfold wr16. rewrite !rd_wr, length_wr.
  destruct (Z.eqb_spec (2 * i + 1) j), (Z.eqb_spec j (2 * i + 1)),
    (Z.eqb_spec (2 * i) j), (Z.eqb_spec j (2 * i)),
    (Z.leb_spec 0 (2 * i + 1)), (Z.leb_spec 0 (2 * i)),
    (Z.ltb_spec (2 * i + 1) (Z.of_nat (length buf))),
    (Z.ltb_spec (2 * i) (Z.of_nat (length buf)));
    cbn [andb]; try reflexivity; lia.
Qed.

Lemma pma_copy_in_loop_length (n : nat) (i slot : Z) (pma buf : list Z) :
  length (pma_copy_in_loop n i slot pma buf) = length buf.
Proof.
  revert i buf. induction n as [| n IH]; intros i buf; [reflexivity |].
  cbn [pma_copy_in_loop]. rewrite IH. apply length_wr16.
Qed.

Lemma pma_copy_in_loop_rd (n : nat) (i slot : Z) (pma buf : list Z) (j : Z) :
  0 <= i -> 0 <= j < Z.of_nat (length buf) ->
  rd (pma_copy_in_loop n i slot pma buf) j
  = if (2 * i <=? j) && (j <? 2 * (i + Z.of_nat n))
    then pma_byte pma slot j else rd buf j.
Proof.
  revert i buf. induction n as [| n IH]; intros i buf Hi Hj.
  - cbn [pma_copy_in_loop].
    destruct (Z.leb_spec (2 * i) j), (Z.ltb_spec j (2 * (i + Z.of_nat 0)));
      cbn [andb]; try reflexivity; lia.
  - cbn [pma_copy_in_loop].
    rewrite IH by (rewrite ?length_wr16; lia).
    rewrite wr16_rd by lia.
    destruct (Z.leb_spec (2 * (i + 1)) j),
      (Z.ltb_spec j (2 * (i + 1 + Z.of_nat n))),
      (Z.leb_spec (2 * i) j), (Z.ltb_spec j (2 * (i + Z.of_nat (S n))));
      cbn [andb]; try reflexivity; try lia;
      (destruct (Z.eqb_spec j (2 * i + 1)) as [E | ?];
       [| destruct (Z.eqb_spec j (2 * i)) as [E | ?]];
       try reflexivity; try lia;
       unfold pma_byte, uint16;
       replace (j / 2) with i by (Z.div_mod_to_equations; lia)).
    + replace (j mod 2 =? 0) with false
        by (symmetry; apply Z.eqb_neq; Z.div_mod_to_equations; lia).
      Z.div_mod_to_equations; lia.
    + replace (j mod 2 =? 0) with true
        by (symmetry; apply Z.eqb_eq; Z.div_mod_to_equations; lia).
      Z.div_mod_to_equations; lia.
Qed.

(** The first [count] bytes of the buffer filled by [pma_copy_in] are the
    bytes of packet memory. *)
Lemma pma_copy_in_rd (pma_off : Z) (buf : list Z) (count : Z) (s : usb_dev)
    (j : Z) :
  0 <= j < count -> count <= Z.of_nat (length buf) ->
  rd (pma_copy_in pma_off buf count s) j
  = pma_byte (PMA s) (pma_slot pma_off) j.
Proof.
  intros Hj Hlen. unfold pma_copy_in.
  rewrite pma_copy_in_loop_rd by lia.
  assert (Hu : j < 2 * (0 + Z.of_nat (pma_units count))).
  { unfold pma_units. rewrite Z2Nat.id by (apply Z.quot_pos; lia).
    rewrite Z.quot_div_nonneg by lia. Z.div_mod_to_equations. lia. }
  destruct (Z.leb_spec (2 * 0) j), (Z.ltb_spec j (2 * (0 + Z.of_nat (pma_units count))));
    cbn [andb]; try reflexivity; lia.
Qed.

Lemma pma_byte_range (pma : list Z) (slot k : Z) :
  is_byte (pma_byte pma slot k).
Proof.
  unfold is_byte, pma_byte. destruct (k mod 2 =? 0);
    Z.div_mod_to_equations; lia.
Qed.

(** C9, as the code has it.  On a receive-complete interrupt of a bulk
    endpoint with a packet of [n] bytes, [data_ctr] pushes the bytes of
    the packet in order for as long as the queue has room; the bytes that
    arrive once the queue is full are dropped, and the toss counter keeps
    its value. *)
Theorem bulk_receive (ep : Z) (inbuf : list Z) (s : usb_dev) (C : Z) :
  ctr_tx_clear ep s -> ctr_rx_set ep s ->
  Z.land (bte_rx_count ep s) 0x3ff <= sizeof inbuf ->
  cq_wf C (in_queue s) ->
  exists s',
    data_ctr ep inbuf s = Ok s' /\
    cq_contents (in_queue s')
    = cq_contents (in_queue s)
      ++ firstn (Z.to_nat (C - q_count (in_queue s))) (rx_packet ep s) /\
    q_count (in_queue s')
    = Z.min C (q_count (in_queue s) + Z.land (bte_rx_count ep s) 0x3ff) /\
    q_toss (in_queue s') = q_toss (in_queue s).
Proof.
  unfold ctr_tx_clear, ctr_rx_set. intros Htx Hrx Hfit Hwf.
  unfold data_ctr. rewrite Htx. cbn [Z.eqb negb].
  destruct (Z.eqb_spec (Z.land (epr_load ep s) USB_EP0R_CTR_RX) 0)
    as [H0 | _]; [contradiction |].
  cbn [negb]. cbv zeta.
  change (bte_rx_count ep (endpoint_clear_rx ep s)) with (bte_rx_count ep s).
  change (bte_rx_addr ep (endpoint_clear_rx ep s)) with (bte_rx_addr ep s).
  set (n := Z.land (bte_rx_count ep s) 1023) in *.
  assert (Hn : 0 <= n) by (apply Z.land_nonneg; right; lia).
  rewrite Z.gtb_ltb.
  destruct (Z.ltb_spec (sizeof inbuf) n) as [? | _]; [lia |].
  eexists. split; [reflexivity |].
  match goal with
  | |- context [data_ctr_queue ?a ?b ?c ?d] =>
      change (in_queue (endpoint_recv_ready ep
                          (set_in_queue (data_ctr_queue a b c d)
                             (endpoint_clear_rx ep s))))
        with (data_ctr_queue a b c d);
      destruct (data_ctr_queue_spec C a b c d Hwf) as (_ & Ht & Hc & Hcont)
  end.
  change (in_queue (endpoint_clear_rx ep s)) with (in_queue s) in *.
  rewrite Ht, Hc, Hcont. rewrite Z2Nat.id by lia.
  split; [| split; reflexivity].
  do 2 f_equal. unfold rx_packet. fold n.
  apply map_ext_in. intros k Hk. apply in_seq in Hk.
  change (PMA (endpoint_clear_rx ep s)) with (PMA s).
  rewrite Z.add_0_l.
  unfold pma_copy_in at 1.
  change (PMA (endpoint_clear_rx ep s)) with (PMA s).
  fold (pma_copy_in (bte_rx_addr ep s) inbuf n s).
  rewrite pma_copy_in_rd by (unfold sizeof in Hfit; lia).
  apply uint8_byte, pma_byte_range.
Qed.

Lemma bulk_receive_witness :
  let s := hw_event (HostOut 1 [104; 105]) (usb_init boot) in
  exists s',
    data_ctr 1 (replicate 64 0) s = Ok s' /\
    cq_contents (in_queue s')
    = cq_contents (in_queue s)
      ++ firstn (Z.to_nat (256 - q_count (in_queue s))) (rx_packet 1 s) /\
    q_count (in_queue s')
    = Z.min 256 (q_count (in_queue s) + Z.land (bte_rx_count 1 s) 0x3ff) /\
    q_toss (in_queue s') = q_toss (in_queue s).
Proof.
  intros s.
  apply (bulk_receive 1 (replicate 64 0) s 256).
  - vm_compute. reflexivity.
  - vm_compute. discriminate.
  - vm_compute. discriminate.
  - vm_compute. repeat split; try discriminate. left. reflexivity.
Defined.

(** C9, the claim fails on overflow.  Four packets of 64 bytes fill the
    queue of 256 bytes; of a fifth packet of two bytes nothing is queued,
    and the toss counter is still 0: [data_ctr] calls [cq_add] only when
    [cq_space] is positive, so the branch of [cq_add] that counts a tossed
    byte is never reached. *)
Lemma full_queue_drop_not_counted :
  result_map (fun s => (q_count (in_queue s), q_toss (in_queue s)))
    (play [HostOut 1 (replicate 64 85); HostOut 1 (replicate 64 85);
           HostOut 1 (replicate 64 85); HostOut 1 (replicate 64 85)]
       (usb_init boot)) = Ok (256, 0) /\
  result_map (fun s => (q_count (in_queue s), q_toss (in_queue s)))
    (play [HostOut 1 (replicate 64 85); HostOut 1 (replicate 64 85);
           HostOut 1 (replicate 64 85); HostOut 1 (replicate 64 85);
           HostOut 1 [65; 66]]
       (usb_init boot)) = Ok (256, 0).
Proof.
  split; vm_compute; reflexivity.
Qed.

(** ** Transmit buffers *)

Lemma pma_copy_out_loop_rd (n : nat) (i slot : Z) (buf pma : list Z) (j : Z) :
  0 <= slot + i ->
  rd (pma_copy_out_loop n i slot buf pma) j
  = if (slot + i <=? j) && (j <? slot + i + Z.of_nat n)
       && (j <? Z.of_nat (length pma))
    then rd16 buf (j - slot) else rd pma j.
Proof.
  revert i pma. induction n as [| n IH]; intros i pma Hi.
  - cbn [pma_copy_out_loop].
    destruct (Z.leb_spec (slot + i) j),
      (Z.ltb_spec j (slot + i + Z.of_nat 0)); cbn [andb];
      try reflexivity; lia.
  - cbn [pma_copy_out_loop]. rewrite IH by lia.
    rewrite length_wr, rd_wr.
    destruct (Z.leb_spec (slot + (i + 1)) j),
      (Z.ltb_spec j (slot + (i + 1) + Z.of_nat n)),
      (Z.ltb_spec j (Z.of_nat (length pma))),
      (Z.leb_spec (slot + i) j),
      (Z.ltb_spec j (slot + i + Z.of_nat (S n))),
      (Z.eqb_spec (slot + i) j), (Z.leb_spec 0 (slot + i)),
      (Z.ltb_spec (slot + i) (Z.of_nat (length pma)));
      cbn [andb]; try reflexivity; try lia.
    f_equal. lia.
Qed.

Lemma pma_units_bound (count : Z) :
  0 <= count -> 2 * Z.of_nat (pma_units count) = count + count mod 2.
Proof.
  intros Hc. unfold pma_units.
  rewrite Z2Nat.id by (apply Z.quot_pos; lia).
  rewrite Z.quot_div_nonneg by lia. Z.div_mod_to_equations. lia.
Qed.

(** Packet memory after the count has been stored in the table entry of
    [ep] and [count] bytes of [data] have been copied to the buffer at
    [slot]: the table entry holds the count, the buffer address is
    untouched and the buffer holds the bytes. *)
Section TransmitBuffer.

Variables (pma data : list Z) (ep count slot : Z).
Hypothesis Hep : 0 <= ep.
Hypothesis Hslot : 4 * ep + 1 < slot.
Hypothesis Hcount : 0 <= count <= 64.
Hypothesis Hroom : slot + 32 <= Z.of_nat (length pma).

Let pma' : list Z :=
  pma_copy_out_loop (pma_units count) 0 slot data
    (wr pma (4 * ep + 1) (uint16 count)).

Lemma tx_buffer_addr : rd pma' (4 * ep) = rd pma (4 * ep).
Proof.
  unfold pma'. rewrite pma_copy_out_loop_rd by lia.
  destruct (Z.leb_spec (slot + 0) (4 * ep)); cbn [andb]; [lia |].
  apply rd_wr_other. lia.
Qed.

Lemma tx_buffer_count : rd pma' (4 * ep + 1) = count.
Proof.
  unfold pma'. rewrite pma_copy_out_loop_rd by lia.
  destruct (Z.leb_spec (slot + 0) (4 * ep + 1)); cbn [andb]; [lia |].
  rewrite rd_wr_same by lia. unfold uint16. apply Z.mod_small. lia.
Qed.

Lemma tx_buffer_byte (k : Z) :
  0 <= k < count -> pma_byte pma' slot k = uint8 (rd data k).
Proof.
  intros Hk. unfold pma_byte, pma'.
  rewrite pma_copy_out_loop_rd by lia. rewrite length_wr.
  pose proof (pma_units_bound count ltac:(lia)) as Hu.
  destruct (Z.leb_spec (slot + 0) (slot + k / 2)),
    (Z.ltb_spec (slot + k / 2) (slot + 0 + Z.of_nat (pma_units count))),
    (Z.ltb_spec (slot + k / 2) (Z.of_nat (length pma)));
    cbn [andb]; try (exfalso; Z.div_mod_to_equations; lia).
  unfold rd16, uint8.
  replace (slot + k / 2 - slot) with (k / 2) by lia.
  destruct (Z.eqb_spec (k mod 2) 0) as [Hev | Hodd].
  - replace (2 * (k / 2)) with k by (Z.div_mod_to_equations; lia).
    Z.div_mod_to_equations; lia.
  - replace (2 * (k / 2) + 1) with k by (Z.div_mod_to_equations; lia).
    Z.div_mod_to_equations; lia.
Qed.

End TransmitBuffer.

(** The packet queued by [usb_endpoint_send]: the whole buffer when it
    fits in one packet, else its first 64 bytes, with the rest recorded
    as the continuation. *)
Lemma tx_packet_of_send (ep : Z) (data : list Z) (count : Z) (s : usb_dev) :
  tx_buffer_ok ep s -> 0 <= count <= ENDPOINT_LIMIT ->
  tx_packet ep (usb_endpoint_send ep data count s) = bytes_at data count.
Proof.
  intros (Hep & Hslot & Hroom) Hcount. unfold ENDPOINT_LIMIT in Hcount.
  unfold tx_packet, bytes_at, bte_tx_count, bte_tx_addr, pma_load,
    usb_endpoint_send.
  destruct (Z.leb_spec count ENDPOINT_LIMIT) as [_ | Hgt];
    [| unfold ENDPOINT_LIMIT in Hgt; lia].
  cbv zeta.
  change (PMA (endpoint_set_tx_valid ep ?x)) with (PMA x).
  unfold pma_copy_out. cbn [PMA set_PMA].
  change (PMA (set_bte_tx_count ep count s))
    with (wr (PMA s) (4 * ep + 1) (uint16 count)).
  unfold bte_tx_addr, pma_load.
  change (PMA (set_bte_tx_count ep count s))
    with (wr (PMA s) (4 * ep + 1) (uint16 count)).
  rewrite (rd_wr_other (PMA s) (4 * ep + 1) (4 * ep)) by lia.
  unfold bte_tx_addr, pma_load in Hslot, Hroom.
  rewrite tx_buffer_addr, tx_buffer_count by assumption.
  apply map_ext_in. intros k Hk. apply in_seq in Hk.
  apply tx_buffer_byte; try assumption. lia.
Qed.

Lemma tx_packet_of_send_long (ep : Z) (data : list Z) (count : Z)
    (s : usb_dev) :
  tx_buffer_ok ep s -> ENDPOINT_LIMIT < count ->
  let s' := usb_endpoint_send ep data count s in
  tx_packet ep s' = bytes_at data ENDPOINT_LIMIT /\
  tx_rem s' = skipn (Z.to_nat ENDPOINT_LIMIT) data /\
  tx_rem_count s' = int32 (count - ENDPOINT_LIMIT).
Proof.
  intros (Hep & Hslot & Hroom) Hcount s'. subst s'.
  unfold tx_packet, bytes_at, bte_tx_count, bte_tx_addr, pma_load,
    usb_endpoint_send.
  destruct (Z.leb_spec count ENDPOINT_LIMIT) as [Hle | _]; [lia |].
  cbv zeta. split; [| split; reflexivity].
  change (PMA (endpoint_set_tx_valid ep ?x)) with (PMA x).
  unfold pma_copy_out. cbn [PMA set_PMA].
  unfold bte_tx_addr, pma_load.
  match goal with
  | |- context [PMA (set_bte_tx_count ep ENDPOINT_LIMIT ?x)] =>
      change (PMA (set_bte_tx_count ep ENDPOINT_LIMIT x))
        with (wr (PMA s) (4 * ep + 1) (uint16 ENDPOINT_LIMIT))
  end.
  rewrite (rd_wr_other (PMA s) (4 * ep + 1) (4 * ep)) by lia.
  unfold bte_tx_addr, pma_load in Hslot, Hroom.
  rewrite tx_buffer_addr, tx_buffer_count
    by (try assumption; unfold ENDPOINT_LIMIT; lia).
  apply map_ext_in. intros k Hk. apply in_seq in Hk.
  apply tx_buffer_byte; try assumption; unfold ENDPOINT_LIMIT in *; lia.
Qed.

Lemma stat_tx_of_send (ep : Z) (data : list Z) (count : Z) (s : usb_dev) :
  length (EPR s) = 8%nat -> 0 <= ep < EP_COUNT ->
  stat_tx (epr_load ep (usb_endpoint_send ep data count s)) = STAT_VALID.
Proof.
  intros Hregs Hep. unfold usb_endpoint_send.
  destruct (count <=? ENDPOINT_LIMIT); cbv zeta;
    apply endpoint_set_tx_valid_status; assumption.
Qed.

(** ** String descriptors *)

(** C8.  A GET_DESCRIPTOR request (tag 0x8006) for a string descriptor:
    index 0 queues the four bytes of the language table; an index from 1
    to 3 queues the descriptor of that string in the table, a length byte
    of [2 + 2 * strlen], the type, and each character followed by a zero
    byte; any other index ends in [panic] with the message "No such
    string".  A queued packet is in the transmit buffer of endpoint 0 with
    the transmit status VALID. *)
Theorem string_descriptor_request (buf : list Z) (count : Z) (s : usb_dev) :
  length (EPR s) = 8%nat ->
  tx_buffer_ok 0 s ->
  count <> 0 ->
  rtype (setup_of buf) = 0x80 -> request (setup_of buf) = 6 ->
  Z.shiftr (value (setup_of buf)) 8 = D_STRING ->
  let index := Z.land (value (setup_of buf)) 0xff in
  (index = 0 ->
   exists s', usb_setup buf count s = Ok (s', Some 1) /\
              tx_packet 0 s' = my_language_string_desc /\
              sizeof (tx_packet 0 s') = 4 /\
              stat_tx (epr_load 0 s') = STAT_VALID) /\
  (1 <= index <= 3 ->
   exists s', usb_setup buf count s = Ok (s', Some 3) /\
              tx_packet 0 s'
              = string_descriptor (nth (Z.to_nat index) my_strings []) /\
              stat_tx (epr_load 0 s') = STAT_VALID) /\
  (index < 0 \/ 3 < index ->
   usb_setup buf count s = Panic "No such string").
Proof.
  intros Hregs Hbuf Hcount Hrt Hrq Htype index.
  assert (Hdispatch : usb_setup buf count s
                      = string_send index (set_cp21_control NONE s)).
  { unfold usb_setup, tag_of.
    destruct (Z.eqb_spec count 0) as [? | _]; [contradiction |].
    rewrite Hrt, Hrq. cbn [Z.eqb Pos.eqb Z.shiftl Z.lor Pos.lor
                             Pos.shiftl Pos.iter Z.shiftl].
    change (Z.lor (Z.shiftl 128 8) 6 =? 32774) with true. cbv iota.
    unfold get_descriptor. rewrite Htype. reflexivity. }
  rewrite Hdispatch. fold index.
  assert (Hbuf0 : tx_buffer_ok 0 (set_cp21_control NONE s)) by exact Hbuf.
  assert (Hregs0 : length (EPR (set_cp21_control NONE s)) = 8%nat)
    by exact Hregs.
  assert (Hep0 : 0 <= 0 < EP_COUNT) by (unfold EP_COUNT; lia).
  generalize dependent (set_cp21_control NONE s). intros s0 _ Hbuf0 Hregs0.
  split; [| split].
  - intros E. rewrite E.
    exists (usb_endpoint_send 0 my_language_string_desc 4 s0).
    split; [reflexivity |].
    rewrite tx_packet_of_send
      by (try exact Hbuf0; unfold ENDPOINT_LIMIT; lia).
    split; [reflexivity |]. split; [reflexivity |].
    apply stat_tx_of_send; assumption.
  - intros Hidx.
    assert (Hcases : index = 1 \/ index = 2 \/ index = 3) by lia.
    destruct Hcases as [E | [E | E]]; rewrite E.
    + exists (usb_endpoint_send 0
                (string_xx_bytes 30 D_STRING (nth 1 my_strings [])) 30 s0).
      split; [reflexivity |].
      rewrite tx_packet_of_send
        by (try exact Hbuf0; unfold ENDPOINT_LIMIT; lia).
      split; [vm_compute; reflexivity |].
      apply stat_tx_of_send; assumption.
    + exists (usb_endpoint_send 0
                (string_xx_bytes 38 D_STRING (nth 2 my_strings [])) 38 s0).
      split; [reflexivity |].
      rewrite tx_packet_of_send
        by (try exact Hbuf0; unfold ENDPOINT_LIMIT; lia).
      split; [vm_compute; reflexivity |].
      apply stat_tx_of_send; assumption.
    + exists (usb_endpoint_send 0
                (string_xx_bytes 10 D_STRING (nth 3 my_strings [])) 10 s0).
      split; [reflexivity |].
      rewrite tx_packet_of_send
        by (try exact Hbuf0; unfold ENDPOINT_LIMIT; lia).
      split; [vm_compute; reflexivity |].
      apply stat_tx_of_send; assumption.
  - intros Hout. unfold string_send, panic.
    destruct (Z.eqb_spec index 0) as [? | _]; [lia |].
    destruct (Z.ltb_spec index 1) as [? | ?]; cbn [orb]; [reflexivity |].
    rewrite Z.gtb_ltb.
    destruct (Z.ltb_spec 3 index) as [? | ?]; [reflexivity | lia].
Qed.

Lemma string_descriptor_request_witness :
  let buf := GET_STRING 2 in
  let s := usb_init boot in
  let index := Z.land (value (setup_of buf)) 0xff in
  (index = 0 ->
   exists s', usb_setup buf 8 s = Ok (s', Some 1) /\
              tx_packet 0 s' = my_language_string_desc /\
              sizeof (tx_packet 0 s') = 4 /\
              stat_tx (epr_load 0 s') = STAT_VALID) /\
  (1 <= index <= 3 ->
   exists s', usb_setup buf 8 s = Ok (s', Some 3) /\
              tx_packet 0 s'
              = string_descriptor (nth (Z.to_nat index) my_strings []) /\
              stat_tx (epr_load 0 s') = STAT_VALID) /\
  (index < 0 \/ 3 < index ->
   usb_setup buf 8 s = Panic "No such string").
Proof.
  intros buf s index.
  apply (string_descriptor_request buf 8 s).
  - reflexivity.
  - vm_compute. repeat split; discriminate.
  - discriminate.
  - reflexivity.
  - reflexivity.
  - reflexivity.
Defined.

(** ** Sends longer than one packet *)

(** On endpoint 0 the transmit-complete interrupt sends the recorded
    continuation: [ctr0] calls [endpoint_rem] when nothing else is
    pending. *)
Lemma ctr0_sends_continuation (buf : list Z) (s : usb_dev) :
  ctr_rx_clear EP0R s -> ctr_tx_set EP0R s ->
  pending_address s = 0 ->
  Z.land (flags_of EP0R s) F_TX_REM <> 0 ->
  ctr0 buf s = Ok (endpoint_rem EP0R (endpoint_clear_tx EP0R s)).
Proof.
  intros Hrx Htx Hpend Hrem. rewrite ctr0_transmit by assumption.
  unfold ctr0_tx. cbv zeta.
  change (pending_address (endpoint_clear_tx EP0R s))
    with (pending_address s).
  change (flags_of EP0R (endpoint_clear_tx EP0R s)) with (flags_of EP0R s).
  rewrite Hpend. cbn [Z.eqb negb].
  destruct (Z.eqb_spec (Z.land (flags_of EP0R s) F_TX_REM) 0)
    as [? | _]; [contradiction | reflexivity].
Qed.

(** On any other endpoint the transmit-complete interrupt only clears the
    flag and the busy bit: the state after [data_ctr] has the packet
    memory, the continuation and its pending bit as they were.  *)
Lemma data_ctr_transmit (ep : Z) (inbuf : list Z) (s : usb_dev) :
  ctr_tx_set ep s ->
  exists s', data_ctr ep inbuf s = Ok s' /\
             PMA s' = PMA s /\
             tx_rem s' = tx_rem s /\ tx_rem_count s' = tx_rem_count s /\
             Z.land (flags_of ep s') F_TX_REM
             = Z.land (flags_of ep s) F_TX_REM /\
             epr_load ep s' = epr_load ep (endpoint_clear_tx ep s).
Proof.
  unfold ctr_tx_set. intros Htx. unfold data_ctr.
  destruct (Z.eqb_spec (Z.land (epr_load ep s) USB_EP0R_CTR_TX) 0)
    as [? | _]; [contradiction |].
  cbn [negb]. cbv zeta. eexists. split; [reflexivity |].
  split; [reflexivity |]. split; [reflexivity |]. split; [reflexivity |].
  split; [| reflexivity].
  change (flags_of ep (endpoint_clear_tx ep s)) with (flags_of ep s).
  unfold flags_of at 1, set_flags. cbn [ep_flags set_ep_flags].
  change (ep_flags (endpoint_clear_tx ep s)) with (ep_flags s).
  rewrite rd_wr. fold (flags_of ep s).
  destruct ((ep =? ep) && (0 <=? ep) && (ep <? Z.of_nat (length (ep_flags s))));
    [| reflexivity].
  unfold uint8, F_TX_BUSY, F_TX_REM.
  rewrite <- Z.land_ones by lia.
  apply Z.bits_inj'. intros n Hn.
  rewrite !Z.land_spec, Z.lnot_spec by lia.
  change 128 with (2 ^ 7). change 2 with (2 ^ 1) at 1.
  rewrite !Z.pow2_bits_eqb by lia.
  rewrite Z.testbit_ones_nonneg by lia.
  destruct (Z.eqb_spec 7 n) as [<- | ?].
  - generalize (Z.testbit (flags_of ep s) 7). intros b.
    destruct b; reflexivity.
  - rewrite !andb_false_r. reflexivity.
Qed.

(** C4.  A send of 70 bytes on the bulk endpoint 1 of a configured and
    enabled device queues the first 64 bytes and records 6 bytes as the
    continuation.  The transmit-complete interrupt of endpoint 1 then
    leaves the transmit buffer, the recorded continuation and its pending
    bit as they are, with the transmit status at NAK: the continuation is
    not sent.  The same send on endpoint 0 is continued by its
    transmit-complete interrupt with a packet of the last 6 bytes. *)
Theorem bulk_continuation_not_sent :
  let data := map Z.of_nat (seq 1 70) in
  let view ep s :=
    (tx_packet ep s, tx_rem_count s, Z.land (flags_of ep s) F_TX_REM,
     stat_tx (epr_load ep s)) in
  (run s0 <- play [HostSetup (SET_CONFIGURATION 1); TxDone 0;
                   HostSetup (IFC_ENABLE 1); TxDone 0] (usb_init boot) in
   run s1 <- endpoint_send EP1R data 70 s0 in
   run s2 <- play [TxDone 1] s1 in
   Ok (view 1 s1, view 1 s2))
  = Ok ((firstn 64 data, 6, F_TX_REM, STAT_VALID),
        (firstn 64 data, 6, F_TX_REM, STAT_NAK)) /\
  (run s0 <- play [HostSetup (SET_CONFIGURATION 1); TxDone 0;
                   HostSetup (IFC_ENABLE 1); TxDone 0] (usb_init boot) in
   let s1 := usb_endpoint_send EP0R data 70 s0 in
   run s2 <- play [TxDone 0] s1 in
   Ok (view 0 s1, view 0 s2))
  = Ok ((firstn 64 data, 6, F_TX_REM, STAT_VALID),
        (skipn 64 data, 6, 0, STAT_VALID)).
Proof.
  split; vm_compute; reflexivity.
Qed.

(** The continuation [endpoint_rem] queues is the recorded remainder. *)
Lemma tx_packet_of_rem (ep : Z) (s : usb_dev) :
  tx_buffer_ok ep s -> 0 <= tx_rem_count s <= ENDPOINT_LIMIT ->
  tx_packet ep (endpoint_rem ep s) = bytes_at (tx_rem s) (tx_rem_count s).
Proof.
  intros (Hep & Hslot & Hroom) Hcount. unfold ENDPOINT_LIMIT in Hcount.
  unfold tx_packet, bytes_at, bte_tx_count, bte_tx_addr, pma_load,
    endpoint_rem.
  cbv zeta.
  change (PMA (set_flags ep ?f (endpoint_set_tx_valid ep ?x))) with (PMA x).
  change (tx_rem (set_bte_tx_count ep (tx_rem_count s) s)) with (tx_rem s).
  change (tx_rem_count (set_bte_tx_count ep (tx_rem_count s) s))
    with (tx_rem_count s).
  unfold pma_copy_out. cbn [PMA set_PMA].
  change (PMA (set_bte_tx_count ep (tx_rem_count s) s))
    with (wr (PMA s) (4 * ep + 1) (uint16 (tx_rem_count s))).
  unfold bte_tx_addr, pma_load.
  change (PMA (set_bte_tx_count ep (tx_rem_count s) s))
    with (wr (PMA s) (4 * ep + 1) (uint16 (tx_rem_count s))).
  rewrite (rd_wr_other (PMA s) (4 * ep + 1) (4 * ep)) by lia.
  unfold bte_tx_addr, pma_load in Hslot, Hroom.
  rewrite tx_buffer_addr, tx_buffer_count by assumption.
  apply map_ext_in. intros k Hk. apply in_seq in Hk.
  apply tx_buffer_byte; try assumption. lia.
Qed.

(** No handler but [usb_setup] changes the enumeration state. *)
Lemma other_handlers_keep_state (ep : Z) (buf inbuf : list Z) (count : Z)
    (s : usb_dev) :
  usb_current_state (ctr0_tx s) = usb_current_state s /\
  (forall s' rv, usb_control buf count s = Ok (s', rv) ->
                 usb_current_state s' = usb_current_state s) /\
  (forall s', data_ctr ep inbuf s = Ok s' ->
              usb_current_state s' = usb_current_state s).
Proof.
  split; [| split].
  - unfold ctr0_tx. cbv zeta. branches; reflexivity.
  - intros s' rv. unfold usb_control. destruct (cp21_control s).
    + intros H; inversion H; reflexivity.
    + destruct (memcpy (cp21_baud s) buf count); cbn [bind]; try discriminate.
      intros H; inversion H; reflexivity.
    + destruct (memcpy (cp21_chars s) buf count); cbn [bind];
        try discriminate.
      intros H; inversion H; reflexivity.
  - intros s'. unfold data_ctr. cbv zeta.
    branches; intros H; inversion H; reflexivity.
Qed.


(** ** [memset], [strlen], [strcmp] *)

Lemma memset_loop_rd (n : nat) (i : Z) (dest : list Z) (val j : Z) :
  0 <= i -> i + Z.of_nat n <= Z.of_nat (length dest) ->
  rd (memset_loop n i dest val) j
  = if (i <=? j) && (j <? i + Z.of_nat n) then uint8 val else rd dest j.
Proof.
  revert i dest. induction n as [| n IH]; intros i dest Hi Hlen.
  - cbn [memset_loop].
    destruct (Z.leb_spec i j), (Z.ltb_spec j (i + Z.of_nat 0));
      cbn [andb]; try reflexivity; lia.
  - cbn [memset_loop]. rewrite IH by (rewrite ?length_wr; lia).
    rewrite rd_wr.
    destruct (Z.leb_spec (i + 1) j), (Z.ltb_spec j (i + 1 + Z.of_nat n)),
      (Z.leb_spec i j), (Z.ltb_spec j (i + Z.of_nat (S n))),
      (Z.eqb_spec i j), (Z.leb_spec 0 i),
      (Z.ltb_spec i (Z.of_nat (length dest)));
      cbn [andb]; try reflexivity; lia.
Qed.

Lemma length_memset_loop (n : nat) (i : Z) (dest : list Z) (val : Z) :
  length (memset_loop n i dest val) = length dest.
Proof.
  revert i dest. induction n as [| n IH]; intros i dest; [reflexivity |].
  cbn [memset_loop]. rewrite IH. apply length_wr.
Qed.

(** X1. [memset] within the destination stores the byte [val] in the
    first [len] places and leaves the others; a [len] of zero or less
    changes nothing. *)
Theorem memset_fills (dest : list Z) (val len : Z) :
  len <= sizeof dest ->
  exists d, memset dest val len = Ok d /\
            length d = length dest /\
            (forall j, rd d j = if (0 <=? j) && (j <? len) then uint8 val
                                else rd dest j) /\
            (len <= 0 -> d = dest).
Proof.
  intros Hlen. unfold memset, sizeof in *. rewrite Z.gtb_ltb.
  destruct (Z.ltb_spec (Z.of_nat (length dest)) len) as [? | _]; [lia |].
  eexists. split; [reflexivity |]. split; [apply length_memset_loop |].
  split.
  - intros j. rewrite memset_loop_rd by lia.
    destruct (Z.leb_spec 0 j), (Z.ltb_spec j (0 + Z.of_nat (Z.to_nat len))),
      (Z.ltb_spec j len); cbn [andb]; try reflexivity; lia.
  - intros Hneg. replace (Z.to_nat len) with 0%nat by lia. reflexivity.
Qed.

Lemma memset_fills_witness :
  exists d, memset [1; 2; 3; 4] 0x141 3 = Ok d /\
            length d = length [1; 2; 3; 4] /\
            (forall j, rd d j = if (0 <=? j) && (j <? 3) then uint8 0x141
                                else rd [1; 2; 3; 4] j) /\
            (3 <= 0 -> d = [1; 2; 3; 4]).
Proof.
  apply (memset_fills [1; 2; 3; 4] 0x141 3). vm_compute. discriminate.
Defined.

Lemma strlen_c_string (s : list Z) :
  strlen s = Z.of_nat (length (c_string s)).
Proof.
  induction s as [| c s IH]; [reflexivity |].
  cbn [strlen c_string]. destruct (c =? 0); [reflexivity |].
  cbn [length]. rewrite IH. lia.
Qed.

Lemma c_string_nonzero (a b : list Z) :
  Forall (fun c => c <> 0) a -> c_string (a ++ 0 :: b) = a /\ c_string a = a.
Proof.
  induction 1 as [| c a Hc _ [IH1 IH2]]; [split; reflexivity |].
  cbn [app c_string].
  destruct (Z.eqb_spec c 0) as [? | _]; [contradiction |].
  rewrite IH1, IH2. split; reflexivity.
Qed.

(** X2. [strlen] counts the characters before the first zero and ignores
    whatever follows it. *)
Theorem strlen_stops_at_zero (a b : list Z) :
  Forall (fun c => c <> 0) a ->
  strlen (a ++ 0 :: b) = Z.of_nat (length a) /\
  strlen a = Z.of_nat (length a).
Proof.
  intros Ha. rewrite !strlen_c_string.
  destruct (c_string_nonzero a b Ha) as [-> ->]. split; reflexivity.
Qed.

Lemma strlen_stops_at_zero_witness :
  strlen ([104; 105] ++ 0 :: [120; 121]) = Z.of_nat (length [104; 105]) /\
  strlen [104; 105] = Z.of_nat (length [104; 105]).
Proof.
  apply (strlen_stops_at_zero [104; 105] [120; 121]).
  repeat constructor; discriminate.
Defined.

(** X3. [strcmp] returns 0 exactly when the two strings have the same
    characters up to their terminating zeros, and swapping the arguments
    negates the result. *)
Theorem strcmp_zero_iff_equal (s1 s2 : list Z) :
  (strcmp s1 s2 = 0 <-> c_string s1 = c_string s2) /\
  strcmp s2 s1 = - strcmp s1 s2.
Proof.
  revert s2. induction s1 as [| c1 r1 IH]; intros s2.
  - destruct s2 as [| c2 r2]; cbn [strcmp head_char c_string].
    + split; [tauto | reflexivity].
    + rewrite (Z.eqb_sym c2 0).
      destruct (Z.eqb_spec 0 c2) as [<- | Hne]; cbn.
      * split; [tauto | reflexivity].
      * split; [split; [lia | discriminate] | lia].
  - destruct s2 as [| c2 r2]; cbn [strcmp head_char c_string tl].
    + rewrite (Z.eqb_sym 0 c1).
      destruct (Z.eqb_spec c1 0) as [-> | Hne]; cbn.
      * split; [tauto | reflexivity].
      * split; [split; [lia | discriminate] | lia].
    + rewrite (Z.eqb_sym c2 c1).
      destruct (Z.eqb_spec c1 c2) as [<- | Hne].
      * destruct (Z.eqb_spec c1 0) as [-> | Hnz].
        -- split; [tauto | reflexivity].
        -- destruct (IH r2) as [IHa IHb]. split; [| exact IHb].
           rewrite IHa. split; [intros ->; reflexivity |].
           intros H; inversion H; reflexivity.
      * split; [| lia]. split; [lia |].
        destruct (Z.eqb_spec c1 0), (Z.eqb_spec c2 0); intros H;
          inversion H; lia.
Qed.


(** ** [itoa] *)

Lemma itoa_loop_eq (room : nat) (v radix : Z) (started : bool) :
  itoa_loop room v radix started
  = if (v =? 0) && started then Ok []
    else match room with
         | O => Overrun
         | S room' =>
             run rest <- itoa_loop room' (v / radix) radix true in
             Ok (itoa_char (int32 (v mod radix)) :: rest)
         end.
Proof. destruct room; reflexivity. Qed.

Lemma decimal_value_rev (ds : list Z) : decimal_value (rev ds) = lsd_value ds.
Proof.
  unfold decimal_value, lsd_value.
  rewrite <- (rev_involutive ds) at 2. rewrite fold_left_rev_right.
  reflexivity.
Qed.

Lemma itoa_char_decimal (v : Z) :
  0 <= v -> itoa_char (int32 (v mod 10)) = v mod 10 + 48.
Proof.
  intros Hv. assert (0 <= v mod 10 < 10) by (apply Z.mod_pos_bound; lia).
  rewrite int32_small by (unfold INT_MAX; lia).
  unfold itoa_char. destruct (Z.ltb_spec (v mod 10) 10) as [_ | ?]; [| lia].
  unfold uint8. apply Z.mod_small. lia.
Qed.

Lemma itoa_loop_decimal (n : nat) :
  forall (room : nat) (v : Z) (started : bool),
    (n <= room)%nat -> (started = false -> (1 <= room)%nat) ->
    0 <= v < 10 ^ Z.of_nat n ->
    exists ds,
      itoa_loop room v 10 started = Ok ds /\
      Forall is_digit ds /\
      lsd_value ds = v /\
      (length ds <= Nat.max 1 n)%nat /\
      (started = true -> (length ds <= n)%nat) /\
      (started = false -> ds <> []) /\
      (v <> 0 -> List.last ds 0 <> 48).
Proof.
  induction n as [| n IH]; intros room v started Hroom Hfirst Hv.
  - assert (v = 0) by (change (10 ^ Z.of_nat 0) with 1 in Hv; lia). subst v.
    rewrite itoa_loop_eq. destruct started; cbn [Z.eqb andb].
    + exists []. repeat split; try constructor; try (cbn; lia);
        try discriminate; intros; congruence.
    + destruct room as [| room']; [specialize (Hfirst eq_refl); lia |].
      rewrite itoa_loop_eq. cbn [Z.eqb andb bind].
      exists [48]. repeat split; try (cbn; lia); try discriminate;
        try (intros; congruence).
      repeat constructor; unfold is_digit; lia.
  - rewrite itoa_loop_eq.
    destruct (Z.eqb_spec v 0) as [-> | Hnz]; cbn [andb].
    + destruct started.
      * exists []. repeat split; try constructor; try (cbn; lia);
          try discriminate; intros; congruence.
      * destruct room as [| room']; [lia |].
        rewrite itoa_loop_eq. cbn [Z.eqb andb bind].
        exists [48]. repeat split; try (cbn; lia); try discriminate;
          try (intros; congruence).
        repeat constructor; unfold is_digit; lia.
    + destruct room as [| room']; [lia |].
      assert (Hdiv : 0 <= v / 10 < 10 ^ Z.of_nat n).
      { replace (10 ^ Z.of_nat (S n)) with (10 * 10 ^ Z.of_nat n) in Hv
          by (rewrite Nat2Z.inj_succ, Z.pow_succ_r; lia).
        split; [apply Z.div_pos; lia |].
        apply Z.div_lt_upper_bound; lia. }
      destruct (IH room' (v / 10) true ltac:(lia) ltac:(discriminate) Hdiv)
        as (rest & Hrest & Hdig & Hval & _ & Hlen & _ & Hlast).
      rewrite Hrest. cbn [bind]. rewrite itoa_char_decimal by lia.
      assert (Hmod : 0 <= v mod 10 < 10) by (apply Z.mod_pos_bound; lia).
      exists (v mod 10 + 48 :: rest). split; [reflexivity |].
      split; [constructor; [unfold is_digit; lia | exact Hdig] |].
      split.
      { cbn [lsd_value fold_right]. fold (lsd_value rest). rewrite Hval.
        pose proof (Z.div_mod v 10 ltac:(lia)). lia. }
      specialize (Hlen eq_refl).
      split; [cbn [length]; lia |]. split; [cbn [length]; lia |].
      split; [discriminate |].
      intros _. destruct rest as [| d rest'].
      * cbn [List.last]. cbn in Hval.
        pose proof (Z.div_mod v 10 ltac:(lia)). lia.
      * change (List.last (v mod 10 + 48 :: d :: rest') 0)
          with (List.last (d :: rest') 0).
        apply Hlast. intros H0. rewrite H0 in Hrest.
        rewrite itoa_loop_eq in Hrest. cbn [Z.eqb andb] in Hrest.
        discriminate.
Qed.

(** X4. In base 10 [itoa] never runs past its digit buffer: for every
    [int] it writes an optional minus sign and between 1 and 10 decimal
    digits, without a leading zero unless the value is 0, and the digits
    denote the absolute value. *)
Theorem itoa_decimal (value : Z) :
  - 2 ^ 31 <= value < 2 ^ 31 ->
  exists ds,
    itoa value 10 = Ok ((if value <? 0 then [45] else []) ++ ds) /\
    Forall is_digit ds /\
    decimal_value ds = Z.abs value /\
    (1 <= length ds <= 10)%nat /\
    (value <> 0 -> head_char ds <> 48).
Proof.
  intros Hrange. unfold itoa, itoa_magnitude, itoa_sign. cbn [Z.eqb Pos.eqb andb].
  change (10 mod 2 ^ 32) with 10.
  set (v := if value <? 0 then (- value) mod 2 ^ 32 else value mod 2 ^ 32).
  assert (Hv : v = Z.abs value).
  { subst v. destruct (Z.ltb_spec value 0);
      rewrite Z.mod_small by lia; lia. }
  assert (Hb : 0 <= v < 10 ^ Z.of_nat 10).
  { change (10 ^ Z.of_nat 10) with 10000000000. lia. }
  destruct (itoa_loop_decimal 10 16 v false ltac:(lia) ltac:(lia) Hb)
    as (ds & Hds & Hdig & Hval & Hlen & _ & Hne & Hlast).
  rewrite Hds. cbn [bind]. exists (rev ds). split; [reflexivity |].
  split; [apply Forall_rev; exact Hdig |].
  split; [rewrite decimal_value_rev; lia |].
  rewrite length_rev. specialize (Hne eq_refl).
  split.
  - destruct ds; [contradiction | cbn [length] in *; lia].
  - intros Hnz. specialize (Hlast ltac:(lia)).
    destruct ds as [| d ds'] using rev_ind; [contradiction |].
    rewrite rev_app_distr. cbn [rev app head_char].
    rewrite List.last_last in Hlast. exact Hlast.
Qed.

Lemma itoa_decimal_witness :
  exists ds,
    itoa (-2147483648) 10
    = Ok ((if -2147483648 <? 0 then [45] else []) ++ ds) /\
    Forall is_digit ds /\
    decimal_value ds = Z.abs (-2147483648) /\
    (1 <= length ds <= 10)%nat /\
    (-2147483648 <> 0 -> head_char ds <> 48).
Proof.
  apply (itoa_decimal (-2147483648)). lia.
Defined.

Lemma bind_overrun_iff {A B : Type} (r : result A) (f : A -> B) :
  bind r (fun a => Ok (f a)) = Overrun <-> r = Overrun.
Proof. destruct r; cbn; split; intros H; congruence. Qed.

Lemma itoa_loop_overrun_iff (room : nat) :
  forall (v radix : Z) (started : bool),
    2 <= radix -> 0 <= v -> (started = false -> (1 <= room)%nat) ->
    itoa_loop room v radix started = Overrun <-> radix ^ Z.of_nat room <= v.
Proof.
  induction room as [| room IH]; intros v radix started Hr Hv Hfirst.
  - destruct started; [| specialize (Hfirst eq_refl); lia].
    rewrite itoa_loop_eq. change (radix ^ Z.of_nat 0) with 1.
    destruct (Z.eqb_spec v 0); cbn [andb]; split; intros H;
      try congruence; try lia.
  - rewrite itoa_loop_eq.
    assert (Hpow : radix ^ Z.of_nat (S room) = radix * radix ^ Z.of_nat room)
      by (rewrite Nat2Z.inj_succ, Z.pow_succ_r; lia).
    assert (Hpos : 0 < radix ^ Z.of_nat room)
      by (apply Z.pow_pos_nonneg; lia).
    destruct ((v =? 0) && started) eqn:E.
    + apply andb_true_iff in E. destruct E as [E _].
      apply Z.eqb_eq in E. subst v.
      split; [discriminate | nia].
    + rewrite (bind_overrun_iff _ (fun rest =>
                 itoa_char (int32 (v mod radix)) :: rest)).
      rewrite IH by (try discriminate; try lia; apply Z.div_pos; lia).
      rewrite Hpow. split; intros H.
      * pose proof (Z.mul_div_le v radix ltac:(lia)). nia.
      * apply Z.div_le_lower_bound; lia.
Qed.

(** X5. [itoa] runs past its 16-character digit buffer exactly when the
    magnitude needs more than 16 digits in the radix: never for a radix of
    4 or more, and in radix 2 for every magnitude from 65536 on. *)
Theorem itoa_overrun (value radix : Z) :
  - 2 ^ 31 <= value < 2 ^ 31 ->
  2 <= radix < 2 ^ 31 ->
  (itoa value radix = Overrun
   <-> radix ^ 16 <= itoa_magnitude value radix) /\
  (4 <= radix -> itoa value radix <> Overrun).
Proof.
  intros Hvalue Hradix.
  assert (Hmag : 0 <= itoa_magnitude value radix < 2 ^ 32).
  { unfold itoa_magnitude. destruct (itoa_sign value radix);
      apply Z.mod_pos_bound; lia. }
  assert (Hiff : itoa value radix = Overrun
                 <-> radix ^ 16 <= itoa_magnitude value radix).
  { unfold itoa. rewrite Z.mod_small by lia.
    rewrite (bind_overrun_iff _ (fun tmp =>
               (if itoa_sign value radix then [45] else []) ++ rev tmp)).
    rewrite itoa_loop_overrun_iff by lia. reflexivity. }
  split; [exact Hiff |].
  intros H4. rewrite Hiff.
  assert (4 ^ 16 <= radix ^ 16) by (apply Z.pow_le_mono_l; lia).
  change (4 ^ 16) with (2 ^ 32) in *. lia.
Qed.

Lemma itoa_overrun_witness :
  (itoa 65536 2 = Overrun <-> 2 ^ 16 <= itoa_magnitude 65536 2) /\
  (4 <= 2 -> itoa 65536 2 <> Overrun).
Proof.
  apply (itoa_overrun 65536 2); lia.
Defined.


(** ** The queue under interleaved calls *)

Lemma cq_run_io_fst (cs : list cq_call) (q : cqueue) (io : cq_io) :
  fst (fold_left cq_io_step cs (q, io)) = cq_run q cs.
Proof.
  revert q io. induction cs as [| c cs IH]; intros q io; [reflexivity |].
  cbn [fold_left cq_run]. destruct c; cbn [cq_io_step]; apply IH.
Qed.

Lemma cq_io_invariant (C : Z) (cs : list cq_call) :
  forall (q : cqueue) (io : cq_io),
    cq_wf C q ->
    stored io = returned io ++ cq_contents q ->
    let st := fold_left cq_io_step cs (q, io) in
    cq_wf C (fst st) /\
    stored (snd st) = returned (snd st) ++ cq_contents (fst st).
Proof.
  induction cs as [| c cs IH]; intros q io Hwf Hinv; [split; assumption |].
  cbn [fold_left]. destruct c as [ch |]; cbn [cq_io_step]; apply IH.
  - apply (cq_wf_step C q (Add ch) Hwf).
  - cbn [stored returned].
    pose proof Hwf as (_ & Hsz & _ & _ & _ & Hcnt & _).
    destruct (Z.ltb_spec (q_count q) (q_size q)) as [Hlt | Hge].
    + rewrite Hsz in Hlt.
      destruct (cq_add_spec C q ch Hwf Hlt) as (_ & _ & _ & Hcont).
      rewrite Hcont, Hinv, app_assoc. reflexivity.
    + unfold cq_add.
      destruct (Z.ltb_spec (q_count q) (q_size q)) as [? | _]; [lia |].
      exact Hinv.
  - apply (cq_wf_step C q Remove Hwf).
  - cbn [stored returned].
    destruct (Z.ltb_spec (q_count q) 1) as [Hlt | Hge].
    + unfold cq_remove.
      destruct (Z.ltb_spec (q_count q) 1) as [_ | ?]; [| lia].
      exact Hinv.
    + destruct (cq_remove_spec C q Hwf Hge) as (_ & _ & _ & Hcont).
      rewrite Hinv, Hcont, <- app_assoc. reflexivity.
Qed.

(** X6. However [cq_add] and [cq_remove] calls are interleaved on a queue
    initialised over [C] bytes, the bytes returned so far followed by the
    unread bytes are exactly the bytes stored so far, in order: the queue
    never reorders, duplicates or loses a stored byte. *)
Theorem cq_fifo_interleaved (C : Z) (buf : list Z) (cs : list cq_call) :
  0 <= C <= INT_MAX ->
  Z.of_nat (length buf) = C ->
  let st := cq_run_io (cq_init buf C) cs in
  fst st = cq_run (cq_init buf C) cs /\
  stored (snd st) = returned (snd st) ++ cq_contents (fst st) /\
  Z.of_nat (length (cq_contents (fst st))) = cq_count (fst st).
Proof.
  intros HC Hbuf st.
  destruct (cq_io_invariant C cs (cq_init buf C)
              {| stored := []; returned := [] |}
              (cq_wf_init C buf HC Hbuf) eq_refl) as [Hwf Hinv].
  fold (cq_run_io (cq_init buf C) cs) in Hwf, Hinv. fold st in Hwf, Hinv.
  split; [apply cq_run_io_fst |]. split; [exact Hinv |].
  rewrite cq_contents_length. destruct Hwf as (_ & _ & _ & _ & _ & Hcnt & _).
  unfold cq_count. lia.
Qed.

Lemma cq_fifo_interleaved_witness :
  let st := cq_run_io (cq_init [0; 0] 2)
              [Add 1; Add 2; Add 3; Remove; Add 0x104; Remove; Remove;
               Remove] in
  fst st = cq_run (cq_init [0; 0] 2)
             [Add 1; Add 2; Add 3; Remove; Add 0x104; Remove; Remove;
              Remove] /\
  stored (snd st) = returned (snd st) ++ cq_contents (fst st) /\
  Z.of_nat (length (cq_contents (fst st))) = cq_count (fst st).
Proof.
  apply (cq_fifo_interleaved 2 [0; 0]
           [Add 1; Add 2; Add 3; Remove; Add 0x104; Remove; Remove; Remove]).
  - unfold INT_MAX. lia.
  - reflexivity.
Defined.

(** ** [endpoint_recv] *)

Lemma rd_nil (j : Z) : rd [] j = 0.
Proof. unfold rd. destruct (j <? 0); reflexivity. Qed.

Lemma rd_cons (x : Z) (l : list Z) (j : Z) :
  0 <= j -> rd (x :: l) j = if j =? 0 then x else rd l (j - 1).
Proof.
  intros Hj. unfold rd.
  destruct (Z.ltb_spec j 0) as [? | _]; [lia |].
  destruct (Z.eqb_spec j 0) as [-> | Hne]; [reflexivity |].
  destruct (Z.ltb_spec (j - 1) 0) as [? | _]; [lia |].
  replace (Z.to_nat j) with (S (Z.to_nat (j - 1))) by lia. reflexivity.
Qed.

Lemma endpoint_recv_loop_spec (C : Z) (n : nat) :
  forall (i : Z) (buf : list Z) (q : cqueue),
    cq_wf C q -> Z.of_nat n <= q_count q ->
    0 <= i -> i + Z.of_nat n <= Z.of_nat (length buf) ->
    let r := endpoint_recv_loop n i buf q in
    cq_wf C (snd r) /\
    cq_contents (snd r) = skipn n (cq_contents q) /\
    q_toss (snd r) = q_toss q /\
    length (fst r) = length buf /\
    forall j, rd (fst r) j
              = if (i <=? j) && (j <? i + Z.of_nat n)
                then uint8 (rd (cq_contents q) (j - i)) else rd buf j.
Proof.
  induction n as [| n IH]; intros i buf q Hwf Hn Hi Hlen.
  - cbn [endpoint_recv_loop fst snd skipn].
    split; [exact Hwf |]. split; [reflexivity |]. split; [reflexivity |].
    split; [reflexivity |]. intros j.
    destruct (Z.leb_spec i j), (Z.ltb_spec j (i + Z.of_nat 0));
      cbn [andb]; try reflexivity; lia.
  - cbn [endpoint_recv_loop].
    destruct (cq_remove_spec C q Hwf ltac:(lia)) as (Hwf' & Hc' & Ht' & Hcont).
    destruct (cq_remove q) as [q' ch]. cbn [fst snd] in *.
    destruct (IH (i + 1) (wr buf i (uint8 ch)) q' Hwf' ltac:(lia) ltac:(lia)
                ltac:(rewrite length_wr; lia))
      as (Hwf2 & Hcont2 & Ht2 & Hlen2 & Hrd2).
    split; [exact Hwf2 |].
    split; [rewrite Hcont2, Hcont; reflexivity |].
    split; [lia |]. split; [rewrite Hlen2; apply length_wr |].
    intros j. rewrite Hrd2, Hcont, rd_wr.
    destruct (Z.leb_spec (i + 1) j), (Z.ltb_spec j (i + 1 + Z.of_nat n)),
      (Z.leb_spec i j), (Z.ltb_spec j (i + Z.of_nat (S n))),
      (Z.eqb_spec i j), (Z.leb_spec 0 i),
      (Z.ltb_spec i (Z.of_nat (length buf)));
      cbn [andb]; try reflexivity; try lia.
    + rewrite (rd_cons ch _ (j - i)) by lia.
      destruct (Z.eqb_spec (j - i) 0); [lia |].
      do 2 f_equal. lia.
    + subst j. rewrite Z.sub_diag. reflexivity.
Qed.

(** X7. [endpoint_recv] on a non-empty queue moves the [min (count,
    limit)] oldest unread bytes, in order, to the start of [buf], leaves
    the rest of [buf] and of the queue as they were and changes nothing
    else in the driver; on an empty queue it waits. *)
Theorem endpoint_recv_takes_oldest (C ep limit : Z) (buf : list Z)
    (s : usb_dev) :
  cq_wf C (in_queue s) ->
  0 <= limit <= sizeof buf ->
  (cq_count (in_queue s) < 1 -> endpoint_recv ep buf limit s = Spin) /\
  (1 <= cq_count (in_queue s) ->
   exists q' buf',
     let n := Z.min (cq_count (in_queue s)) limit in
     endpoint_recv ep buf limit s = Ok (set_in_queue q' s, buf', n) /\
     (forall j, rd buf' j
                = if (0 <=? j) && (j <? n)
                  then uint8 (rd (cq_contents (in_queue s)) j)
                  else rd buf j) /\
     cq_contents q' = skipn (Z.to_nat n) (cq_contents (in_queue s)) /\
     cq_count q' = cq_count (in_queue s) - n).
Proof.
  intros Hwf Hlimit. unfold endpoint_recv, cq_count. split.
  - intros Hempty.
    destruct (Z.ltb_spec (q_count (in_queue s)) 1) as [_ | ?];
      [reflexivity | lia].
  - intros Hsome.
    destruct (Z.ltb_spec (q_count (in_queue s)) 1) as [? | _]; [lia |].
    cbv zeta. rewrite !Z.gtb_ltb.
    set (n := if limit <? q_count (in_queue s) then limit
              else q_count (in_queue s)).
    assert (Hn : n = Z.min (q_count (in_queue s)) limit).
    { subst n. destruct (Z.ltb_spec limit (q_count (in_queue s))); lia. }
    destruct (Z.ltb_spec (sizeof buf) n) as [? | _]; [lia |].
    destruct (endpoint_recv_loop_spec C (Z.to_nat n) 0 buf (in_queue s) Hwf
                ltac:(lia) ltac:(lia) ltac:(unfold sizeof in *; lia))
      as (Hwf' & Hcont & _ & _ & Hrd).
    destruct (endpoint_recv_loop (Z.to_nat n) 0 buf (in_queue s))
      as [buf' q'] eqn:E. cbn [fst snd] in *.
    exists q', buf'. rewrite <- Hn. split; [reflexivity |].
    split; [| split].
    + intros j. rewrite Hrd, Z.sub_0_r, Z2Nat.id by lia. reflexivity.
    + exact Hcont.
    + assert (Hl : length (cq_contents q')
                   = length (skipn (Z.to_nat n) (cq_contents (in_queue s))))
        by (rewrite Hcont; reflexivity).
      rewrite length_skipn, !cq_contents_length in Hl.
      destruct Hwf' as (_ & _ & _ & _ & _ & Hc' & _).
      destruct Hwf as (_ & _ & _ & _ & _ & Hc & _). lia.
Qed.

Lemma endpoint_recv_takes_oldest_witness :
  let s := set_in_queue
             (cq_add_all (cq_init [0; 0; 0; 0] 4) [104; 105; 106]) boot in
  (cq_count (in_queue s) < 1 -> endpoint_recv EP1R [0; 0] 2 s = Spin) /\
  (1 <= cq_count (in_queue s) ->
   exists q' buf',
     let n := Z.min (cq_count (in_queue s)) 2 in
     endpoint_recv EP1R [0; 0] 2 s = Ok (set_in_queue q' s, buf', n) /\
     (forall j, rd buf' j
                = if (0 <=? j) && (j <? n)
                  then uint8 (rd (cq_contents (in_queue s)) j)
                  else rd [0; 0] j) /\
     cq_contents q' = skipn (Z.to_nat n) (cq_contents (in_queue s)) /\
     cq_count q' = cq_count (in_queue s) - n).
Proof.
  intros s. apply (endpoint_recv_takes_oldest 4 EP1R 2 [0; 0] s).
  - vm_compute. repeat split; try discriminate. left. reflexivity.
  - vm_compute. split; discriminate.
Defined.
